(** * Kanzi (Go): transforms and the TPAQ predictor

    A shallow embedding of [function/RLT.go], [function/TextCodec.go]
    (text codec, variant 1, and the X86 codec that lives in the same file)
    and of the TPAQ predictor, followed by the properties of the
    specification that were checked against them.

    Conventions.
    - Go's [int] is [Z]; [int32], [uint32], [byte] and [int8] are [Z] with
      the wrap-around written out ([int32], [uint32], [byte], [int8] below).
    - A slice is its element list together with the address of its first
      element; two slices with different addresses are taken to be disjoint.
    - A Go function that may panic returns an [outcome]; [Panic] is a
      run-time panic (index out of range, explicit [panic]), [Diverge] is
      the loop budget of the model running out (shown never to happen where
      a claim needs a result). *)

From Stdlib Require Import ZArith List Lia Bool.
From stdpp Require Import base option list gmap strings.

Local Open Scope Z_scope.

(** ** Machine integers *)

Definition int32 (x : Z) : Z := (x + 2 ^ 31) mod 2 ^ 32 - 2 ^ 31.
Definition uint32 (x : Z) : Z := x mod 2 ^ 32.
Definition byte (x : Z) : Z := x mod 256.
Definition int8 (x : Z) : Z := (x + 128) mod 256 - 128.

Definition is_byte (b : Z) : Prop := 0 <= b < 256.
Definition is_byteb (b : Z) : bool := (0 <=? b) && (b <? 256).
Definition bytes_ok (l : list Z) : Prop := Forall is_byte l.

Definition mul32 (a b : Z) : Z := int32 (a * b).

(** ** Outcomes of Go calls *)

Inductive outcome (A : Type) : Type :=
| Done (a : A)
| Panic
| Diverge.
Arguments Done {A} a.
Arguments Panic {A}.
Arguments Diverge {A}.

#[global] Instance outcome_bind : MBind outcome := fun A B k m =>
  match m with
  | Done a => k a
  | Panic => Panic
  | Diverge => Diverge
  end.

(** The error values the transforms return (the kinds of the
    specification's error section; the message texts are not modelled). *)
Inductive error : Type :=
| ErrAlias          (* "Input and output buffers cannot be equal" *)
| ErrTooSmall       (* "Output buffer is too small ..." *)
| ErrNotBinary      (* "Not a binary or not enough jumps" *)
| ErrNotText        (* "Input is not text, skipping" *)
| ErrNotCompressed  (* "Input not compressed" *)
| ErrInvalid        (* "Invalid input data", "Invalid run length", ... *)
| ErrIndex.         (* "Text transform failed. Source index ..." *)

(** ** Slices *)

Record slice : Type := Slice { base : Z; elems : list Z }.

Definition len (l : list Z) : Z := Z.of_nat (length l).

(** [l[i]] as a read: panics out of range. *)
Definition ld (l : list Z) (i : Z) : outcome Z :=
  if (0 <=? i) && (i <? len l)
  then match l !! Z.to_nat i with Some b => Done b | None => Panic end
  else Panic.

(** [l[i] = v]: panics out of range. *)
Definition st (l : list Z) (i v : Z) : outcome (list Z) :=
  if (0 <=? i) && (i <? len l) then Done (<[Z.to_nat i := v]> l) else Panic.

(** [&s[0]] *)
Definition addr0 (s : slice) : outcome Z :=
  match elems s with
  | [] => Panic
  | _ :: _ => Done (base s)
  end.

(** What a transform hands back: Go's [(uint, uint, error)] and the
    destination memory after the call. *)
Record ret : Type := Ret {
  nread : Z;
  nwritten : Z;
  err : option error;
  mem : list Z
}.

(** The bytes a call produced: [dst[:written]]. *)
Definition output (r : ret) : list Z := take (Z.to_nat (nwritten r)) (mem r).

(** A sub-slice [l[lo:hi]] (the capacity of a slice is taken to be its
    length) and the memory of [l] after the callee wrote through it. *)
Definition sub_slice (l : list Z) (lo hi : Z) : outcome (list Z) :=
  if (0 <=? lo) && (lo <=? hi) && (hi <=? len l)
  then Done (take (Z.to_nat (hi - lo)) (drop (Z.to_nat lo) l))
  else Panic.

Definition put_back (l : list Z) (lo : Z) (sub : list Z) : list Z :=
  take (Z.to_nat lo) l ++ sub ++ drop (Z.to_nat lo + length sub) l.

(** [from, from + 1, ...], [n] of them: the indices of a counted loop. *)
Fixpoint indices (from : Z) (n : nat) : list Z :=
  match n with
  | O => []
  | S n => from :: indices (from + 1) n
  end.

(** ** X86 codec ([function/TextCodec.go], second half) *)

Module X86Codec.

Definition _X86_INSTRUCTION_MASK : Z := 0xFE.
Definition _X86_INSTRUCTION_JUMP : Z := 0xE8.
Definition _X86_ADDRESS_MASK : Z := 0xD5.
Definition _X86_ESCAPE : Z := 0x02.

Definition MaxEncodedLen (srcLen : Z) : Z :=
  if 2 ^ 30 <=? srcLen then srcLen
  else if srcLen <=? 512 then srcLen + 32
  else srcLen + srcLen ÷ 16.

Definition is_jump (b : Z) : bool :=
  Z.land b _X86_INSTRUCTION_MASK =? _X86_INSTRUCTION_JUMP.

(** The counting loop [for i := 0; i < end; i++]. *)
Fixpoint count_jumps (fuel : nat) (src : list Z) (end_ i jumps : Z) : outcome Z :=
  if i <? end_ then
    match fuel with
    | O => Diverge
    | S fuel =>
        b ← ld src i;
        if is_jump b then
          s4 ← ld src (i + 4);
          if (s4 =? 0) || (s4 =? 255) then
            b' ← ld src i;
            if negb (b' =? 0) && negb (b' =? 1) && negb (b' =? _X86_ESCAPE)
            then count_jumps fuel src end_ (i + 1) (jumps + 1)
            else count_jumps fuel src end_ (i + 1) jumps
          else count_jumps fuel src end_ (i + 1) jumps
        else count_jumps fuel src end_ (i + 1) jumps
    end
  else Done jumps.

(** The transforming loop [for srcIdx < end] of [Forward]. *)
Fixpoint forward_loop (fuel : nat) (src : list Z) (end_ srcIdx dstIdx : Z)
    (dst : list Z) : outcome (Z * Z * list Z) :=
  if srcIdx <? end_ then
    match fuel with
    | O => Diverge
    | S fuel =>
        b ← ld src srcIdx;
        dst ← st dst dstIdx b;
        let dstIdx := dstIdx + 1 in
        let srcIdx := srcIdx + 1 in
        prev ← ld src (srcIdx - 1);
        if negb (is_jump prev) then forward_loop fuel src end_ srcIdx dstIdx dst
        else
          cur ← ld src srcIdx;
          if (cur =? 0) || (cur =? 1) || (cur =? _X86_ESCAPE) then
            dst ← st dst dstIdx _X86_ESCAPE;
            dst ← st dst (dstIdx + 1) cur;
            forward_loop fuel src end_ (srcIdx + 1) (dstIdx + 2) dst
          else
            sgn ← ld src (srcIdx + 3);
            if negb (sgn =? 0) && negb (sgn =? 255)
            then forward_loop fuel src end_ srcIdx dstIdx dst
            else
              b0 ← ld src srcIdx;
              b1 ← ld src (srcIdx + 1);
              b2 ← ld src (srcIdx + 2);
              let addr :=
                Z.lor (Z.lor (Z.lor (int32 b0) (int32 (Z.shiftl (int32 b1) 8)))
                             (int32 (Z.shiftl (int32 b2) 16)))
                      (int32 (Z.shiftl (int32 sgn) 24)) in
              let addr := int32 (addr + int32 srcIdx) in
              dst ← st dst dstIdx (byte (sgn + 1));
              dst ← st dst (dstIdx + 1)
                       (Z.lxor _X86_ADDRESS_MASK (byte (Z.shiftr addr 16)));
              dst ← st dst (dstIdx + 2)
                       (Z.lxor _X86_ADDRESS_MASK (byte (Z.shiftr addr 8)));
              dst ← st dst (dstIdx + 3) (Z.lxor _X86_ADDRESS_MASK (byte addr));
              forward_loop fuel src end_ (srcIdx + 4) (dstIdx + 4) dst
    end
  else Done (srcIdx, dstIdx, dst).

(** The closing loop [for srcIdx < count] shared by both directions. *)
Fixpoint copy_loop (fuel : nat) (src : list Z) (count srcIdx dstIdx : Z)
    (dst : list Z) : outcome (Z * Z * list Z) :=
  if srcIdx <? count then
    match fuel with
    | O => Diverge
    | S fuel =>
        b ← ld src srcIdx;
        dst ← st dst dstIdx b;
        copy_loop fuel src count (srcIdx + 1) (dstIdx + 1) dst
    end
  else Done (srcIdx, dstIdx, dst).

Definition Forward (src dst : slice) : outcome ret :=
  ps ← addr0 src;
  pd ← addr0 dst;
  if ps =? pd then Done (Ret 0 0 (Some ErrAlias) (elems dst))
  else
    let count := len (elems src) in
    if len (elems dst) <? MaxEncodedLen count
    then Done (Ret 0 0 (Some ErrTooSmall) (elems dst))
    else
      let end_ := count - 8 in
      jumps ← count_jumps (length (elems src)) (elems src) end_ 0 0;
      if jumps <? Z.shiftr count 7
      then Done (Ret 0 0 (Some ErrNotBinary) (elems dst))
      else
        '(srcIdx, dstIdx, d) ←
          forward_loop (length (elems src)) (elems src) end_ 0 0 (elems dst);
        '(srcIdx, dstIdx, d) ←
          copy_loop (length (elems src)) (elems src) count srcIdx dstIdx d;
        Done (Ret srcIdx dstIdx None d).

(** The transforming loop of [Inverse]. *)
Fixpoint inverse_loop (fuel : nat) (src : list Z) (end_ srcIdx dstIdx : Z)
    (dst : list Z) : outcome (Z * Z * list Z) :=
  if srcIdx <? end_ then
    match fuel with
    | O => Diverge
    | S fuel =>
        b ← ld src srcIdx;
        dst ← st dst dstIdx b;
        let dstIdx := dstIdx + 1 in
        let srcIdx := srcIdx + 1 in
        prev ← ld src (srcIdx - 1);
        if negb (is_jump prev) then inverse_loop fuel src end_ srcIdx dstIdx dst
        else
          sgn ← ld src srcIdx;
          if sgn =? _X86_ESCAPE
          then inverse_loop fuel src end_ (srcIdx + 1) dstIdx dst
          else if negb (sgn =? 1) && negb (sgn =? 0)
          then inverse_loop fuel src end_ srcIdx dstIdx dst
          else
            e3 ← ld src (srcIdx + 3);
            e2 ← ld src (srcIdx + 2);
            e1 ← ld src (srcIdx + 1);
            let addr :=
              Z.lor (Z.lor (Z.lor (Z.lxor _X86_ADDRESS_MASK (int32 e3))
                                  (int32 (Z.shiftl (Z.lxor _X86_ADDRESS_MASK (int32 e2)) 8)))
                           (int32 (Z.shiftl (Z.lxor _X86_ADDRESS_MASK (int32 e1)) 16)))
                    (int32 (Z.shiftl (Z.land 0xFF (int32 (byte (sgn - 1)))) 24)) in
            let addr := int32 (addr - int32 dstIdx) in
            dst ← st dst dstIdx (byte addr);
            dst ← st dst (dstIdx + 1) (byte (Z.shiftr addr 8));
            dst ← st dst (dstIdx + 2) (byte (Z.shiftr addr 16));
            dst ← st dst (dstIdx + 3) (byte (sgn - 1));
            inverse_loop fuel src end_ (srcIdx + 4) (dstIdx + 4) dst
    end
  else Done (srcIdx, dstIdx, dst).

Definition Inverse (src dst : slice) : outcome ret :=
  ps ← addr0 src;
  pd ← addr0 dst;
  if ps =? pd then Done (Ret 0 0 (Some ErrAlias) (elems dst))
  else
    let count := len (elems src) in
    let end_ := count - 8 in
    '(srcIdx, dstIdx, d) ←
      inverse_loop (length (elems src)) (elems src) end_ 0 0 (elems dst);
    '(srcIdx, dstIdx, d) ←
      copy_loop (length (elems src)) (elems src) count srcIdx dstIdx d;
    Done (Ret srcIdx dstIdx None d).

(** The two loops of [Forward] from an intermediate state, and the two
    loops of [Inverse]; [Forward] and [Inverse] run them from [(0, 0)]. *)
Definition fwd_rest (f1 f2 : nat) (src : list Z) (s d : Z) (buf : list Z)
    : outcome (Z * Z * list Z) :=
  '(s1, d1, b1) ← forward_loop f1 src (len src - 8) s d buf;
  copy_loop f2 src (len src) s1 d1 b1.

Definition inv_rest (g1 g2 : nat) (enc : list Z) (i j : Z) (buf : list Z)
    : outcome (Z * Z * list Z) :=
  '(i1, j1, b1) ← inverse_loop g1 enc (len enc - 8) i j buf;
  copy_loop g2 enc (len enc) i1 j1 b1.

End X86Codec.

(** ** Run length transform ([function/RLT.go]) *)

(** Modelled from the spec: [kanzi.ComputeHistogram] of the utility layer is
    not part of the sources at hand; the specification only says that the
    shared utilities provide byte histograms.  With the flags [RLT.Forward]
    passes (order 0, no total) it fills [freqs[b]] with the number of
    occurrences of the byte [b] in the block. *)
Definition ComputeHistogram (block : list Z) : list Z :=
  map (fun b => Z.of_nat (length (filter (fun x => x = b) block))) (seqZ 0 256).

Module RLT.

Definition _RLT_RUN_LEN_ENCODE1 : Z := 224.
Definition _RLT_RUN_LEN_ENCODE2 : Z := Z.shiftl (255 - _RLT_RUN_LEN_ENCODE1) 8.
Definition _RLT_RUN_THRESHOLD : Z := 3.
Definition _RLT_MAX_RUN : Z := 0xFFFF + _RLT_RUN_LEN_ENCODE2 + _RLT_RUN_THRESHOLD - 1.
Definition _RLT_MAX_RUN4 : Z := _RLT_MAX_RUN - 4.

Definition MaxEncodedLen (srcLen : Z) : Z :=
  if srcLen <=? 512 then srcLen + 32 else srcLen.

(** [emitRunLength]: the memory of [dst] after the call, the index returned
    and the error. *)
Definition emitRunLength (dst : list Z) (run escape val : Z)
    : outcome (list Z * Z * option error) :=
  dst ← st dst 0 val;
  '(dst, dstIdx) ←
    (if val =? escape
     then dst ← st dst 1 0; Done (dst, 2)
     else Done (dst, 1));
  dst ← st dst dstIdx escape;
  let dstIdx := dstIdx + 1 in
  let run := run - _RLT_RUN_THRESHOLD in
  if _RLT_RUN_LEN_ENCODE1 <=? run then
    if run <? _RLT_RUN_LEN_ENCODE2 then
      if len dst - 2 <=? dstIdx then Done (dst, dstIdx, Some ErrTooSmall)
      else
        let run := run - _RLT_RUN_LEN_ENCODE1 in
        dst ← st dst dstIdx (byte (_RLT_RUN_LEN_ENCODE1 + Z.shiftr run 8));
        let dstIdx := dstIdx + 1 in
        dst ← st dst dstIdx (byte run);
        Done (dst, dstIdx + 1, None)
    else
      if len dst - 3 <=? dstIdx then Done (dst, dstIdx, Some ErrTooSmall)
      else
        let run := run - _RLT_RUN_LEN_ENCODE2 in
        dst ← st dst dstIdx (byte 0xFF);
        dst ← st dst (dstIdx + 1) (byte (Z.shiftr run 8));
        let dstIdx := dstIdx + 2 in
        dst ← st dst dstIdx (byte run);
        Done (dst, dstIdx + 1, None)
  else
    dst ← st dst dstIdx (byte run);
    Done (dst, dstIdx + 1, None).

(** The selection of the escape symbol:
    [for i, f := range freqs { if f < freqs[minIdx] { minIdx = i; if f == 0 { break } } }] *)
Fixpoint select_escape (freqs : list Z) (rest : list Z) (i minIdx : Z) : Z :=
  match rest with
  | [] => minIdx
  | f :: rest =>
      if f <? default 0 (freqs !! Z.to_nat minIdx) then
        if f =? 0 then i else select_escape freqs rest (i + 1) i
      else select_escape freqs rest (i + 1) minIdx
  end.

(** [for run > 0 { dst[dstIdx] = v; dstIdx++; run-- }] *)
Fixpoint emit_literals (n : nat) (dst : list Z) (dstIdx v : Z) : outcome (list Z * Z) :=
  match n with
  | O => Done (dst, dstIdx)
  | S n => dst ← st dst dstIdx v; emit_literals n dst (dstIdx + 1) v
  end.

(** [for run > 0 { dst[dstIdx] = escape; dst[dstIdx+1] = 0; dstIdx += 2; run-- }] *)
Fixpoint emit_escapes (n : nat) (dst : list Z) (dstIdx escape : Z) : outcome (list Z * Z) :=
  match n with
  | O => Done (dst, dstIdx)
  | S n =>
      dst ← st dst dstIdx escape;
      dst ← st dst (dstIdx + 1) 0;
      emit_escapes n dst (dstIdx + 2) escape
  end.

(** The state of the loops of [Forward]. *)
Record fstate : Type := FState {
  f_srcIdx : Z;
  f_dstIdx : Z;
  f_run : Z;
  f_prev : Z;
  f_err : option error;
  f_dst : list Z
}.

(** The four nested comparisons at the head of the main loop: the new
    [srcIdx] and [run], and whether the loop continues at once. *)
Definition scan_run (src : list Z) (prev srcIdx run : Z) : outcome (Z * Z * bool) :=
  c ← ld src srcIdx;
  if prev =? c then
    let srcIdx := srcIdx + 1 in let run := run + 1 in
    c ← ld src srcIdx;
    if prev =? c then
      let srcIdx := srcIdx + 1 in let run := run + 1 in
      c ← ld src srcIdx;
      if prev =? c then
        let srcIdx := srcIdx + 1 in let run := run + 1 in
        c ← ld src srcIdx;
        if prev =? c then
          let srcIdx := srcIdx + 1 in let run := run + 1 in
          Done (srcIdx, run, run <? _RLT_MAX_RUN4)
        else Done (srcIdx, run, false)
      else Done (srcIdx, run, false)
    else Done (srcIdx, run, false)
  else Done (srcIdx, run, false).

Fixpoint forward_loop (fuel : nat) (src : list Z) (escape : Z) (s : fstate)
    : outcome fstate :=
  let srcEnd4 := len src - 4 in
  let dstEnd := len (f_dst s) in
  if f_srcIdx s <? srcEnd4 then
    match fuel with
    | O => Diverge
    | S fuel =>
        '(srcIdx, run, again) ← scan_run src (f_prev s) (f_srcIdx s) (f_run s);
        let prev := f_prev s in
        let dst := f_dst s in
        let dstIdx := f_dstIdx s in
        if (again : bool) then forward_loop fuel src escape (FState srcIdx dstIdx run prev None dst)
        else
          let next dst dstIdx :=
            p ← ld src srcIdx;
            forward_loop fuel src escape (FState (srcIdx + 1) dstIdx 1 p None dst) in
          if _RLT_RUN_THRESHOLD <? run then
            sub ← sub_slice dst dstIdx dstEnd;
            '(sub, dIdx, err2) ← emitRunLength sub run escape prev;
            let dst := put_back dst dstIdx sub in
            match err2 with
            | Some e => Done (FState srcIdx dstIdx run prev (Some e) dst)
            | None => next dst (dstIdx + dIdx)
            end
          else if negb (prev =? escape) then
            if dstEnd <=? dstIdx + run
            then Done (FState srcIdx dstIdx run prev (Some ErrTooSmall) dst)
            else
              '(dst, dstIdx) ← emit_literals (Z.to_nat run) dst dstIdx prev;
              next dst dstIdx
          else
            if dstEnd <=? dstIdx + 2 * run
            then Done (FState srcIdx dstIdx run prev (Some ErrTooSmall) dst)
            else
              '(dst, dstIdx) ← emit_escapes (Z.to_nat run) dst dstIdx escape;
              next dst dstIdx
    end
  else Done s.

(** [for srcIdx < srcEnd && dstIdx < dstEnd]: "Copy the last few bytes". *)
Fixpoint copy_last (fuel : nat) (src : list Z) (srcIdx dstIdx : Z) (dst : list Z)
    : outcome (Z * Z * list Z) :=
  if (srcIdx <? len src) && (dstIdx <? len dst) then
    match fuel with
    | O => Diverge
    | S fuel =>
        b ← ld src srcIdx;
        dst ← st dst dstIdx b;
        copy_last fuel src (srcIdx + 1) (dstIdx + 1) dst
    end
  else Done (srcIdx, dstIdx, dst).

Definition Forward (src dst : slice) : outcome ret :=
  if len (elems src) =? 0 then Done (Ret 0 0 None (elems dst))
  else
    ps ← addr0 src;
    pd ← addr0 dst;
    if ps =? pd then Done (Ret 0 0 (Some ErrAlias) (elems dst))
    else if len (elems dst) <? MaxEncodedLen (len (elems src))
    then Done (Ret 0 0 (Some ErrTooSmall) (elems dst))
    else
      let src := elems src in
      let dst := elems dst in
      let srcEnd := len src in
      let dstEnd := len dst in
      let freqs := ComputeHistogram src in
      let minIdx :=
        if 0 <? default 0 (freqs !! 0%nat) then select_escape freqs freqs 0 0 else 0 in
      let escape := byte minIdx in
      prev ← ld src 0;
      dst ← st dst 0 escape;
      dst ← st dst 1 prev;
      '(dst, dstIdx) ←
        (if prev =? escape then dst ← st dst 2 0; Done (dst, 3) else Done (dst, 2));
      s ← forward_loop (length src) src escape (FState 1 dstIdx 0 prev None dst);
      match f_err s with
      | Some e => Done (Ret (f_srcIdx s) (f_dstIdx s) (Some e) (f_dst s))
      | None =>
          let srcIdx := f_srcIdx s in
          let dstIdx := f_dstIdx s in
          let run := f_run s in
          let prev := f_prev s in
          let dst := f_dst s in
          '(dst, dstIdx, err) ←
            (if _RLT_RUN_THRESHOLD <? run then
               sub ← sub_slice dst dstIdx dstEnd;
               '(sub, dIdx, err2) ← emitRunLength sub run escape prev;
               let dst := put_back dst dstIdx sub in
               match err2 with
               | Some e => Done (dst, dstIdx, Some e)
               | None => Done (dst, dstIdx + dIdx, None)
               end
             else if negb (prev =? escape) then
               if dstIdx + run <? dstEnd then
                 '(dst, dstIdx) ← emit_literals (Z.to_nat run) dst dstIdx prev;
                 Done (dst, dstIdx, None)
               else Done (dst, dstIdx, None)
             else
               if dstIdx + 2 * run <? dstEnd then
                 '(dst, dstIdx) ← emit_escapes (Z.to_nat run) dst dstIdx escape;
                 Done (dst, dstIdx, None)
               else Done (dst, dstIdx, None));
          '(srcIdx, dstIdx, dst) ← copy_last (length src) src srcIdx dstIdx dst;
          let err :=
            if negb (srcIdx =? srcEnd) then Some ErrTooSmall
            else if srcIdx <? dstIdx then Some ErrNotCompressed
            else err in
          Done (Ret srcIdx dstIdx err dst)
      end.

(** The state of the main loop of [Inverse]. *)
Record istate : Type := IState {
  i_srcIdx : Z;
  i_dstIdx : Z;
  i_err : option error;
  i_dst : list Z
}.

Fixpoint inverse_loop (fuel : nat) (src : list Z) (escape : Z) (s : istate)
    : outcome istate :=
  let srcEnd := len src in
  let dstEnd := len (i_dst s) in
  let srcIdx := i_srcIdx s in
  let dstIdx := i_dstIdx s in
  let dst := i_dst s in
  let fail srcIdx dstIdx := Done (IState srcIdx dstIdx (Some ErrInvalid) dst) in
  if srcIdx <? srcEnd then
    match fuel with
    | O => Diverge
    | S fuel =>
        c ← ld src srcIdx;
        if negb (c =? escape) then
          if dstEnd <=? dstIdx then fail srcIdx dstIdx
          else
            dst ← st dst dstIdx c;
            inverse_loop fuel src escape (IState (srcIdx + 1) (dstIdx + 1) None dst)
        else
          let srcIdx := srcIdx + 1 in
          if srcEnd <=? srcIdx then fail srcIdx dstIdx
          else
            val ← ld dst (dstIdx - 1);
            run ← ld src srcIdx;
            let srcIdx := srcIdx + 1 in
            if run =? 0 then
              if dstEnd <=? dstIdx then fail srcIdx dstIdx
              else
                dst ← st dst dstIdx escape;
                inverse_loop fuel src escape (IState srcIdx (dstIdx + 1) None dst)
            else
              let emit srcIdx run :=
                let run := run + (_RLT_RUN_THRESHOLD - 1) in
                if (dstEnd <=? dstIdx + run) || (_RLT_MAX_RUN <? run)
                then fail srcIdx dstIdx
                else
                  '(dst, dstIdx) ← emit_literals (Z.to_nat run) dst dstIdx val;
                  inverse_loop fuel src escape (IState srcIdx dstIdx None dst) in
              if run =? 0xFF then
                if srcEnd <=? srcIdx + 1 then fail srcIdx dstIdx
                else
                  hi ← ld src srcIdx;
                  lo ← ld src (srcIdx + 1);
                  emit (srcIdx + 2) (Z.lor (Z.shiftl hi 8) lo + _RLT_RUN_LEN_ENCODE2)
              else if _RLT_RUN_LEN_ENCODE1 <=? run then
                if srcEnd <=? srcIdx then fail srcIdx dstIdx
                else
                  lo ← ld src srcIdx;
                  emit (srcIdx + 1)
                       (Z.lor (Z.shiftl (run - _RLT_RUN_LEN_ENCODE1) 8) lo
                        + _RLT_RUN_LEN_ENCODE1)
              else emit srcIdx run
    end
  else Done s.

Definition Inverse (src dst : slice) : outcome ret :=
  if len (elems src) =? 0 then Done (Ret 0 0 None (elems dst))
  else
    ps ← addr0 src;
    pd ← addr0 dst;
    if ps =? pd then Done (Ret 0 0 (Some ErrAlias) (elems dst))
    else
      let src := elems src in
      let dst := elems dst in
      let srcEnd := len src in
      escape ← ld src 0;
      c ← ld src 1;
      r ←
        (if c =? escape then
           let srcIdx := 2 in
           z ← (if srcIdx <? srcEnd then ld src srcIdx else Done 0);
           if (srcIdx <? srcEnd) && negb (z =? 0)
           then Done (inl (Ret srcIdx 0 (Some ErrInvalid) dst))
           else
             dst ← st dst 0 escape;
             Done (inr (IState (srcIdx + 1) 1 None dst))
         else Done (inr (IState 1 0 None dst)));
      match r with
      | inl early => Done early
      | inr s0 =>
          s ← inverse_loop (length src) src escape s0;
          let err :=
            match i_err s with
            | Some e => Some e
            | None => if negb (i_srcIdx s =? srcEnd) then Some ErrInvalid else None
            end in
          Done (Ret (i_srcIdx s) (i_dstIdx s) err (i_dst s))
      end.

End RLT.

(** ** Text codec ([function/TextCodec.go], first half) *)

Definition TC_THRESHOLD1 : Z := 128.
Definition TC_THRESHOLD2 : Z := TC_THRESHOLD1 * TC_THRESHOLD1.
Definition TC_THRESHOLD3 : Z := 32.
Definition TC_THRESHOLD4 : Z := TC_THRESHOLD3 * 128.
Definition TC_MAX_DICT_SIZE : Z := 2 ^ 19.
Definition TC_MAX_WORD_LENGTH : Z := 32.
Definition TC_LOG_HASHES_SIZE : Z := 24.
Definition TC_MAX_BLOCK_SIZE : Z := 2 ^ 30.
Definition TC_ESCAPE_TOKEN1 : Z := 0x0F.
Definition TC_ESCAPE_TOKEN2 : Z := 0x0E.
Definition LF : Z := 0x0A.
Definition CR : Z := 0x0D.
Definition TC_MASK_NOT_TEXT : Z := 0x80.
Definition TC_MASK_ALMOST_FULL_ASCII : Z := 0x08.
Definition TC_MASK_FULL_ASCII : Z := 0x04.
Definition TC_MASK_XML_HTML : Z := 0x02.
Definition TC_MASK_CRLF : Z := 0x01.
Definition TC_HASH1 : Z := 2146121005.
Definition TC_HASH2 : Z := -2073254261.

(** The packed default dictionary, 1024 common English words, 6 bits per
    symbol. *)
Definition TC_DICT_EN_1024 : list Z := [
  0xCC; 0x71; 0x21; 0x12; 0x03; 0x43; 0xB8; 0x5A; 0x0D; 0xCC; 0xED; 0x88;
  0x4C; 0x7A; 0x13; 0xCC; 0x70; 0x13; 0x94; 0xE4; 0x78; 0x39; 0x49; 0xC4;
  0x9C; 0x05; 0x44; 0xB8; 0xDC; 0x80; 0x20; 0x3C; 0x80; 0x62; 0x04; 0xE1;
  0x51; 0x3D; 0x84; 0x85; 0x89; 0xC0; 0x0F; 0x31; 0xC4; 0x62; 0x04; 0xB6;
  0x39; 0x42; 0xC3; 0xD8; 0x73; 0xAE; 0x46; 0x20; 0x0D; 0xB0; 0x06; 0x23;
  0x3B; 0x31; 0xC8; 0x4B; 0x60; 0x12; 0xA1; 0x2B; 0x14; 0x08; 0x78; 0x0D;
  0x62; 0x54; 0x4E; 0x32; 0xD3; 0x93; 0xC8; 0x71; 0x36; 0x1C; 0x04; 0xF3;
  0x1C; 0x42; 0x11; 0xD8; 0x72; 0x02; 0x1E; 0x61; 0x13; 0x98; 0x85; 0x44;
  0x9C; 0x04; 0xA0; 0x44; 0x49; 0xC8; 0x32; 0x71; 0x11; 0x88; 0xE3; 0x04;
  0xB1; 0x8B; 0x94; 0x47; 0x61; 0x11; 0x13; 0x62; 0x0B; 0x2F; 0x23; 0x8C;
  0x12; 0x11; 0x02; 0x01; 0x44; 0x84; 0xCC; 0x71; 0x11; 0x13; 0x31; 0xD1;
  0x39; 0x41; 0x87; 0xCC; 0x42; 0xCB; 0xD8; 0x71; 0x0D; 0xD8; 0xE4; 0x4A;
  0xCC; 0x71; 0x0C; 0xE0; 0x44; 0xF4; 0x3E; 0xE5; 0x8D; 0xB9; 0x44; 0xE8;
  0x35; 0x33; 0xA9; 0x51; 0x24; 0xE2; 0x39; 0x42; 0xC3; 0xB9; 0x51; 0x11;
  0xB8; 0xB0; 0xF3; 0x1C; 0x83; 0x4A; 0x8C; 0x06; 0x36; 0x01; 0x8C; 0xC7;
  0x00; 0xDA; 0xC8; 0x28; 0x4B; 0x93; 0x1C; 0x44; 0x67; 0x39; 0x6C; 0xC7;
  0x10; 0xDA; 0x13; 0x4A; 0xF1; 0x0E; 0x3C; 0xB1; 0x33; 0x58; 0xEB; 0x0E;
  0x44; 0x4C; 0xC7; 0x11; 0x21; 0x21; 0x10; 0x43; 0x6D; 0x39; 0x6D; 0x80;
  0x35; 0x39; 0x48; 0x45; 0x24; 0xED; 0x11; 0x6D; 0x12; 0x13; 0x21; 0x04;
  0xCC; 0x83; 0x04; 0xB0; 0x03; 0x6C; 0x00; 0xD6; 0x33; 0x1C; 0x83; 0x46;
  0xB0; 0x02; 0x84; 0x9C; 0x44; 0x44; 0xD8; 0x42; 0xCB; 0xB8; 0xD2; 0xD8;
  0x9C; 0x84; 0xB5; 0x11; 0x16; 0x20; 0x15; 0x31; 0x11; 0xD8; 0x84; 0xC7;
  0x39; 0x44; 0xE0; 0x34; 0xE4; 0xC7; 0x11; 0x1B; 0x4E; 0x80; 0xB2; 0xE1;
  0x10; 0xB2; 0x04; 0x54; 0x48; 0x44; 0x14; 0xE4; 0x44; 0xB8; 0x51; 0x73;
  0x1C; 0xE5; 0x06; 0x1F; 0x23; 0xA0; 0x18; 0x02; 0x0D; 0x49; 0x3D; 0x87;
  0x20; 0xB1; 0x2B; 0x01; 0x24; 0xF3; 0x38; 0xE8; 0xCE; 0x58; 0xDC; 0xCE;
  0x0C; 0x06; 0x32; 0x00; 0xC1; 0x21; 0x00; 0x22; 0xB3; 0x00; 0xA1; 0x24;
  0x00; 0x21; 0xE3; 0x20; 0x51; 0x44; 0x44; 0x43; 0x53; 0xD8; 0x71; 0x11;
  0x12; 0x11; 0x13; 0x58; 0x41; 0x0D; 0xCC; 0x73; 0x92; 0x12; 0x45; 0x44;
  0x37; 0x21; 0x04; 0x37; 0x43; 0x43; 0x11; 0x18; 0x01; 0x39; 0x44; 0xEE;
  0x34; 0x48; 0x0B; 0x48; 0xE9; 0x40; 0x09; 0x3B; 0x14; 0x49; 0x38; 0x02;
  0x4D; 0x40; 0x0B; 0x2D; 0x8B; 0xD1; 0x11; 0x51; 0x0D; 0x4E; 0x45; 0xCF;
  0x10; 0x24; 0xE2; 0x38; 0xD4; 0xC0; 0x20; 0xD8; 0x8E; 0x34; 0x21; 0x11;
  0x36; 0xC1; 0x32; 0x08; 0x73; 0x8E; 0x2F; 0x81; 0x00; 0x47; 0x32; 0x0F;
  0xAC; 0x00; 0x63; 0x50; 0x49; 0x15; 0x11; 0x1C; 0xCE; 0x58; 0x04; 0x43;
  0x98; 0x84; 0x4B; 0x94; 0x84; 0x4C; 0x98; 0xB0; 0x12; 0x4A; 0x60; 0x12;
  0xA8; 0x41; 0x0F; 0xD8; 0xE4; 0x4B; 0x0F; 0x24; 0xC8; 0x2C; 0xBD; 0x84;
  0x35; 0x3C; 0x87; 0x39; 0x42; 0xC3; 0xC8; 0xF1; 0x0D; 0x0F; 0x24; 0xC0;
  0x18; 0x48; 0xCE; 0x09; 0x33; 0x91; 0xB0; 0x81; 0x87; 0x4E; 0x93; 0x81;
  0x98; 0xE8; 0x8E; 0x35; 0x32; 0x0D; 0x50; 0x49; 0x15; 0x11; 0x16; 0x0E;
  0x34; 0x4B; 0x44; 0x54; 0x44; 0x60; 0x35; 0x25; 0x84; 0x46; 0x51; 0x16;
  0xB0; 0x40; 0x0D; 0x8C; 0x81; 0x45; 0x11; 0x11; 0x0D; 0x08; 0x4C; 0xC4;
  0x34; 0x3B; 0x44; 0x10; 0x3A; 0xC4; 0x01; 0x51; 0x33; 0x45; 0x8B; 0x48;
  0x08; 0x49; 0xCE; 0x2C; 0x3C; 0x8E; 0x30; 0x44; 0xC7; 0x20; 0xD1; 0xA0;
  0x48; 0xAD; 0x80; 0x44; 0xCA; 0xC8; 0x3E; 0x23; 0x95; 0x11; 0x1A; 0x12;
  0x49; 0x41; 0x27; 0x00; 0xF3; 0xC4; 0x37; 0x35; 0x11; 0x36; 0xB3; 0x8E;
  0x2B; 0x25; 0x11; 0x12; 0x32; 0x12; 0x08; 0xE5; 0x44; 0x46; 0x52; 0x06;
  0x1D; 0x3B; 0x00; 0x0E; 0x32; 0x11; 0x10; 0x24; 0xC8; 0x38; 0xD8; 0x06;
  0x44; 0x41; 0x32; 0x38; 0xC1; 0x0E; 0x34; 0x49; 0x40; 0x20; 0xBC; 0x44;
  0x48; 0xF1; 0x02; 0x4E; 0xD3; 0x93; 0x20; 0x21; 0x22; 0x1C; 0xE2; 0x02;
  0x12; 0x11; 0x06; 0x20; 0xDC; 0xC7; 0x44; 0x41; 0x32; 0x61; 0x24; 0xC4;
  0x32; 0xB1; 0x15; 0x10; 0xB9; 0x44; 0x10; 0xBB; 0x04; 0x11; 0x38; 0x8E;
  0x30; 0xF0; 0x0D; 0x62; 0x13; 0x97; 0xC8; 0x73; 0x96; 0xBC; 0xB0; 0x18;
  0xAC; 0x85; 0x44; 0xAC; 0x44; 0xD3; 0x11; 0x19; 0x06; 0x1A; 0xD5; 0x0C;
  0x04; 0x44; 0x6E; 0x3C; 0x43; 0x6F; 0x44; 0xE0; 0x4B; 0x10; 0xC9; 0x40;
  0x4E; 0x70; 0x0D; 0x0E; 0xC1; 0x00; 0x49; 0x44; 0x44; 0xC1; 0x41; 0x12;
  0x4C; 0x83; 0x8D; 0x88; 0x02; 0xCB; 0xC4; 0x43; 0x04; 0x30; 0x11; 0x11;
  0x88; 0x44; 0x53; 0x00; 0x83; 0x6F; 0x51; 0x3B; 0x44; 0x5D; 0x38; 0x87;
  0x00; 0x84; 0x72; 0x4C; 0x04; 0x53; 0xC5; 0x43; 0x71; 0x00; 0x84; 0x84;
  0x98; 0xE0; 0x0B; 0xC4; 0x40; 0x0B; 0x2D; 0x89; 0xCE; 0x30; 0x4C; 0xC4;
  0x02; 0x20; 0x0D; 0x0C; 0x80; 0xC0; 0x4C; 0x4B; 0x0E; 0x34; 0x46; 0x21;
  0x51; 0x22; 0x0D; 0x11; 0x24; 0xB8; 0x39; 0x43; 0x46; 0x98; 0xE3; 0x83;
  0x88; 0xE5; 0x11; 0x4E; 0x52; 0x0D; 0x0E; 0xA3; 0x4E; 0x5A; 0xA2; 0x0D;
  0x0E; 0x71; 0x0B; 0x3E; 0xD2; 0x06; 0x1D; 0x38; 0x87; 0x20; 0xB0; 0xEB;
  0x39; 0x3E; 0x0E; 0x51; 0x1D; 0x12; 0x91; 0x81; 0x38; 0x11; 0x2D; 0x8E;
  0x44; 0x38; 0x48; 0x4F; 0x50; 0x0D; 0xB0; 0xE3; 0x53; 0x1E; 0x70; 0x0B;
  0x16; 0xB3; 0x96; 0xB0; 0x82; 0xCB; 0x20; 0xE3; 0x67; 0x20; 0x61; 0xEE;
  0x44; 0x60; 0x0D; 0x21; 0x90; 0x13; 0x20; 0xE3; 0x71; 0x10; 0x39; 0x91;
  0x10; 0x43; 0x61; 0x2D; 0x41; 0x36; 0x1C; 0x84; 0xC4; 0x84; 0xB0; 0x02;
  0x2B; 0x83; 0x94; 0x45; 0x21; 0x0B; 0x16; 0x42; 0x06; 0x1D; 0x38; 0x4E;
  0x4C; 0x7A; 0xC8; 0x4D; 0x32; 0xC4; 0x9C; 0xE5; 0x12; 0x12; 0xB1; 0x13;
  0x8C; 0x44; 0x8F; 0x21; 0x31; 0x2F; 0x44; 0xE5; 0x48; 0x0C; 0x4C; 0x84;
  0x45; 0x52; 0x02; 0x12; 0x72; 0x0C; 0x48; 0x42; 0xC5; 0x95; 0x12; 0x04;
  0x34; 0x38; 0xC4; 0x48; 0x24; 0x48; 0x04; 0x49; 0x40; 0x4C; 0x71; 0x11;
  0x8C; 0x45; 0x44; 0x2C; 0xE3; 0xCC; 0x10; 0xD4; 0xE0; 0x58; 0x06; 0x2A;
  0x20; 0xB2; 0xF3; 0x44; 0x83; 0xE7; 0x39; 0x44; 0x66; 0x00; 0xC1; 0x2E;
  0x15; 0x31; 0x0D; 0xBC; 0xB0; 0x0D; 0x4E; 0xF2; 0xC0; 0x08; 0x49; 0x0D;
  0x0E; 0x03; 0x0E; 0x34; 0x6C; 0x88; 0x34; 0x21; 0x32; 0x4C; 0x03; 0x43;
  0x8C; 0x44; 0x88; 0x18; 0xDB; 0xC0; 0x45; 0x32; 0x02; 0x50; 0xB0; 0x11;
  0xC9; 0x40; 0xC3; 0x10; 0xD2; 0xD8; 0xB0; 0x43; 0x01; 0x11; 0x1B; 0xC0;
  0x62; 0xB0; 0x16; 0x84; 0xE3; 0x8A; 0xC8; 0x82; 0xC4; 0x34; 0x21; 0x20;
  0x2C; 0xC3; 0x92; 0x4E; 0x83; 0x42; 0x2D; 0x40; 0xC4; 0x80; 0x60; 0x08;
  0x36; 0x42; 0x13; 0x1C; 0x44; 0x73; 0x38; 0xE2; 0xE5; 0x21; 0x51; 0x2E;
  0x34; 0x21; 0x2B; 0x10; 0x04; 0x93; 0x91; 0x73; 0xCB; 0x00; 0x83; 0x68;
  0x0C; 0x43; 0x53; 0x20; 0x56; 0x34; 0x35; 0x32; 0x0B; 0xC8; 0x84; 0xC4;
  0xB0; 0x83; 0x54; 0x4C; 0x48; 0x8E; 0x50; 0xF2; 0xC4; 0xD8; 0x41; 0x0A;
  0xB0; 0x04; 0xD3; 0x11; 0x18; 0x51; 0x20; 0xD1; 0xA3; 0x11; 0x30; 0x08;
  0x2E; 0x83; 0x45; 0x39; 0x13; 0x00; 0x4C; 0x83; 0x8D; 0xB4; 0xE4; 0xC7;
  0x20; 0xD1; 0xA0; 0x35; 0x84; 0xC7; 0x20; 0xD1; 0xA4; 0x54; 0x44; 0x58;
  0x4C; 0x72; 0x0D; 0x1A; 0x01; 0x8E; 0xAC; 0x40; 0x03; 0xC8; 0xE3; 0x04;
  0x4C; 0x83; 0x04; 0x4B; 0x43; 0x43; 0x11; 0x14; 0x93; 0x00; 0xD0; 0xF6;
  0x1C; 0x44; 0xC7; 0x11; 0x1B; 0x40; 0x4D; 0x44; 0x44; 0xCC; 0xE1; 0x84;
  0x4C; 0x71; 0x11; 0x94; 0xE2; 0xCB; 0x39; 0x6B; 0xC0; 0x44; 0x43; 0x53;
  0xC9; 0x33; 0x8F; 0xA0; 0xD0; 0xC4; 0x10; 0x38; 0xC8; 0x14; 0x52; 0x02;
  0x50; 0xB4; 0xEF; 0x50; 0x12; 0xC8; 0x0A; 0x02; 0xD1; 0x10; 0x00; 0xD8;
  0xC8; 0xF1; 0x00; 0x2A; 0xC0; 0x08; 0x35; 0x30; 0x08; 0x37; 0x11; 0x0C;
  0x00; 0x83; 0x67; 0x10; 0x04; 0x60; 0x2C; 0xB3; 0x96; 0xB0; 0x40; 0xC8;
  0x02; 0xE1; 0x45; 0x20; 0x21; 0x21; 0x10; 0xD1; 0x05; 0x21; 0x38; 0xCE;
  0x39; 0x19; 0xD4; 0x1A; 0xF1; 0x11; 0x48; 0xE3; 0x6B; 0x01; 0x31; 0x11;
  0x8D; 0x44; 0x48; 0x34; 0x6D; 0x80; 0x46; 0x72; 0x12; 0x4C; 0xE4; 0x58;
  0x81; 0x11; 0x94; 0x13; 0x62; 0x13; 0x1C; 0x83; 0x72; 0x11; 0x38; 0x11;
  0x4C; 0x80; 0x8B; 0x13; 0x24; 0xC0; 0x4C; 0x83; 0x8D; 0xB0; 0xE4; 0x4D;
  0x20; 0xD1; 0xB6; 0x00; 0xB2; 0xA4; 0x54; 0x43; 0x53; 0xD8; 0x83; 0x62;
  0x1C; 0xE3; 0x92; 0x12; 0x11; 0x07; 0x01; 0x52; 0x0E; 0x47; 0x21; 0xCE;
  0x39; 0x39; 0x48; 0x44; 0x49; 0x4E; 0x38; 0x3C; 0xC8; 0x4C; 0xB1; 0x20;
  0x44; 0xE5; 0x0D; 0x0E; 0x02; 0x11; 0xCC; 0x40; 0x02; 0x1C; 0x44; 0x66;
  0x00; 0xFC; 0x94; 0x04; 0x91; 0x02; 0x4E; 0x43; 0x4E; 0x50; 0x61; 0xEF;
  0x44; 0xE5; 0x44; 0x80; 0x24; 0x4E; 0x49; 0x28; 0x0B; 0x4C; 0x73; 0x94;
  0x18; 0x79; 0xC4; 0x00; 0x39; 0x4E; 0x39; 0x3C; 0x84; 0x08; 0xE3; 0x43;
  0x84; 0xE6; 0x2C; 0x00; 0x83; 0x6B; 0x20; 0x48; 0x01; 0x2C; 0x48; 0x88;
  0x54; 0x82; 0xF3; 0x00; 0x12; 0xC4; 0xAC; 0xE5; 0x44; 0xBD; 0x13; 0x82;
  0x11; 0x24; 0xAE; 0x14; 0x51; 0x11; 0xC9; 0x35; 0x03; 0x10; 0xD4; 0xE2;
  0x38; 0xD4; 0x88; 0x0C; 0x44; 0x60; 0x3C; 0xF1; 0x00; 0x47; 0x24; 0xD4;
  0x0D; 0x88; 0x54; 0x62; 0xD1; 0x00; 0x44; 0xB6; 0x27; 0x50; 0xC0; 0x0D;
  0x91; 0x52; 0x03; 0x10; 0xD0; 0x84; 0xCC; 0x45; 0xD3; 0xB0; 0x44; 0xC7;
  0x38; 0x3A; 0x0D; 0x08; 0xB5; 0x03; 0x20; 0xD1; 0xB2; 0x10; 0xD0; 0xF1;
  0x10; 0x02; 0xC8; 0x64; 0x4C; 0x84; 0x35; 0x21; 0x21; 0x50; 0x82; 0xC3;
  0x88; 0xE3; 0x53; 0x44; 0xE2; 0xE0; 0x50; 0x32; 0x04; 0x34; 0x21; 0x32;
  0x11; 0x51; 0x11; 0x00; 0xB8; 0x94; 0x4E; 0x23; 0x8B; 0x2C; 0x41; 0x84;
  0xA0; 0xD4; 0xC4; 0x44; 0x44; 0x93; 0xC9; 0x40; 0x82; 0x11; 0x24; 0xB2;
  0x3C; 0x40; 0x88; 0x00; 0xBC; 0x48; 0x48; 0xA9; 0x17; 0x3C; 0x44; 0x48;
  0x10; 0xD0; 0x84; 0x84; 0x41; 0xC8; 0x34; 0x38; 0x44; 0x4D; 0x31; 0x11;
  0xC4; 0x44; 0x94; 0x2D; 0x3C; 0xD1; 0x10; 0x04; 0xF2; 0x21; 0x7C; 0x44;
  0x2C; 0x04; 0xC8; 0x38; 0xD4; 0x87; 0x20; 0xF8; 0x0D; 0x20; 0xC0; 0x0B;
  0xA0; 0xC3; 0xD1; 0x39; 0x51; 0x27; 0x00; 0x84; 0x72; 0x4C; 0x06; 0x33;
  0x38; 0xFC; 0x44; 0x0D; 0x40; 0x84; 0xBC; 0x44; 0x47; 0x00; 0xF4; 0xAB;
  0x01; 0x31; 0x36; 0x44; 0x84; 0xC4; 0x46; 0xF2; 0x02; 0x2A; 0x42; 0xD2;
  0x13; 0x22; 0x06; 0x34; 0x81; 0x48; 0x08; 0x03; 0x53; 0x88; 0x70; 0x0D;
  0x08; 0x49; 0xCE; 0x4C; 0x42; 0xE6; 0x10; 0xD1; 0x11; 0x00; 0xBC; 0x4E;
  0x08; 0xAC; 0x44; 0x41; 0x42; 0x11; 0x12; 0x02; 0xCE; 0x34; 0x69; 0x48;
  0x4F; 0x31; 0xC4; 0x31; 0x21; 0x0B; 0x54; 0x44; 0xB1; 0x10; 0xF3; 0x91;
  0x4E; 0x23; 0x8D; 0x0C; 0x84; 0xC8; 0x38; 0xDC; 0x44; 0x00; 0x21; 0xF3;
  0x45; 0x44; 0xC7; 0x90; 0x51; 0x4E; 0x45; 0x38; 0xC4; 0x08; 0x80; 0xC4;
  0xC4; 0x04; 0xC4; 0x90; 0x35; 0x02; 0x01; 0x32; 0x0E; 0x36; 0x53; 0x91;
  0x08; 0x49; 0x80; 0x44; 0x31; 0x0D; 0x8D; 0x15; 0x06; 0xAC; 0x40; 0x03;
  0x11; 0x1D; 0x4E; 0x20; 0x21; 0x30; 0x50; 0x84; 0xC4; 0xD8; 0x73; 0x8B;
  0x13; 0x21; 0x04; 0x32; 0xC2; 0x0D; 0x0E; 0x52; 0x0D; 0x00; 0xB2; 0xD8;
  0xC8; 0x84; 0x71; 0x11; 0x35; 0x11; 0x36; 0x54; 0x44; 0x13; 0x24; 0xCE;
  0x45; 0x8C; 0x44; 0x48; 0xF3; 0x8D; 0x0E; 0xF5; 0x12; 0x1E; 0x00; 0x82;
  0x39; 0x10; 0xC8; 0x34; 0x68; 0x51; 0x39; 0x31; 0xC4; 0x46; 0xB1; 0x00;
  0x44; 0xDC; 0x8E; 0x36; 0x73; 0x8F; 0x12; 0x31; 0x15; 0x10; 0xB3; 0x8F;
  0x94; 0x41; 0x0B; 0x20; 0xD1; 0xB1; 0x10; 0x00; 0xE2; 0x01; 0x14; 0x58;
  0x8C; 0x84; 0x84; 0x01; 0x21; 0x31; 0x38; 0x00; 0xF5; 0x01; 0x12; 0x0E;
  0x51; 0x28; 0x40; 0x2C; 0xB8; 0x80; 0x48; 0x4B; 0x8F; 0x11; 0x10; 0x13;
  0x20; 0xE3; 0x62; 0x2C; 0xE4; 0x84; 0xD4; 0x84; 0x88; 0x4F; 0x11; 0x02;
  0x10; 0x85; 0x44; 0x85; 0x42; 0x0B; 0x0C; 0x83; 0x46; 0xD4; 0x02; 0xD4;
  0x13; 0x11; 0x12; 0x10; 0x04; 0x42; 0x1E; 0x55; 0x0B; 0x2E; 0xC3; 0x83;
  0x10; 0xBA; 0x4E; 0x20; 0xDC; 0x84; 0x01; 0x23; 0x8D; 0xCC; 0x05; 0xE3;
  0x21; 0x11; 0x02; 0x4C; 0xE4; 0x6F; 0x39; 0x22; 0x13; 0x20; 0xE3; 0x6F;
  0x2C; 0x06; 0x04; 0x47; 0x23; 0xCE; 0x45; 0x39; 0x11; 0x44; 0xE4; 0x71;
  0x10; 0x23; 0x91; 0x0F; 0x13; 0x96; 0x8C; 0x04; 0xC0; 0xBC; 0x03; 0xC4;
  0x47; 0x31; 0xC4; 0x39; 0x16; 0x32; 0x3C; 0x00; 0x84; 0x91; 0x51; 0x11;
  0x62; 0x53; 0x91; 0x33; 0x25; 0x0F; 0x3C; 0xE4; 0x53; 0x80; 0x24; 0xC8;
  0x38; 0xDB; 0x85; 0x14; 0x80; 0x88; 0x00; 0xBD; 0x87; 0x39; 0x21; 0x28;
  0x0C; 0x40; 0x27; 0x00; 0xF3; 0xD8; 0x9C; 0x40; 0x11; 0x4E; 0x11; 0x12;
  0x4F; 0x31; 0x00; 0x32; 0xF4; 0x4E; 0x24; 0x40; 0x93; 0x9C; 0x84; 0xE1;
  0x01; 0x21; 0x31; 0x10; 0xF4; 0x44; 0x48; 0x43; 0x53; 0xCC; 0xE5; 0x8D;
  0xBD; 0x42; 0xCB; 0x85; 0x44; 0xAC; 0x00; 0xF8; 0xD1; 0x62; 0xC3; 0x8C;
  0x88; 0x04; 0xE3; 0x00; 0x3C; 0x4E; 0x38; 0xCC; 0x8C; 0x20; 0xB1; 0x25;
  0x20; 0x42; 0xC3; 0xA0; 0xC3; 0xC0; 0x09; 0x39; 0x54; 0x34; 0x3A; 0xC0;
  0x44; 0x61; 0x23; 0x38; 0x69; 0xD4; 0x18; 0x4B; 0xD1; 0x10; 0xF0; 0x11;
  0x12; 0x43; 0x55; 0x21; 0x13; 0x8D; 0x30; 0x43; 0x53; 0x00; 0xBB; 0xD1;
  0x38; 0x35; 0x02; 0x12; 0x71; 0x11; 0x48; 0x42; 0xC5; 0xCC; 0x40; 0x02;
  0x1E; 0xE2; 0x0B; 0xC9; 0x40; 0x87; 0xC8; 0x84; 0xD4; 0x01; 0x32; 0x0E;
  0x37; 0x32; 0x04; 0x88; 0xE4; 0x93; 0xA0; 0xD0; 0xD4; 0x49; 0x34; 0x58;
  0xC8; 0xA2; 0x0D; 0xC9; 0x34; 0x44; 0x11; 0x3A; 0x0C; 0x00; 0x61; 0x28;
  0x4D; 0x21; 0x0B; 0x16; 0xF1; 0xCE; 0x34; 0x4B; 0xD1; 0x20; 0x21; 0x36;
  0x10; 0x04; 0x6C; 0x39; 0x24; 0xF2; 0x50; 0xDC; 0x8E; 0x38; 0xD8; 0x8B;
  0x10; 0x04; 0x6F; 0x44; 0x00; 0x93; 0x20; 0x21; 0x2F; 0x20; 0x40; 0x84;
  0xD8; 0x02; 0x13; 0xC4; 0x40; 0x84; 0x35; 0x3A; 0x0C; 0x3C; 0xE4; 0x53;
  0x00; 0xD4; 0xEF; 0x44; 0xE0; 0xD4; 0x09; 0x3A; 0xC4; 0x15; 0x3D; 0x80;
  0x2C; 0xBC; 0x84; 0x44; 0x81; 0x12; 0xB4; 0x45; 0x92; 0xC8; 0x70; 0x11;
  0x12; 0xC3; 0x95; 0x20; 0x4A; 0x88; 0x0E; 0xD3; 0x91; 0xC8; 0x83; 0x0F;
  0x2D; 0x8D; 0x88; 0x14; 0x4B; 0x8D; 0x4C; 0xE8; 0x80; 0x4C; 0x21; 0xEC;
  0x61; 0x21; 0x0B; 0x16; 0x52; 0x0D; 0x12; 0x23; 0x8C; 0x3D; 0x44; 0xC4;
  0x47; 0x23; 0x8D; 0x1A; 0x04; 0xD3; 0x10; 0xD4; 0xC8; 0x38; 0xD8; 0xD1;
  0x01; 0x69; 0x48; 0x2C; 0xCC; 0x44; 0x3D; 0x40; 0x4B; 0x20; 0x20; 0x0D;
  0xC8; 0x40; 0x94; 0x44; 0x84; 0xD8; 0xC8; 0x23; 0x91; 0x13; 0x31; 0x12;
  0x4F; 0x24; 0xCE; 0x08; 0xAB; 0xCE; 0x48; 0x84; 0xC8; 0x54; 0x48; 0x80;
  0x51; 0x21; 0x22; 0x10; 0xD4; 0xD4; 0x45; 0x8D; 0x88; 0x34; 0x33; 0x96;
  0xB0; 0x43; 0x0E; 0x45; 0x89; 0x17; 0x21; 0x24; 0xEB; 0x21; 0x24; 0xC4;
  0x37; 0x24; 0xD1; 0x00; 0x81; 0x87; 0x4E; 0x25; 0x0B; 0x4D; 0x44; 0x44;
  0x84; 0x82; 0xCB; 0x20; 0xE3; 0x65; 0x39; 0x13; 0x04; 0x46; 0x31; 0x02;
  0x21; 0x22; 0x0E; 0x36; 0x43; 0x44; 0x44; 0x66; 0x2C; 0x39; 0x51; 0x32;
  0x50; 0xC3; 0x04; 0x47; 0x63; 0x8D; 0x0C; 0x44; 0x71; 0x10; 0xB0; 0x13;
  0x12; 0x05; 0x40; 0x20; 0xB0; 0x01; 0x2C; 0x4A; 0xC8; 0x34; 0x4A; 0xC8;
  0x28; 0x42; 0xD8; 0xB9; 0x44; 0xD2; 0x20; 0x31; 0x32; 0x1C; 0xE4; 0xF2;
  0x1C; 0xE4; 0x53; 0x88; 0xE5; 0x0D; 0x4D; 0x16; 0x31; 0x38; 0xB1; 0x20;
  0x44; 0x40; 0x32; 0x20; 0xD1; 0x8B; 0x13; 0x15; 0x0B; 0x12; 0x30; 0x14;
  0x18; 0x74; 0xC4; 0x46; 0xC0; 0x11; 0x28; 0x44; 0xE8; 0x34; 0x32; 0x02;
  0x01; 0x31; 0x2F; 0x44; 0x44; 0x84; 0x35; 0x3A; 0xC0; 0x34; 0x38; 0x80;
  0x30; 0xF0; 0x08; 0x18; 0xDB; 0x00; 0x4C; 0x44; 0x48; 0x00; 0xBB; 0xCE;
  0x3D; 0x42; 0xC0; 0x4C; 0x83; 0x8D; 0x90; 0x23; 0x8D; 0x38; 0xC6; 0x2C;
  0x10; 0x32; 0x02; 0x00; 0xB9; 0xCE; 0x48; 0xF2; 0x13; 0x00; 0xB8; 0x87;
  0x51; 0x10; 0x87; 0x99; 0x13; 0x94; 0x34; 0x3C; 0xC7; 0x39; 0x44; 0x80;
  0x34; 0x38; 0x14; 0x4C; 0x73; 0x91; 0x21; 0x36; 0x28; 0x35; 0x24; 0xC4;
  0x00; 0x3C; 0x44; 0x08; 0x43; 0x53; 0x2D; 0x89; 0x54; 0x4D; 0x44; 0x44;
  0xD9; 0x13; 0x8D; 0x1A; 0x83; 0x55; 0x38; 0xB5; 0x44; 0xAC; 0x81; 0x44;
  0x9C; 0x42; 0x06; 0x1D; 0x3A; 0x0D; 0x09; 0x11; 0x00; 0x48; 0x4C; 0x48;
  0x18; 0x74; 0xE1; 0x00; 0xD2; 0xA2; 0x50; 0xB4; 0xD4; 0x44; 0x02; 0xE2;
  0x11; 0x14; 0xC0; 0x20; 0xD2; 0xD8; 0xD8; 0x44; 0x93; 0x91; 0x71; 0x02;
  0x51; 0x32; 0x15; 0x12; 0x13; 0x80; 0x44; 0x3C; 0x84; 0x10; 0xAA; 0xCE;
  0x34; 0x6B; 0x85; 0x14; 0x80; 0x84; 0x47; 0x24; 0xC0; 0x4C; 0x43; 0x04;
  0x35; 0x3C; 0x44; 0x49; 0x38; 0x40; 0x62; 0x31; 0x00; 0x2F; 0x63; 0x91;
  0x28; 0x44; 0x71; 0x11; 0x23; 0x94; 0x44; 0x21; 0x33; 0x1D; 0x13; 0x96;
  0x94; 0xE4; 0x56; 0x01; 0x10; 0xEF; 0x38; 0xB2; 0x02; 0x63; 0x20; 0x88;
  0x10; 0xD0; 0x84; 0x91; 0x81; 0x12; 0x84; 0x40; 0xE8; 0x4C; 0x43; 0x36;
  0x10; 0x03; 0xCE; 0x36; 0x52; 0x0B; 0x2E; 0xF2; 0xC0; 0x36; 0xC2; 0x0B;
  0x21; 0x30; 0x11; 0x62; 0x65; 0x0D; 0x9C; 0xE4; 0xE7; 0x10; 0x04; 0xE0;
  0x0C; 0x34; 0x44; 0x49; 0x28; 0x8E; 0x2C; 0x39; 0x4E; 0x09; 0x44; 0xA5;
  0x39; 0x11; 0x08; 0x18; 0xDC; 0xD1; 0x10; 0x04; 0xCC; 0x10; 0xD4; 0xE1;
  0x2C; 0xE3; 0x83; 0xD0; 0xF3; 0x8D; 0x88; 0xE5; 0x11; 0x48; 0x4C; 0xC7;
  0x21; 0x10; 0xF6; 0x01; 0x30; 0x87; 0x80; 0x51; 0x44; 0x09; 0x39; 0x00;
  0x44; 0xB6; 0x32; 0x4C; 0xE4; 0x44; 0xCC; 0x75; 0x12; 0xC8; 0xE5; 0x0D;
  0x0E; 0x45; 0x44; 0x45; 0x85; 0x87; 0x11; 0x11; 0x21; 0x00; 0x16; 0x20;
  0x0C; 0xC2; 0x0D; 0x21; 0x24; 0xD1; 0x01; 0x32; 0x0E; 0x36; 0xC3; 0x94;
  0x4C; 0x7B; 0xC0; 0x18; 0x49; 0x0D; 0x4C; 0x44; 0x6F; 0x44; 0xE0; 0x40;
  0x04; 0xB6; 0x2F; 0x38; 0x83; 0x53; 0xC8; 0x40; 0x13; 0xB4; 0x04; 0xD4;
  0x44; 0x02; 0xF1; 0x00; 0x21; 0x25; 0x01; 0x18; 0x87; 0x00; 0xB2; 0xC4;
  0x34; 0x61; 0x2F; 0x01; 0x24; 0xA0; 0x3C; 0xF2; 0xD8; 0xB0; 0x02; 0x0B;
  0xD1; 0x25; 0x00; 0x2C; 0xB6; 0x2C; 0x21; 0x7C; 0xCE; 0x50; 0x61; 0xE2;
  0x2C; 0x40; 0x11; 0x2D; 0x89; 0x91; 0x39; 0x69; 0x40; 0x09; 0x33; 0x91;
  0xC9; 0x30; 0x13; 0x12; 0xB3; 0x82; 0x00; 0xB9; 0x94; 0x62; 0x40; 0x12;
  0x4F; 0x20; 0x15; 0x13; 0x23; 0x94; 0x4C; 0x7C; 0x82; 0x10; 0xD1; 0x2C;
  0x39; 0x31; 0xC4; 0x46; 0x20; 0x11; 0x10; 0x44; 0x70; 0x50; 0x80; 0x8A;
  0x2D; 0x88; 0x84; 0x35; 0x34; 0x40; 0x2E; 0x50; 0x02; 0x12; 0x80; 0x84;
  0x80; 0x13; 0x95; 0x12; 0x11; 0x18; 0x38; 0xD0; 0xEF; 0x20; 0x24; 0xD4;
  0x44; 0x4B; 0x44; 0x4D; 0x63; 0x91; 0x2A; 0xC0; 0x0D; 0x00; 0x61; 0x0C;
  0x10; 0xD4; 0xE8; 0x34; 0x32; 0x15; 0x20; 0x35; 0x00; 0x2E; 0x50; 0x0D;
  0xC8; 0x86; 0x44; 0xC8; 0xF1; 0x04; 0x0E; 0x15; 0x12; 0x63; 0x21; 0x11;
  0x20; 0xE5; 0x12; 0xB8; 0x20; 0x94; 0x46; 0x00; 0xC3; 0xC4; 0x40; 0x03;
  0x63; 0x22; 0x06; 0x36; 0x23; 0x8B; 0x2C; 0x40; 0x93; 0x20; 0xE3; 0x6B;
  0x21; 0x24; 0xE0; 0x3C; 0xF4; 0x4E; 0x00; 0x21; 0xE2; 0x1C; 0x04; 0x46;
  0x13; 0x05; 0x00; 0x2C; 0x84; 0xD8; 0xBD; 0x11; 0x12; 0x49; 0x44; 0x44;
  0xD4; 0xE4; 0xC4; 0xB4; 0xE4; 0xC4; 0xBC; 0x04; 0x53; 0xC4; 0x40; 0x0B;
  0xD8; 0x40; 0x62; 0x51; 0x14; 0x44; 0x35; 0x38; 0xC4; 0x4C; 0x44; 0x4C;
  0x20; 0xD1; 0x33; 0x45; 0x41; 0x32; 0x00; 0x3D; 0x87; 0x01; 0x31; 0x15;
  0x11; 0x18; 0x51; 0x10; 0x02; 0xB6; 0x39; 0x14; 0x58; 0x89; 0x43; 0xEF;
  0x01; 0x14; 0xC8; 0x09; 0x42; 0xC0; 0x44; 0xB6; 0x20; 0x30; 0xE5; 0x0D;
  0x4E; 0x00; 0x48; 0x2C; 0x84; 0xD8; 0x90; 0x04; 0xF1; 0x10; 0x23; 0x86;
  0x34; 0x86; 0x44; 0xC8; 0x84; 0xE2; 0x1C; 0x04; 0x40; 0x09; 0x31; 0x11;
  0xC8; 0xE3; 0x04; 0x04; 0xE0; 0xD8; 0xAC; 0xE4; 0x92; 0x8C; 0x41; 0x91;
  0x10; 0x49; 0x05; 0x14; 0x40; 0x93; 0x81; 0x34; 0xC0; 0x08; 0xAC; 0x93;
  0x00; 0x51; 0x6C; 0x20; 0x30; 0xCB; 0x13; 0x31; 0x0B; 0x11; 0x52; 0x12;
  0x20; 0xE3; 0x76; 0x1D; 0x8A; 0xC4; 0x18; 0x02; 0xE2; 0x00; 0xF2; 0x13;
  0x00; 0xBC; 0xD1; 0x00; 0x31; 0x24; 0x2C; 0x40; 0x93; 0x20; 0xE3; 0x64;
  0x54; 0x44; 0x58; 0x04; 0xE0; 0xD8; 0x8D; 0x13; 0x8F; 0xB0; 0x02; 0x4E;
  0x47; 0x52; 0x04; 0x5B; 0x24; 0xC0; 0x34; 0x30; 0x11; 0x0E; 0x12; 0x0B;
  0x2E; 0x43; 0x0F; 0x2C; 0xE6; 0x04; 0x12; 0x32; 0x12; 0x09; 0x44; 0x92;
  0x20; 0xE3; 0x6E; 0x3C; 0xF3; 0x91; 0x4D; 0x43; 0x48; 0x4D; 0x88; 0x0D;
  0x00; 0xB6; 0x12; 0x21; 0x2C; 0xC4; 0x37; 0x25; 0x06; 0x18; 0x44; 0x93;
  0xAC; 0x05; 0x98; 0x11; 0x19; 0xD4; 0x48; 0x10; 0x0D; 0x0F; 0x21; 0x02;
  0x4C; 0x83; 0x8D; 0x84; 0x40; 0x8E; 0x30; 0x4C; 0x8A; 0x20; 0xB2; 0xF2;
  0x21; 0x24; 0xC4; 0x47; 0x24; 0xD8; 0x2C; 0x48; 0x91; 0x20; 0xC1; 0x2F;
  0x44; 0xE1; 0x91; 0x00; 0xC8; 0x8E; 0x30; 0xF0; 0x11; 0x12; 0x20; 0x0F;
  0xB0; 0x84; 0x92; 0x84; 0x00; 0xF2; 0x39; 0x14; 0xF3; 0x44; 0x02; 0x0D;
  0x20; 0xD1; 0xA4; 0x01; 0x26; 0x2D; 0x10; 0x04; 0x71; 0x10; 0x62; 0x0E;
  0x37; 0x24; 0xD1; 0x01; 0x31; 0x06; 0x62; 0xF5; 0x11; 0x3C; 0xE4; 0x84;
  0xBC; 0x44; 0x45; 0x39; 0x13; 0x33; 0x10; 0x21; 0xCD; 0x38; 0xB3; 0x86;
  0x62; 0x40; 0x8E; 0x34; 0xE3; 0x08; 0x0A; 0x15; 0x03; 0x18; 0x44; 0xE4;
  0x5C; 0x03; 0x0F; 0x2C; 0x48; 0x87; 0x10; 0x22; 0xA4; 0x35; 0x52; 0x11;
  0x38; 0xD3; 0x04; 0x35; 0x3A; 0xC4; 0x1A; 0x30; 0x11; 0x2B; 0x31; 0x11;
  0x33; 0x10; 0x13; 0x1C; 0x44; 0x6B; 0x01; 0x41; 0x87; 0x99; 0x41; 0x12;
  0x4A; 0x20; 0x11; 0xAC; 0xE5; 0x84; 0x46; 0x70; 0x0D; 0x1A; 0xF0; 0x12;
  0x4F; 0x23; 0x82; 0x20; 0x02; 0xE5; 0x39; 0x11; 0x84; 0x4E; 0x75; 0x0D;
  0x0D; 0x11; 0x03; 0xC4; 0x43; 0x0E; 0x54; 0x4B; 0x00; 0x34; 0x01; 0x84;
  0x46; 0x43; 0x49; 0x39; 0x89; 0x17; 0x00; 0x24; 0xCB; 0x62; 0x32; 0x04;
  0x94; 0x83; 0x40; 0x2E; 0xC0; 0x18; 0x04; 0x49; 0xC4; 0x00; 0xB4; 0xC7;
  0x94; 0xB3; 0x8E; 0x46; 0x21; 0xC0; 0x34; 0x61; 0x2B; 0x01; 0x8B; 0xCE;
  0x39; 0x19; 0x54; 0x36; 0x44; 0x93; 0x00; 0x12; 0xC8; 0x48; 0x7C; 0xD1;
  0x20; 0x02; 0xF2; 0x3D; 0x12; 0x0D; 0x1A; 0x32; 0x0D; 0x34; 0x44; 0x61;
  0x20; 0x6C; 0xC7; 0x00; 0xD2; 0xAF; 0x44; 0xE4; 0xC4; 0x09; 0x38; 0x15;
  0x38; 0x80; 0xE8; 0x30; 0x01; 0x88; 0x34; 0x4C; 0xCE; 0x34; 0x81; 0x87;
  0x4F; 0x24; 0xC0; 0x46; 0x04; 0x4C; 0x94; 0x83; 0x48; 0x48; 0x7B; 0x14;
  0x48; 0x80; 0xAE; 0x58; 0xD1; 0x11; 0x89; 0x16; 0x20; 0x45; 0x3B; 0xD1;
  0x21; 0x50; 0x13; 0x12; 0xE4; 0xC7; 0x11; 0x14; 0xB2; 0x20; 0xC3; 0xCB;
  0x12; 0xF3; 0x8F; 0x50; 0xB0; 0x11; 0xC4; 0x41; 0x4B; 0x10; 0x24; 0xE4;
  0x48; 0xF1; 0x02; 0x20; 0x02; 0xCB; 0x63; 0x23; 0x00; 0x2C; 0xBA; 0xC8;
  0x18; 0x74; 0xEC; 0x11; 0x24; 0x80; 0x18; 0x4C; 0x93; 0x10; 0xFA; 0x84;
  0x62; 0xF1; 0x00; 0x08; 0x4B; 0xD1; 0x38; 0x64; 0x44; 0x49; 0x28; 0x40;
  0x37; 0x22; 0x03; 0x12; 0x64; 0x44; 0x01; 0x39; 0x48; 0x5E; 0x83; 0x53;
  0x11; 0x15; 0x48; 0x11; 0x6B; 0x00; 0x34; 0x01; 0x84; 0xB4; 0x04; 0xC8;
  0x38; 0xD0; 0x0B; 0x94; 0x84; 0x87; 0xAC; 0xE4; 0x84; 0x88; 0x03; 0x04;
  0x44; 0x08; 0xC8; 0x48; 0x25; 0x12; 0x4A; 0x44; 0x14; 0x00; 0xBD; 0x84;
  0x20; 0x61; 0xD3; 0xBC; 0x44; 0x45; 0x39; 0x13; 0x00; 0x34; 0x21; 0x32;
  0x11; 0x51; 0x0D; 0xD8; 0x04; 0xC4; 0x46; 0xF4; 0x4E; 0x0D; 0x40; 0x93;
  0x20; 0xE3; 0x6F; 0x11; 0x14; 0x8E; 0x34; 0x02; 0xE2; 0x10; 0xB2; 0xEF;
  0x39; 0x61; 0x11; 0x91; 0x51; 0x0D; 0x20; 0xD1; 0xA2; 0x38; 0xB3; 0x91;
  0xA0; 0xD4; 0x88; 0x0C; 0x48; 0x40; 0x47; 0x43; 0x48; 0x4E; 0xB1; 0x12;
  0x4A; 0x00; 0xD4; 0x2D; 0x3D; 0x88; 0x0C; 0x4C; 0x40; 0x34; 0x61; 0x2C;
  0x10; 0xD4; 0xC8; 0x38; 0xD8; 0xC4; 0x10; 0xF9; 0x03; 0x18; 0x4C; 0x93;
  0x44; 0xE3; 0x46; 0x9C; 0x04; 0x43; 0xCD; 0x13; 0x94; 0x04; 0xB1; 0x2D;
  0x10; 0x21; 0x12; 0x48; 0x04; 0x58; 0xC8; 0x01; 0x44; 0x88; 0xE3; 0x0C;
  0x38; 0xD9; 0x44; 0x01; 0x19; 0x40; 0x30; 0x82; 0xD8; 0xC8; 0x40; 0x23;
  0x44; 0x40; 0x0C; 0x88; 0xE3; 0x45; 0x11; 0x11; 0x0D; 0x08; 0x4C; 0x44;
  0x3C; 0xB6; 0x2F; 0x44; 0xE3; 0xC4; 0x45; 0x36; 0x2C; 0x10; 0x44; 0xC8;
  0x34; 0x68; 0x0B; 0x58; 0x06; 0x12; 0xC9; 0x35; 0x05; 0x16; 0x01; 0x84;
  0x34; 0x26; 0x23; 0x10; 0x04; 0xC7; 0x99; 0x13; 0x96; 0x4C; 0x7C; 0x84;
  0x2C; 0xBC; 0x8E; 0x2C; 0x32; 0x04; 0x46; 0x00; 0x93; 0x9C; 0x40; 0x15;
  0x63; 0x61; 0x13; 0x84; 0x01; 0xAC; 0x01; 0x14; 0x48; 0x00; 0x61; 0x23;
  0x10; 0x00; 0xF2; 0x20; 0xD1; 0xB1; 0x21; 0x21; 0x23; 0x10; 0x20; 0x03;
  0x13; 0x61; 0xCE; 0x32; 0x52; 0x06; 0x51; 0x11; 0x2F; 0x38; 0xB2; 0x02;
  0x12; 0x13; 0x83; 0x62; 0xC0; 0x02; 0x1C; 0x83; 0x44; 0x88; 0x04; 0xC4;
  0x18; 0xE4; 0x58; 0x80; 0x71; 0x00; 0x0E; 0x54; 0x4E; 0x35; 0x38; 0x80;
  0x44; 0x4B; 0x91; 0x0C; 0x44; 0x71; 0x10; 0x02; 0xC8; 0x4D; 0x8B; 0xC0;
  0x45; 0x33; 0x44; 0x47; 0x80; 0x11; 0x0E; 0x11; 0x00; 0x4F; 0x52; 0x0E;
  0x2C; 0x43; 0x42; 0x13; 0x33; 0x93; 0x00; 0xB8; 0xC4; 0x14; 0x43; 0x52;
  0x13; 0x64; 0x48; 0x4C; 0x48; 0x8E; 0x35; 0x25; 0x0C; 0x11; 0x18; 0x84;
  0x35; 0x31; 0x11; 0x99; 0x13; 0x94; 0x3F; 0x31; 0xCE; 0x50; 0x61; 0xD3;
  0xB0; 0xE0; 0xC4; 0x44; 0xDC; 0xC0; 0x48; 0xA8; 0x8E; 0x00; 0x21; 0xF1;
  0x10; 0x04; 0x8E; 0x36; 0x01; 0x84; 0x94; 0x83; 0x46; 0x11; 0x1C; 0x8F;
  0x10; 0x22; 0x05; 0x20; 0x28; 0x8E; 0x34; 0xD1; 0x02; 0x4C; 0x83; 0x8D;
  0xD8; 0x84; 0x87; 0xC4; 0x44; 0x8F; 0x38; 0xD4; 0x84; 0xBD; 0x11; 0x13;
  0x4D; 0x8B; 0x0E; 0x54; 0x43; 0x04; 0x35; 0x38; 0x80; 0x44; 0x3A; 0xCE;
  0x1A; 0xF1; 0x0D; 0xC9; 0x43; 0x33; 0x44; 0x41; 0x24; 0x35; 0x32; 0x11;
  0x12; 0x22; 0x13; 0x21; 0x91; 0x0D; 0xCC; 0x74; 0x4E; 0x50; 0x61; 0xCE;
  0x51; 0x3B; 0xC4; 0x4F; 0x22; 0x0C; 0x20; 0xB0; 0x11; 0xD4; 0x80; 0x93;
  0x20; 0xCB; 0x44; 0x59; 0x23; 0xC0; 0x3C; 0x44; 0x73; 0x1D; 0x11; 0x00;
  0x4E; 0x22; 0xC0; 0x49; 0x2C; 0x87; 0x00; 0xA1; 0x32; 0x39; 0x44; 0x42;
  0x12; 0x00; 0x82; 0x39; 0x43; 0x53; 0xBC; 0x02; 0x0D; 0x94; 0x02; 0xCB;
  0xC4; 0x80; 0x87; 0xBC; 0xE4; 0x92; 0x20; 0x12; 0xC4; 0x80; 0x20; 0x84;
  0x3D; 0x3C; 0x8E; 0x2C; 0x80; 0xF3; 0x44; 0x05; 0x44; 0x2F; 0x30; 0x0B;
  0x2B; 0x22; 0x98; 0x89; 0x11; 0x00; 0x4C; 0x4B; 0x4E; 0x34; 0x4B; 0xCB;
  0x10; 0xD4; 0xD8; 0xBC; 0x44; 0x48; 0x38; 0x38; 0xC4; 0x14; 0x83; 0x44;
  0xB4; 0xE4; 0x4C; 0x00; 0xBC; 0x44; 0x54; 0x40; 0x0B; 0x8D; 0x12; 0x0D;
  0x2A; 0x05; 0x13; 0x1C; 0xE4; 0x72; 0x11; 0x15; 0x44; 0xB4; 0x03; 0x04;
  0xB0; 0xE3; 0x04; 0x35; 0x38; 0x06; 0x10; 0xD4; 0xE3; 0x38; 0x25; 0x0C;
  0x10; 0xD4; 0xE0; 0x09; 0x32; 0x15; 0x21; 0x36; 0x20; 0x35; 0x85; 0x80;
  0x62; 0x01; 0x51; 0x00; 0x80; 0xF3; 0x60; 0xF1; 0x20; 0x09; 0x32; 0x15;
  0x13; 0x34; 0x40; 0x20; 0xDA; 0x0D; 0x4C; 0x44; 0x44; 0x49; 0x32; 0x0D;
  0x1B; 0x10; 0x03; 0x20; 0xE8; 0xC0; 0x34; 0x61; 0x11; 0x98; 0x43; 0x44;
  0x44; 0x04; 0xC8; 0x38; 0xDA; 0xC4; 0x00; 0x58; 0x8E; 0x3D; 0x8B; 0x00;
  0x4C; 0x21; 0xE2; 0x2C; 0x02; 0x0C; 0x80; 0xD6; 0x0E; 0x34; 0x4C; 0x8E;
  0x15; 0x35; 0x80; 0x44; 0x4B; 0xC0; 0x45; 0x36; 0x23; 0x11; 0x52; 0x02;
  0x12; 0x23; 0x83; 0x12; 0xB0; 0x0D; 0x19; 0x40; 0x06; 0x12; 0xB2; 0x0D;
  0x2A; 0x73; 0x96; 0x11; 0x51; 0x11; 0x88; 0xE3; 0x45; 0x21; 0x13; 0x22;
  0x38; 0xC3; 0x04; 0x35; 0x38; 0x88; 0x4D; 0x88; 0x0D; 0x61; 0x61; 0xC4;
  0x44; 0x4C; 0x8E; 0x30; 0x45; 0x87; 0x11; 0x11; 0x23; 0x10; 0x10; 0x13;
  0x12; 0x34; 0x48; 0x54; 0x49; 0xC8; 0x18; 0x71; 0x11; 0x84; 0x40; 0x14;
  0x4C; 0x81; 0x54; 0x2E; 0xE3; 0x4B; 0x20; 0xD1; 0x36; 0x38; 0xC0; 0x0D;
  0xBD; 0x12; 0x0E; 0x44; 0x84; 0xD8; 0xCD; 0x10; 0x03; 0x21; 0x32; 0x0E;
  0x34; 0x02; 0xE5; 0x39; 0x44; 0x65; 0x20; 0xD0; 0x0D; 0x08; 0x80; 0x0B;
  0x79; 0xE7; 0x9E
].

Record dictEntry : Type := DictEntry {
  hash : Z;                 (* full word hash *)
  data : Z;                 (* packed word length (8 MSB) + index (24 LSB) *)
  ptr : option (list Z)     (* text data; [None] is nil *)
}.

(** Pointers to dictionary entries.  [reset] stores in the hash map the
    address of a copy of each static entry; the dynamic entries of the map
    are addresses of slots of a backing array of [dictList], and
    [expandDictionary] moves [dictList] to a new backing array while the
    map keeps the addresses it holds. *)
Inductive eptr : Type :=
| PCopy (k : nat)
| PSlot (gen i : nat).

#[global] Instance eptr_eq_dec : EqDecision eptr.
Proof. solve_decision. Defined.

Record textCodec1 : Type := TextCodec1 {
  dictMap : gmap Z eptr;              (* absent key: nil *)
  copies : list dictEntry;            (* the copies made by [reset] *)
  retired : list (list dictEntry);    (* earlier backing arrays of [dictList] *)
  dictList : list dictEntry;
  staticDictSize : Z;
  dictSize : Z;
  logHashSize : Z;
  hashMask : Z;
  isCRLF : bool
}.

Definition isLowerCase (val : Z) : bool := (97 <=? val) && (val <=? 122).
Definition isUpperCase (val : Z) : bool := (65 <=? val) && (val <=? 90).
Definition isText (val : Z) : bool := isLowerCase val || isUpperCase val.

Definition initDelimiterChars : list bool :=
  map (fun i =>
         if (32 <=? i) && (i <=? 47) then true
         else if (58 <=? i) && (i <=? 63) then true
         else if (i =? 10) || (i =? 13) || (i =? 9) || (i =? 95) || (i =? 124)
                 || (i =? 123) || (i =? 125) || (i =? 91) || (i =? 93)
         then true else false)
      (seqZ 0 256).

Definition TC_DELIMITER_CHARS : list bool := initDelimiterChars.

Definition isDelimiter (val : Z) : bool :=
  default false (TC_DELIMITER_CHARS !! Z.to_nat val).

(** [for i := range buf1 { if buf1[i] != buf2[i] { return false } }] *)
Fixpoint sameWords (buf1 buf2 : list Z) : outcome bool :=
  match buf1 with
  | [] => Done true
  | a :: buf1 =>
      match buf2 with
      | [] => Panic
      | b :: buf2 => if a =? b then sameWords buf1 buf2 else Done false
      end
  end.

(** The four 6-bit symbols of three packed bytes. *)
Definition unpack_symbols (val : Z) : list Z :=
  flat_map (fun ii =>
              let c := Z.land (Z.shiftr val ii) 0x3F in
              (if 32 <=? c then [32] else [])
              ++ (let c := Z.land c 0x1F in if c <=? 26 then [byte (c + 97)] else []))
           [18; 12; 6; 0].

Fixpoint unpack_loop (dict : list Z) (i val : Z) : list Z :=
  match dict with
  | [] => [32]
  | b :: dict =>
      let val := Z.lor (Z.shiftl val 8) (Z.land b 0xFF) in
      if i mod 3 =? 2 then unpack_symbols val ++ unpack_loop dict (i + 1) 0
      else unpack_loop dict (i + 1) val
  end.

(** Unpack dictionary with 32 symbols: the bytes written to [buf], then
    [buf[1 : d+1]]. *)
Definition unpackDictionary32 (dict : list Z) : list Z :=
  drop 1 (unpack_loop dict 0 0).

Fixpoint createDictionary_loop (words rest : list Z) (dict : list dictEntry)
    (maxWords i anchor h nbWords : Z) : list dictEntry * Z :=
  match rest with
  | [] => (dict, nbWords)
  | cur :: rest =>
      if nbWords <? maxWords then
        if isText cur then
          createDictionary_loop words rest dict maxWords (i + 1) anchor
            (Z.lxor (mul32 h TC_HASH1) (mul32 cur TC_HASH2)) nbWords
        else
          let '(dict, nbWords) :=
            if isDelimiter cur && (anchor + 1 <=? i) then
              (<[Z.to_nat nbWords :=
                   DictEntry h (int32 (Z.lor (Z.shiftl (i - anchor) 24) nbWords))
                     (Some (take (Z.to_nat (i - anchor)) (drop (Z.to_nat anchor) words)))]>
                 dict,
               nbWords + 1)
            else (dict, nbWords) in
          createDictionary_loop words rest dict maxWords (i + 1) (i + 1) TC_HASH1 nbWords
      else (dict, nbWords)
  end.

(** Create dictionary from array of words: the filled array and the
    number of words. *)
Definition createDictionary (words : list Z) (dict : list dictEntry)
    (maxWords startWord : Z) : list dictEntry * Z :=
  createDictionary_loop words words dict maxWords 0 0 TC_HASH1 startWord.

Definition static_dictionary : list dictEntry * Z :=
  createDictionary (unpackDictionary32 TC_DICT_EN_1024)
    (replicate 1024 (DictEntry 0 0 None)) 1024 0.

Definition TC_STATIC_DICTIONARY : list dictEntry := static_dictionary.1.
Definition TC_STATIC_DICT_WORDS : Z := static_dictionary.2.

(** The byte frequencies and the frequencies of the pairs of adjacent
    bytes, as [computeStats] gathers them in one pass (the loop is unrolled
    four times in the source, with a second loop for the last bytes; both
    apply the same update to every byte in order). *)
Definition count_step (st : gmap Z Z * gmap (Z * Z) Z * Z) (cur : Z)
    : gmap Z Z * gmap (Z * Z) Z * Z :=
  let '(freqs0, freqs1, prv) := st in
  (<[cur := int32 (default 0 (freqs0 !! cur) + 1)]> freqs0,
   <[(prv, cur) := int32 (default 0 (freqs1 !! (prv, cur)) + 1)]> freqs1,
   cur).

Definition sumZ (l : list Z) : Z := foldr Z.add 0 l.

(** return 8-bit status (see MASK flags constants) *)
Definition computeStats (block : list Z) : Z :=
  let '(freqs0, freqs1, _) := foldl count_step (∅, ∅, 0) block in
  let f0 i := default 0 (freqs0 !! i) in
  let f1 a b := default 0 (freqs1 !! (a, b)) in
  let length := len block in
  let nbTextChars :=
    sumZ (map (fun i => if isText i then f0 i else 0) (seqZ 32 96)) in
  if 2 * nbTextChars <? length then TC_MASK_NOT_TEXT
  else
    let nbBinChars := sumZ (map f0 (seqZ 128 128)) in
    if length <? 4 * nbBinChars then TC_MASK_NOT_TEXT
    else
      let res := 0 in
      let res :=
        if nbBinChars =? 0 then Z.lor res TC_MASK_FULL_ASCII
        else if nbBinChars <=? length ÷ 100 then Z.lor res TC_MASK_ALMOST_FULL_ASCII
        else res in
      let res :=
        if nbBinChars <=? length - length ÷ 10 then
          let f1_ := f0 60 in
          let f2_ := f0 62 in
          let f3_ := int32 (f1 38 97 + f1 38 103 + f1 38 108 + f1 38 113) in
          let minFreq := Z.shiftr (int32 (length - nbBinChars)) 9 in
          let minFreq := if minFreq <? 2 then 2 else minFreq in
          if (minFreq <=? f1_) && (minFreq <=? f2_) && (0 <? f3_) then
            if f1_ <? f2_ then
              if f2_ - f2_ ÷ 100 <=? f1_ then Z.lor res TC_MASK_XML_HTML else res
            else if f2_ <? f1_ then
              if f1_ - f1_ ÷ 100 <=? f2_ then Z.lor res TC_MASK_XML_HTML else res
            else Z.lor res TC_MASK_XML_HTML
          else res
        else res in
      if negb (f0 CR =? 0) && (f0 CR =? f0 LF) then
        if forallb (fun i => negb (negb (i =? LF) && negb (f1 CR i =? 0))) (seqZ 0 256)
        then Z.lor res TC_MASK_CRLF else res
      else res.

(** Emit word index (varint 5 bits + 7 bits + 7 bits) *)
Definition emitWordIndex1 (dst : list Z) (val : Z) : outcome (list Z * Z) :=
  if TC_THRESHOLD1 <=? val then
    if TC_THRESHOLD2 <=? val then
      dst ← st dst 0 (byte (Z.lor 0xE0 (Z.shiftr val 14)));
      dst ← st dst 1 (byte (Z.lor 0x80 (Z.shiftr val 7)));
      dst ← st dst 2 (byte (Z.land 0x7F val));
      Done (dst, 3)
    else
      dst ← st dst 0 (byte (Z.lor 0x80 (Z.shiftr val 7)));
      dst ← st dst 1 (byte (Z.land 0x7F val));
      Done (dst, 2)
  else
    dst ← st dst 0 (byte val);
    Done (dst, 1).

Definition newTextCodec1 : textCodec1 :=
  let logHashSize := TC_LOG_HASHES_SIZE in
  let dictSize := TC_THRESHOLD2 * 4 in
  let dictList := replicate (Z.to_nat dictSize) (DictEntry 0 0 None) in
  let size := if dictSize <=? 1024 then dictSize else 1024 in
  let dictList :=
    take (Z.to_nat size) TC_STATIC_DICTIONARY ++ drop (Z.to_nat size) dictList in
  let nbWords := TC_STATIC_DICT_WORDS in
  let dictList :=
    <[Z.to_nat nbWords :=
        DictEntry 0 (int32 (Z.lor (Z.shiftl 1 24) nbWords)) (Some [TC_ESCAPE_TOKEN2])]>
      dictList in
  let dictList :=
    <[Z.to_nat (nbWords + 1) :=
        DictEntry 0 (int32 (Z.lor (Z.shiftl 1 24) (nbWords + 1))) (Some [TC_ESCAPE_TOKEN1])]>
      dictList in
  TextCodec1 ∅ [] [] dictList (nbWords + 2) dictSize logHashSize
    (int32 (Z.shiftl 1 logHashSize) - 1) false.

Module textCodec1.

Definition this_with_map (this : textCodec1) (m : gmap Z eptr) : textCodec1 :=
  TextCodec1 m (copies this) (retired this) (dictList this) (staticDictSize this)
    (dictSize this) (logHashSize this) (hashMask this) (isCRLF this).

Definition this_with_list (this : textCodec1) (l : list dictEntry) : textCodec1 :=
  TextCodec1 (dictMap this) (copies this) (retired this) l (staticDictSize this)
    (dictSize this) (logHashSize this) (hashMask this) (isCRLF this).

Definition this_with_CRLF (this : textCodec1) (b : bool) : textCodec1 :=
  TextCodec1 (dictMap this) (copies this) (retired this) (dictList this)
    (staticDictSize this) (dictSize this) (logHashSize this) (hashMask this) b.

(** [*p] *)
Definition deref (this : textCodec1) (p : eptr) : outcome dictEntry :=
  match p with
  | PCopy k => match copies this !! k with Some e => Done e | None => Panic end
  | PSlot gen i =>
      let arr :=
        if Nat.eqb gen (length (retired this)) then Some (dictList this)
        else retired this !! gen in
      match arr ≫= (fun a => a !! i) with Some e => Done e | None => Panic end
  end.

(** [&this.dictList[i]] *)
Definition slot (this : textCodec1) (i : Z) : outcome eptr :=
  if (0 <=? i) && (i <? Z.of_nat (length (dictList this)))
  then Done (PSlot (length (retired this)) (Z.to_nat i))
  else Panic.

Definition reset (this : textCodec1) : textCodec1 :=
  let static := take (Z.to_nat (staticDictSize this)) (dictList this) in
  (* Clear and populate hash map *)
  let m :=
    foldl (fun m '(i, e) => <[Z.land (hash e) (hashMask this) := PCopy i]> m)
          ∅ (imap (fun i e => (i, e)) static) in
  (* Pre-allocate all dictionary entries *)
  let l :=
    static
    ++ map (fun i => DictEntry 0 (int32 i) None)
           (indices (staticDictSize this) (Z.to_nat (dictSize this - staticDictSize this))) in
  TextCodec1 m static [] l (staticDictSize this) (dictSize this)
    (logHashSize this) (hashMask this) (isCRLF this).

Definition expandDictionary (this : textCodec1) : textCodec1 * bool :=
  if TC_MAX_DICT_SIZE <=? dictSize this then (this, false)
  else
    let grown :=
      dictList this
      ++ map (fun i => DictEntry 0 (int32 i) None) (indices (dictSize this) (Z.to_nat (dictSize this))) in
    (TextCodec1 (dictMap this) (copies this) (retired this ++ [dictList this]) grown
       (staticDictSize this) (Z.shiftl (dictSize this) 1) (logHashSize this)
       (hashMask this) (isCRLF this),
     true).

(** [emitSymbols]: the memory of [dst] after the call and the value
    returned ([-1] for a destination that is too small). *)
Fixpoint emitSymbols (this : textCodec1) (src dst : list Z) (dstIdx : Z)
    : outcome (list Z * Z) :=
  let dstEnd := len dst in
  match src with
  | [] => Done (dst, dstIdx)
  | cur :: src =>
      if dstEnd <=? dstIdx then Done (dst, -1)
      else if (cur =? TC_ESCAPE_TOKEN1) || (cur =? TC_ESCAPE_TOKEN2) then
        (* Emit special word *)
        dst ← st dst dstIdx TC_ESCAPE_TOKEN1;
        let dstIdx := dstIdx + 1 in
        let idx :=
          if cur =? TC_ESCAPE_TOKEN1 then staticDictSize this - 1
          else staticDictSize this - 2 in
        let lenIdx :=
          if TC_THRESHOLD2 <=? idx then 3 else if idx <? TC_THRESHOLD1 then 1 else 2 in
        if dstEnd <=? dstIdx + lenIdx then Done (dst, -1)
        else
          sub ← sub_slice dst dstIdx (dstIdx + lenIdx);
          '(sub, n) ← emitWordIndex1 sub idx;
          emitSymbols this src (put_back dst dstIdx sub) (dstIdx + n)
      else if cur =? CR then
        if negb (isCRLF this) then
          dst ← st dst dstIdx cur;
          emitSymbols this src dst (dstIdx + 1)
        else emitSymbols this src dst dstIdx
      else
        dst ← st dst dstIdx cur;
        emitSymbols this src dst (dstIdx + 1)
  end.

Definition MaxEncodedLen (srcLen : Z) : Z := srcLen.

(** The hashes of the word [src[delimAnchor+1 : srcIdx]]: [h1] of its
    characters, [h2] of its characters with the case of the first flipped. *)
Definition word_hashes (src : list Z) (delimAnchor srcIdx : Z) : outcome (Z * Z) :=
  val ← ld src (delimAnchor + 1);
  let h1 := Z.lxor (mul32 TC_HASH1 TC_HASH1) (mul32 (int32 val) TC_HASH2) in
  let caseFlag := if isUpperCase val then 32 else -32 in
  let h2 := Z.lxor (mul32 TC_HASH1 TC_HASH1) (mul32 (int32 (int32 val + caseFlag)) TC_HASH2) in
  tail ← sub_slice src (delimAnchor + 2) srcIdx;
  Done (foldl (fun '(h1, h2) c =>
                 let h := mul32 (int32 c) TC_HASH2 in
                 (Z.lxor (mul32 h1 TC_HASH1) h, Z.lxor (mul32 h2 TC_HASH1) h))
              (h1, h2) tail).

(** [this.dictMap[h & this.hashMask]] followed by the collision check on
    hash and length. *)
Definition lookup (this : textCodec1) (h length : Z) : outcome (option eptr) :=
  match dictMap this !! Z.land h (hashMask this) with
  | None => Done None
  | Some p =>
      e ← deref this p;
      if negb (hash e =? h) || negb (Z.shiftr (data e) 24 =? length)
      then Done None else Done (Some p)
  end.

(** [sameWords(pe.ptr[1:length], src[delimAnchor+2:])] *)
Definition same_tail (e : dictEntry) (length : Z) (src : list Z) (delimAnchor : Z)
    : outcome bool :=
  match ptr e with
  | None => Panic
  | Some buf =>
      w ← sub_slice buf 1 length;
      rest ← sub_slice src (delimAnchor + 2) (len src);
      sameWords w rest
  end.

(** Word not found in the dictionary or hash collision: add or replace
    word.  Shared by both directions. *)
Definition add_word (this : textCodec1) (src : list Z) (delimAnchor h1 length words : Z)
    : outcome (textCodec1 * Z) :=
  if ((3 <? length) || ((2 <? length) && (words <? TC_THRESHOLD2)))
     && (length <? TC_MAX_WORD_LENGTH) then
    pe ← slot this words;
    e ← deref this pe;
    this ←
      (if staticDictSize this <=? Z.land (data e) 0x00FFFFFF then
         (* Evict and reuse old entry *)
         let m := delete (Z.land (hash e) (hashMask this)) (dictMap this) in
         w ← sub_slice src (delimAnchor + 1) (len src);
         let e := DictEntry h1 (int32 (Z.lor (int32 (Z.shiftl length 24)) (int32 words)))
                    (Some w) in
         Done (this_with_list (this_with_map this m)
                 (<[Z.to_nat words := e]> (dictList this)))
       else Done this);
    (* Update hash map *)
    let this := this_with_map this (<[Z.land h1 (hashMask this) := pe]> (dictMap this)) in
    let words := words + 1 in
    (* Dictionary full ? Expand or reset index to end of static dictionary *)
    if dictSize this <=? words then
      let '(this, ok) := expandDictionary this in
      if ok then Done (this, words) else Done (this, staticDictSize this)
    else Done (this, words)
  else Done (this, words).

Record fstate : Type := FState {
  f_this : textCodec1;
  f_srcIdx : Z;
  f_dstIdx : Z;
  f_delimAnchor : Z;
  f_emitAnchor : Z;
  f_words : Z;
  f_err : option error;
  f_dst : list Z
}.

Fixpoint forward_loop (fuel : nat) (src : list Z) (dstEnd : Z) (s : fstate)
    : outcome fstate :=
  let this := f_this s in
  let srcIdx := f_srcIdx s in
  let dstIdx := f_dstIdx s in
  let delimAnchor := f_delimAnchor s in
  let emitAnchor := f_emitAnchor s in
  let words := f_words s in
  let dst := f_dst s in
  let dstEnd4 := dstEnd - 4 in
  if srcIdx <? len src then
    match fuel with
    | O => Diverge
    | S fuel =>
        cur ← ld src srcIdx;
        if isLowerCase cur || isUpperCase cur then
          forward_loop fuel src dstEnd
            (FState this (srcIdx + 1) dstIdx delimAnchor emitAnchor words None dst)
        else
          (* Reset delimiter position *)
          let next this dstIdx emitAnchor words dst :=
            forward_loop fuel src dstEnd
              (FState this (srcIdx + 1) dstIdx srcIdx emitAnchor words None dst) in
          let stop dstIdx dst :=
            Done (FState this srcIdx dstIdx delimAnchor emitAnchor words
                    (Some ErrTooSmall) dst) in
          if (delimAnchor + 2 <? srcIdx) && isDelimiter cur then
            '(h1, h2) ← word_hashes src delimAnchor srcIdx;
            (* Check word in dictionary *)
            let length := int32 (srcIdx - delimAnchor - 1) in
            pe1 ← lookup this h1 length;
            pe ← (match pe1 with
                  | Some p => Done (Some p)
                  | None => lookup this h2 length
                  end);
            pe ← (match pe with
                  | Some p =>
                      e ← deref this p;
                      same ← same_tail e length src delimAnchor;
                      Done (if (same : bool) then Some p else None)
                  | None => Done None
                  end);
            match pe with
            | None =>
                '(this, words) ← add_word this src delimAnchor h1 length words;
                next this dstIdx emitAnchor words dst
            | Some p =>
                (* Word found in the dictionary *)
                e ← deref this p;
                skip ←
                  (if negb (emitAnchor =? delimAnchor) then Done false
                   else c ← ld src delimAnchor; Done (c =? 32));
                r ←
                  (if negb skip then
                     w ← sub_slice src emitAnchor (delimAnchor + 1);
                     sub ← sub_slice dst dstIdx dstEnd;
                     '(sub, dIdx) ← emitSymbols this w sub 0;
                     Done (put_back dst dstIdx sub, dIdx)
                   else Done (dst, 0));
                let '(dst, dIdx) := r in
                if dIdx <? 0 then stop dstIdx dst
                else
                  let dstIdx := dstIdx + dIdx in
                  if dstEnd4 <=? dstIdx then stop dstIdx dst
                  else
                    dst ← st dst dstIdx
                          (if decide (Some p = pe1) then TC_ESCAPE_TOKEN1
                           else TC_ESCAPE_TOKEN2);
                    let dstIdx := dstIdx + 1 in
                    sub ← sub_slice dst dstIdx (dstIdx + 3);
                    '(sub, n) ← emitWordIndex1 sub (Z.land (data e) 0x00FFFFFF);
                    next this (dstIdx + n) (delimAnchor + 1 + Z.shiftr (data e) 24) words
                      (put_back dst dstIdx sub)
            end
          else next this dstIdx emitAnchor words dst
    end
  else Done s.

(** [for srcIdx < srcEnd && src[srcIdx] == ' '] *)
Fixpoint leading_spaces (fuel : nat) (src : list Z) (srcIdx dstIdx emitAnchor : Z)
    (dst : list Z) : outcome (Z * Z * Z * list Z) :=
  match fuel with
  | O => if srcIdx <? len src then Diverge else Done (srcIdx, dstIdx, emitAnchor, dst)
  | S fuel =>
      if srcIdx <? len src then
        c ← ld src srcIdx;
        if c =? 32 then
          dst ← st dst dstIdx 32;
          leading_spaces fuel src (srcIdx + 1) (dstIdx + 1) (emitAnchor + 1) dst
        else Done (srcIdx, dstIdx, emitAnchor, dst)
      else Done (srcIdx, dstIdx, emitAnchor, dst)
  end.

Definition Forward (this : textCodec1) (src dst : slice) : outcome (textCodec1 * ret) :=
  let src := elems src in
  let dst := elems dst in
  let count := len src in
  if len dst <? MaxEncodedLen count then Done (this, Ret 0 0 (Some ErrTooSmall) dst)
  else
    let mode := computeStats src in
    (* Not text ? *)
    if negb (Z.land mode TC_MASK_NOT_TEXT =? 0)
    then Done (this, Ret 0 0 (Some ErrNotText) dst)
    else
      let this := reset this in
      let srcEnd := count in
      let dstEnd := MaxEncodedLen count in
      let words := staticDictSize this in
      (* DOS encoded end of line (CR+LF) ? *)
      let this := this_with_CRLF this (negb (Z.land mode TC_MASK_CRLF =? 0)) in
      dst ← st dst 0 mode;
      '(srcIdx, dstIdx, emitAnchor, dst) ← leading_spaces (length src) src 0 1 0 dst;
      c ← ld src srcIdx;
      let delimAnchor := if isText c then srcIdx - 1 else srcIdx in
      s ← forward_loop (length src) src dstEnd
            (FState this srcIdx dstIdx delimAnchor emitAnchor words None dst);
      let this := f_this s in
      '(dst, dstIdx, err) ←
        (match f_err s with
         | Some e => Done (f_dst s, f_dstIdx s, Some e)
         | None =>
             (* Emit last symbols *)
             w ← sub_slice src (f_emitAnchor s) srcEnd;
             sub ← sub_slice (f_dst s) (f_dstIdx s) dstEnd;
             '(sub, dIdx) ← emitSymbols this w sub 0;
             let dst := put_back (f_dst s) (f_dstIdx s) sub in
             if dIdx <? 0 then Done (dst, f_dstIdx s, Some ErrTooSmall)
             else Done (dst, f_dstIdx s + dIdx, None)
         end);
      let err :=
        match err with
        | None => if negb (f_srcIdx s =? srcEnd) then Some ErrIndex else None
        | Some e => Some e
        end in
      Done (this, Ret (f_srcIdx s) dstIdx err dst).

Record istate : Type := IState {
  i_this : textCodec1;
  i_srcIdx : Z;
  i_dstIdx : Z;
  i_delimAnchor : Z;
  i_words : Z;
  i_wordRun : bool;
  i_err : option error;
  i_dst : list Z
}.

(** [copy(dst[dstIdx:], w)] *)
Definition copy_to (dst : list Z) (dstIdx : Z) (w : list Z) : outcome (list Z) :=
  room ← sub_slice dst dstIdx (len dst);
  let n := Nat.min (length room) (length w) in
  Done (put_back dst dstIdx (take n w)).

Fixpoint inverse_loop (fuel : nat) (src : list Z) (s : istate) : outcome istate :=
  let this := i_this s in
  let srcIdx := i_srcIdx s in
  let dstIdx := i_dstIdx s in
  let delimAnchor := i_delimAnchor s in
  let words := i_words s in
  let wordRun := i_wordRun s in
  let dst := i_dst s in
  let srcEnd := len src in
  let dstEnd := len dst in
  if (srcIdx <? srcEnd) && (dstIdx <? dstEnd) then
    match fuel with
    | O => Diverge
    | S fuel =>
        cur ← ld src srcIdx;
        if isText cur then
          dst ← st dst dstIdx cur;
          inverse_loop fuel src
            (IState this (srcIdx + 1) (dstIdx + 1) delimAnchor words wordRun None dst)
        else
          '(this, words) ←
            (if (delimAnchor + 2 <? srcIdx) && isDelimiter cur then
               w ← sub_slice src (delimAnchor + 1) srcIdx;
               let h1 :=
                 foldl (fun h c => Z.lxor (mul32 h TC_HASH1) (mul32 (int32 c) TC_HASH2))
                       TC_HASH1 w in
               (* Lookup word in dictionary *)
               let length := int32 (srcIdx - delimAnchor - 1) in
               pe ← (match dictMap this !! Z.land h1 (hashMask this) with
                     | None => Done None
                     | Some p =>
                         e ← deref this p;
                         if negb (hash e =? h1) || negb (Z.shiftr (data e) 24 =? length)
                         then Done None
                         else
                           same ← same_tail e length src delimAnchor;
                           Done (if (same : bool) then Some p else None)
                     end);
               match pe with
               | None => add_word this src delimAnchor h1 length words
               | Some _ => Done (this, words)
               end
             else Done (this, words));
          let srcIdx := srcIdx + 1 in
          if (cur =? TC_ESCAPE_TOKEN1) || (cur =? TC_ESCAPE_TOKEN2) then
            (* Word in dictionary *)
            (* Read word index (varint 5 bits + 7 bits + 7 bits) *)
            idx ← ld src srcIdx;
            let srcIdx := srcIdx + 1 in
            r ←
              (if 0x80 <=? idx then
                 let idx := Z.land idx 0x7F in
                 idx2 ← ld src srcIdx;
                 let srcIdx := srcIdx + 1 in
                 '(idx, idx2, srcIdx) ←
                   (if 0x80 <=? idx2 then
                      let idx := Z.lor (Z.shiftl (Z.land idx 0x1F) 7) (Z.land idx2 0x7F) in
                      idx2 ← ld src srcIdx;
                      Done (idx, idx2, srcIdx + 1)
                    else Done (idx, idx2, srcIdx));
                 let idx := Z.lor (Z.shiftl idx 7) (Z.land idx2 0x7F) in
                 Done (idx, srcIdx, dictSize this <=? idx)
               else Done (idx, srcIdx, false));
            let '(idx, srcIdx, out_of_range) := r in
            if (out_of_range : bool) then
              Done (IState this srcIdx dstIdx delimAnchor words wordRun None dst)
            else
              pe ← slot this idx;
              e ← deref this pe;
              let length := Z.shiftr (data e) 24 in
              (* Sanity check *)
              match ptr e with
              | None =>
                  Done (IState this srcIdx dstIdx delimAnchor words wordRun
                          (Some ErrInvalid) dst)
              | Some buf =>
                  if dstEnd <=? dstIdx + length then
                    Done (IState this srcIdx dstIdx delimAnchor words wordRun
                            (Some ErrInvalid) dst)
                  else
                    (* Add space if only delimiter between 2 words *)
                    '(dst, dstIdx) ←
                      (if wordRun && (1 <? length)
                       then dst ← st dst dstIdx 32; Done (dst, dstIdx + 1)
                       else Done (dst, dstIdx));
                    (* Emit word *)
                    dst ←
                      (if negb (cur =? TC_ESCAPE_TOKEN2) then
                         w ← sub_slice buf 0 length;
                         copy_to dst dstIdx w
                       else
                         (* Flip case of first character *)
                         b0 ← ld buf 0;
                         dst ← st dst dstIdx
                               (if isUpperCase b0 then byte (b0 + 32) else byte (b0 - 32));
                         w ← sub_slice buf 1 length;
                         copy_to dst (dstIdx + 1) w);
                    let dstIdx := dstIdx + length in
                    if 1 <? length then
                      (* Regular word entry *)
                      inverse_loop fuel src
                        (IState this srcIdx dstIdx srcIdx words true None dst)
                    else
                      (* Escape entry *)
                      inverse_loop fuel src
                        (IState this srcIdx dstIdx (srcIdx - 1) words false None dst)
              end
          else
            '(dst, dstIdx) ←
              (if isCRLF this && (cur =? LF)
               then dst ← st dst dstIdx CR; Done (dst, dstIdx + 1)
               else Done (dst, dstIdx));
            dst ← st dst dstIdx cur;
            inverse_loop fuel src
              (IState this srcIdx (dstIdx + 1) (srcIdx - 1) words false None dst)
    end
  else Done s.

Definition Inverse (this : textCodec1) (src dst : slice) : outcome (textCodec1 * ret) :=
  let src := elems src in
  let dst := elems dst in
  let this := reset this in
  let srcEnd := len src in
  c ← ld src 0;
  let delimAnchor := if isText c then 0 - 1 else 0 in
  let words := staticDictSize this in
  let this := this_with_CRLF this (negb (Z.land c 0x01 =? 0)) in
  s ← inverse_loop (length src) src (IState this 1 0 delimAnchor words false None dst);
  let err :=
    match i_err s with
    | None => if negb (i_srcIdx s =? srcEnd) then Some ErrIndex else None
    | Some e => Some e
    end in
  Done (i_this s, Ret (i_srcIdx s) (i_dstIdx s) err (i_dst s)).

End textCodec1.

Module TextCodec.

(** The delegate of a [TextCodec] (a [kanzi.ByteFunction]): variant 1 as
    [NewTextCodec] installs it.  Variant 2 is not modelled. *)
Record TextCodec : Type := { delegate : textCodec1 }.

Definition NewTextCodec : TextCodec := {| delegate := newTextCodec1 |}.

Definition guard (this : TextCodec) (src dst : slice)
    (call : textCodec1 -> slice -> slice -> outcome (textCodec1 * ret))
    : outcome (TextCodec * ret) :=
  if len (elems src) =? 0 then Done (this, Ret 0 0 None (elems dst))
  else
    ps ← addr0 src;
    pd ← addr0 dst;
    if ps =? pd then Done (this, Ret 0 0 (Some ErrAlias) (elems dst))
    else if TC_MAX_BLOCK_SIZE <? len (elems src) then Panic
    else
      '(d, r) ← call (delegate this) src dst;
      Done ({| delegate := d |}, r).

Definition Forward (this : TextCodec) (src dst : slice) : outcome (TextCodec * ret) :=
  guard this src dst textCodec1.Forward.

Definition Inverse (this : TextCodec) (src dst : slice) : outcome (TextCodec * ret) :=
  guard this src dst textCodec1.Inverse.

End TextCodec.

(** ** TPAQ predictor: the tables *)

(** State table, the row of bit 0 and the row of bit 1. *)
Definition TPAQ_STATE_TABLE_bit0 : list Z := [
  1; 3; 143; 4; 5; 6; 7; 8; 9; 10;
  11; 12; 13; 14; 15; 16; 17; 18; 19; 20;
  21; 22; 23; 24; 25; 26; 27; 28; 29; 30;
  31; 32; 33; 34; 35; 36; 37; 38; 39; 40;
  41; 42; 43; 44; 45; 46; 47; 48; 49; 50;
  51; 52; 47; 54; 55; 56; 57; 58; 59; 60;
  61; 62; 63; 64; 65; 66; 67; 68; 69; 6;
  71; 71; 71; 61; 75; 56; 77; 78; 77; 80;
  81; 82; 83; 84; 85; 86; 87; 88; 77; 90;
  91; 92; 80; 94; 95; 96; 97; 98; 99; 90;
  101; 94; 103; 101; 102; 104; 107; 104; 105; 108;
  111; 112; 113; 114; 115; 116; 92; 118; 94; 103;
  119; 122; 123; 94; 113; 126; 113; 128; 129; 114;
  131; 132; 112; 134; 111; 134; 110; 134; 134; 128;
  128; 142; 143; 115; 113; 142; 128; 148; 149; 79;
  148; 142; 148; 150; 155; 149; 157; 149; 159; 149;
  131; 101; 98; 115; 114; 91; 79; 58; 1; 170;
  129; 128; 110; 174; 128; 176; 129; 174; 179; 174;
  176; 141; 157; 179; 185; 157; 187; 188; 168; 151;
  191; 192; 188; 187; 172; 175; 170; 152; 185; 170;
  176; 170; 203; 148; 185; 203; 185; 192; 209; 188;
  211; 192; 213; 214; 188; 216; 168; 84; 54; 54;
  221; 54; 55; 85; 69; 63; 56; 86; 58; 230;
  231; 57; 229; 56; 224; 54; 54; 66; 58; 54;
  61; 57; 222; 78; 85; 82; 0; 0; 0; 0;
  0; 0; 0; 0; 0; 0
].

Definition TPAQ_STATE_TABLE_bit1 : list Z := [
  2; 163; 169; 163; 165; 89; 245; 217; 245; 245;
  233; 244; 227; 74; 221; 221; 218; 226; 243; 218;
  238; 242; 74; 238; 241; 240; 239; 224; 225; 221;
  232; 72; 224; 228; 223; 225; 238; 73; 167; 76;
  237; 234; 231; 72; 31; 63; 225; 237; 236; 235;
  53; 234; 53; 234; 229; 219; 229; 233; 232; 228;
  226; 72; 74; 222; 75; 220; 167; 57; 218; 70;
  168; 72; 73; 74; 217; 76; 167; 79; 79; 166;
  162; 162; 162; 162; 165; 89; 89; 165; 89; 162;
  93; 93; 93; 161; 100; 93; 93; 93; 93; 93;
  161; 102; 120; 104; 105; 106; 108; 106; 109; 110;
  160; 134; 108; 108; 126; 117; 117; 121; 119; 120;
  107; 124; 117; 117; 125; 127; 124; 139; 130; 124;
  133; 109; 110; 135; 110; 136; 137; 138; 127; 140;
  141; 145; 144; 124; 125; 146; 147; 151; 125; 150;
  127; 152; 153; 154; 156; 139; 158; 139; 156; 139;
  130; 117; 163; 164; 141; 163; 147; 2; 2; 199;
  171; 172; 173; 177; 175; 171; 171; 178; 180; 172;
  181; 182; 183; 184; 186; 178; 189; 181; 181; 190;
  193; 182; 182; 194; 195; 196; 197; 198; 169; 200;
  201; 202; 204; 180; 205; 206; 207; 208; 210; 194;
  212; 184; 215; 193; 184; 208; 193; 163; 219; 168;
  94; 217; 223; 224; 225; 76; 227; 217; 229; 219;
  79; 86; 165; 217; 214; 225; 216; 216; 234; 75;
  214; 237; 74; 74; 163; 217; 0; 0; 0; 0;
  0; 0; 0; 0; 0; 0
].

Definition TPAQ_STATE_TABLE (bit : bool) : list Z :=
  if bit then TPAQ_STATE_TABLE_bit1 else TPAQ_STATE_TABLE_bit0.

(** State Maps ... bits 0 to 7 *)
Definition TPAQ_STATE_MAP0 : list Z := [
  (-119); (-120); 169; (-476); (-484); (-386); (-737); (-881); (-874); (-712);
  (-848); (-679); (-559); (-794); (-1212); (-782); (-1205); (-1205); (-613); (-753);
  (-1169); (-1169); (-1169); (-743); (-1155); (-732); (-720); (-1131); (-1131); (-1131);
  (-1131); (-1131); (-1131); (-1131); (-1131); (-1131); (-540); (-1108); (-1108); (-1108);
  (-1108); (-1108); (-1108); (-1108); (-1108); (-1108); (-1108); (-2047); (-2047); (-2047);
  (-2047); (-2047); (-2047); (-782); (-569); (-389); (-640); (-720); (-568); (-432);
  (-379); (-640); (-459); (-590); (-1003); (-569); (-981); (-981); (-981); (-609);
  416; (-1648); (-245); (-416); (-152); (-152); 416; (-1017); (-1017); (-179);
  (-424); (-446); (-461); (-508); (-473); (-492); (-501); (-520); (-528); (-54);
  (-395); (-405); (-404); (-94); (-232); (-274); (-288); (-319); (-354); (-379);
  (-105); (-141); (-63); (-113); (-18); (-39); (-94); 52; 103; 167;
  222; 130; (-78); (-135); (-253); (-321); (-343); 102; (-165); 157;
  (-229); 155; (-108); (-188); 262; 283; 56; 447; 6; (-92);
  242; 172; 38; 304; 141; 285; 285; 320; 319; 462;
  497; 447; (-56); (-46); 374; 485; 510; 479; (-71); 198;
  475; 549; 559; 584; 586; (-196); 712; (-185); 673; (-161);
  237; (-63); 48; 127; 248; (-34); (-18); 416; (-99); 189;
  (-50); 39; 337; 263; 660; 153; 569; 832; 220; 1;
  318; 246; 660; 660; 732; 416; 732; 1; (-660); 246;
  660; 1; (-416); 732; 262; 832; 369; 781; 781; 324;
  1104; 398; 626; (-416); 609; 1018; 1018; 1018; 1648; 732;
  1856; 1; 1856; 416; (-569); 1984; (-732); (-164); 416; 153;
  (-416); (-569); (-416); 1; (-660); 1; (-660); 153; 152; (-832);
  (-832); (-832); (-569); 0; (-95); (-660); 1; 569; 153; 416;
  (-416); 1; 1; (-569); 1; (-318); 1; 1; 1; 1;
  1; 1; 1; 1; 1; 1
].

Definition TPAQ_STATE_MAP1 : list Z := [
  (-10); (-436); 401; (-521); (-623); (-689); (-736); (-812); (-812); (-900);
  (-865); (-891); (-1006); (-965); (-981); (-916); (-946); (-976); (-1072); (-1014);
  (-1058); (-1090); (-1044); (-1030); (-1044); (-1104); (-1009); (-1418); (-1131); (-1131);
  (-1269); (-1332); (-1191); (-1169); (-1108); (-1378); (-1367); (-1126); (-1297); (-1085);
  (-1355); (-1344); (-1169); (-1269); (-1440); (-1262); (-1332); (-2047); (-2047); (-1984);
  (-2047); (-2047); (-2047); (-225); (-402); (-556); (-502); (-746); (-609); (-647);
  (-625); (-718); (-700); (-805); (-748); (-935); (-838); (-1053); (-787); (-806);
  (-269); (-1006); (-278); (-212); (-41); (-399); 137; (-984); (-998); (-219);
  (-455); (-524); (-556); (-564); (-577); (-592); (-610); (-690); (-650); (-140);
  (-396); (-471); (-450); (-168); (-215); (-301); (-325); (-364); (-315); (-401);
  (-96); (-174); (-102); (-146); (-61); (-9); 54; 81; 116; 140;
  192; 115; (-41); (-93); (-183); (-277); (-365); 104; (-134); 37;
  (-80); 181; (-111); (-184); 194; 317; 63; 394; 105; (-92);
  299; 166; (-17); 333; 131; 386; 403; 450; 499; 480;
  493; 504; 89; (-119); 333; 558; 568; 501; (-7); (-151);
  203; 557; 595; 603; 650; 104; 960; 204; 933; 239;
  247; (-12); (-105); 94; 222; (-139); 40; 168; (-203); 566;
  (-53); 243; 344; 542; 42; 208; 14; 474; 529; 82;
  513; 504; 570; 616; 644; 92; 669; 91; (-179); 677;
  720; 157; (-10); 687; 672; 750; 686; 830; 787; 683;
  723; 780; 783; 9; 842; 816; 885; 901; 1368; 188;
  1356; 178; 1419; 173; (-22); 1256; 240; 167; 1; (-31);
  (-165); 70; (-493); (-45); (-354); (-25); (-142); 98; (-17); (-158);
  (-355); (-448); (-142); (-67); (-76); (-310); (-324); (-225); (-96); 0;
  46; (-72); 0; (-439); 14; (-55); 1; 1; 1; 1;
  1; 1; 1; 1; 1; 1
].

Definition TPAQ_STATE_MAP2 : list Z := [
  (-32); (-521); 485; (-627); (-724); (-752); (-815); (-886); (-1017); (-962);
  (-1022); (-984); (-1099); (-1062); (-1090); (-1062); (-1108); (-1085); (-1248); (-1126);
  (-1233); (-1104); (-1233); (-1212); (-1285); (-1184); (-1162); (-1309); (-1240); (-1309);
  (-1219); (-1390); (-1332); (-1320); (-1262); (-1320); (-1332); (-1320); (-1344); (-1482);
  (-1367); (-1355); (-1504); (-1390); (-1482); (-1482); (-1525); (-2047); (-2047); (-1984);
  (-2047); (-2047); (-1984); (-251); (-507); (-480); (-524); (-596); (-608); (-658);
  (-713); (-812); (-700); (-653); (-820); (-820); (-752); (-831); (-957); (-690);
  (-402); (-689); (-189); (-28); (-13); (-312); 119; (-930); (-973); (-212);
  (-459); (-523); (-513); (-584); (-545); (-593); (-628); (-631); (-688); (-33);
  (-437); (-414); (-458); (-167); (-301); (-308); (-407); (-289); (-389); (-332);
  (-55); (-233); (-115); (-144); (-100); (-20); 106; 59; 130; 200;
  237; 36; (-114); (-131); (-232); (-296); (-371); 140; (-168); 0;
  (-16); 199; (-125); (-182); 238; 310; 29; 423; 41; (-176);
  317; 96; (-14); 377; 123; 446; 458; 510; 496; 463;
  515; 471; (-11); (-182); 268; 527; 569; 553; (-58); (-146);
  168; 580; 602; 604; 651; 87; 990; 95; 977; 185;
  315; 82; (-25); 140; 286; (-57); 85; 14; (-210); 630;
  (-88); 290; 328; 422; (-20); 271; (-23); 478; 548; 64;
  480; 540; 591; 601; 583; 26; 696; 117; (-201); 740;
  717; 213; (-22); 566; 599; 716; 709; 764; 740; 707;
  790; 871; 925; 3; 969; 990; 990; 1023; 1333; 154;
  1440; 89; 1368; 125; (-78); 1403; 128; 100; (-88); (-20);
  (-250); (-140); (-164); (-14); (-175); (-6); (-13); (-23); (-251); (-195);
  (-422); (-419); (-107); (-89); (-24); (-69); (-244); (-51); (-27); (-250);
  0; 1; (-145); 74; 12; 11; 1; 1; 1; 1;
  1; 1; 1; 1; 1; 1
].

Definition TPAQ_STATE_MAP3 : list Z := [
  (-25); (-605); 564; (-746); (-874); (-905); (-949); (-1044); (-1126); (-1049);
  (-1099); (-1140); (-1248); (-1122); (-1184); (-1240); (-1198); (-1285); (-1262); (-1332);
  (-1418); (-1402); (-1390); (-1285); (-1418); (-1418); (-1418); (-1367); (-1552); (-1440);
  (-1367); (-1584); (-1344); (-1616); (-1344); (-1390); (-1418); (-1461); (-1616); (-1770);
  (-1648); (-1856); (-1770); (-1584); (-1648); (-2047); (-1685); (-2047); (-2047); (-1856);
  (-2047); (-2047); (-1770); (-400); (-584); (-523); (-580); (-604); (-625); (-587);
  (-739); (-626); (-774); (-857); (-737); (-839); (-656); (-888); (-984); (-624);
  (-26); (-745); (-211); (-103); (-73); (-328); 142; (-1072); (-1062); (-231);
  (-458); (-494); (-518); (-579); (-550); (-541); (-653); (-621); (-703); (-53);
  (-382); (-444); (-417); (-199); (-288); (-367); (-273); (-450); (-268); (-477);
  (-101); (-157); (-123); (-156); (-107); (-9); 71; 64; 133; 174;
  240; 25; (-138); (-127); (-233); (-272); (-383); 105; (-144); 85;
  (-115); 188; (-112); (-245); 236; 305; 26; 395; (-3); (-164);
  321; 57; (-68); 346; 86; 448; 482; 541; 515; 461;
  503; 454; (-22); (-191); 262; 485; 557; 550; (-53); (-152);
  213; 565; 570; 649; 640; 122; 931; 92; 990; 172;
  317; 54; (-12); 127; 253; 8; 108; 104; (-144); 733;
  (-64); 265; 370; 485; 152; 366; (-12); 507; 473; 146;
  462; 579; 549; 659; 724; 94; 679; 72; (-152); 690;
  698; 378; (-11); 592; 652; 764; 730; 851; 909; 837;
  896; 928; 1050; 74; 1095; 1077; 1206; 1059; 1403; 254;
  1552; 181; 1552; 238; (-31); 1526; 199; 47; (-214); 32;
  (-219); (-153); (-323); (-198); (-319); (-108); (-107); (-90); (-177); (-210);
  (-184); (-455); (-216); (-19); (-107); (-219); (-22); (-232); (-19); (-198);
  (-198); (-113); (-398); 0; (-49); (-29); 1; 1; 1; 1;
  1; 1; 1; 1; 1; 1
].

Definition TPAQ_STATE_MAP4 : list Z := [
  (-34); (-648); 644; (-793); (-889); (-981); (-1053); (-1108); (-1108); (-1117);
  (-1176); (-1198); (-1205); (-1140); (-1355); (-1332); (-1418); (-1440); (-1402); (-1355);
  (-1367); (-1418); (-1402); (-1525); (-1504); (-1402); (-1390); (-1378); (-1525); (-1440);
  (-1770); (-1552); (-1378); (-1390); (-1616); (-1648); (-1482); (-1616); (-1390); (-1728);
  (-1770); (-2047); (-1685); (-1616); (-1648); (-1685); (-1584); (-2047); (-1856); (-1856);
  (-2047); (-2047); (-2047); (-92); (-481); (-583); (-623); (-602); (-691); (-803);
  (-815); (-584); (-728); (-743); (-796); (-734); (-884); (-728); (-1616); (-747);
  (-416); (-510); (-265); 1; (-44); (-409); 141; (-1014); (-1094); (-201);
  (-490); (-533); (-537); (-605); (-536); (-564); (-676); (-620); (-688); (-43);
  (-439); (-361); (-455); (-178); (-309); (-315); (-396); (-273); (-367); (-341);
  (-92); (-202); (-138); (-105); (-117); (-4); 107; 36; 90; 169;
  222; (-14); (-92); (-125); (-219); (-268); (-344); 70; (-137); (-49);
  4; 171; (-72); (-224); 210; 319; 15; 386; (-2); (-195);
  298; 53; (-31); 339; 95; 383; 499; 557; 491; 457;
  468; 421; (-53); (-168); 267; 485; 573; 508; (-65); (-109);
  115; 568; 576; 619; 685; 179; 878; 131; 851; 175;
  286; 19; (-21); 113; 245; (-54); 101; 210; (-121); 766;
  (-47); 282; 441; 483; 129; 303; 16; 557; 460; 114;
  492; 596; 580; 557; 605; 133; 643; 154; (-115); 668;
  683; 332; (-44); 685; 735; 765; 757; 889; 890; 922;
  917; 1012; 1170; 116; 1104; 1192; 1199; 1213; 1368; 254;
  1462; 307; 1616; 359; 50; 1368; 237; 52; (-112); (-47);
  (-416); (-255); (-101); 55; (-177); (-166); (-73); (-132); (-56); (-132);
  (-237); (-495); (-152); (-43); 69; 46; (-121); (-191); (-102); 170;
  (-137); (-45); (-364); (-57); (-212); 7; 1; 1; 1; 1;
  1; 1; 1; 1; 1; 1
].

Definition TPAQ_STATE_MAP5 : list Z := [
  (-30); (-722); 684; (-930); (-1006); (-1155); (-1191); (-1212); (-1332); (-1149);
  (-1276); (-1297); (-1320); (-1285); (-1344); (-1648); (-1402); (-1482); (-1552); (-1255);
  (-1344); (-1504); (-1728); (-1525); (-1418); (-1728); (-1856); (-1584); (-1390); (-1552);
  (-1552); (-1984); (-1482); (-1525); (-1856); (-2047); (-1525); (-1770); (-1648); (-1770);
  (-1482); (-1482); (-1482); (-1584); (-2047); (-2047); (-1552); (-2047); (-2047); (-2047);
  (-2047); (-1984); (-2047); 0; (-376); (-502); (-568); (-710); (-761); (-860);
  (-838); (-750); (-1058); (-897); (-787); (-865); (-646); (-844); (-979); (-1000);
  (-416); (-564); (-832); (-416); (-64); (-555); 304; (-954); (-1081); (-219);
  (-448); (-543); (-510); (-550); (-544); (-564); (-650); (-595); (-747); (-61);
  (-460); (-404); (-430); (-183); (-287); (-315); (-366); (-311); (-347); (-328);
  (-109); (-240); (-151); (-117); (-156); (-32); 64; 19; 78; 116;
  223; 6; (-195); (-125); (-204); (-267); (-346); 63; (-125); (-92);
  (-22); 186; (-128); (-169); 182; 290; (-14); 384; (-27); (-134);
  303; 0; (-5); 328; 96; 351; 483; 459; 529; 423;
  447; 390; (-104); (-165); 214; 448; 588; 550; (-127); (-146);
  31; 552; 563; 620; 718; (-50); 832; 14; 851; 93;
  281; 60; (-5); 121; 257; (-16); 103; 138; (-184); 842;
  (-21); 319; 386; 411; 107; 258; 66; 475; 542; 178;
  501; 506; 568; 685; 640; 78; 694; 122; (-96); 634;
  826; 165; 220; 794; 736; 960; 746; 823; 833; 939;
  1045; 1004; 1248; 22; 1118; 1077; 1213; 1127; 1552; 241;
  1440; 282; 1483; 315; (-102); 1391; 352; 124; (-188); 19;
  1; (-268); (-782); 0; (-322); 116; 46; (-129); 95; (-102);
  (-238); (-459); (-262); (-100); 122; (-152); (-455); (-269); (-238); 0;
  (-152); (-416); (-369); (-219); (-175); (-41); 1; 1; 1; 1;
  1; 1; 1; 1; 1; 1
].

Definition TPAQ_STATE_MAP6 : list Z := [
  (-11); (-533); 477; (-632); (-731); (-815); (-808); (-910); (-940); (-995);
  (-1094); (-1040); (-946); (-1044); (-1198); (-1099); (-1104); (-1090); (-1162); (-1122);
  (-1145); (-1205); (-1248); (-1269); (-1255); (-1285); (-1140); (-1219); (-1269); (-1285);
  (-1269); (-1367); (-1344); (-1390); (-1482); (-1332); (-1378); (-1461); (-1332); (-1461);
  (-1525); (-1584); (-1418); (-1504); (-1648); (-1648); (-1648); (-1856); (-1856); (-1616);
  (-1984); (-1525); (-2047); (-330); (-456); (-533); (-524); (-541); (-577); (-631);
  (-715); (-670); (-710); (-729); (-743); (-738); (-759); (-775); (-850); (-690);
  (-193); (-870); (-102); 21; (-45); (-282); 96; (-1000); (-984); (-177);
  (-475); (-506); (-514); (-582); (-597); (-602); (-622); (-633); (-695); (-22);
  (-422); (-381); (-435); (-107); (-290); (-327); (-360); (-316); (-366); (-374);
  (-62); (-212); (-111); (-162); (-83); (-8); 127; 52; 101; 193;
  237; (-16); (-117); (-150); (-246); (-275); (-361); 122; (-134); (-21);
  28; 220; (-132); (-215); 231; 330; 40; 406; (-11); (-196);
  329; 68; (-42); 391; 101; 396; 483; 519; 480; 464;
  516; 484; (-34); (-200); 269; 487; 525; 510; (-79); (-142);
  150; 517; 555; 594; 718; 86; 861; 102; 840; 134;
  291; 74; 10; 166; 245; 16; 117; (-21); (-126); 652;
  (-71); 291; 355; 491; 10; 251; (-21); 527; 525; 43;
  532; 531; 573; 631; 640; 31; 629; 87; (-164); 680;
  755; 145; 14; 621; 647; 723; 748; 687; 821; 745;
  794; 785; 859; 23; 887; 969; 996; 1007; 1286; 104;
  1321; 138; 1321; 169; (-24); 1227; 123; 116; 13; 45;
  (-198); (-38); (-214); (-22); (-241); 13; (-161); (-54); (-108); (-120);
  (-345); (-484); (-119); (-80); (-58); (-189); (-253); (-223); (-106); (-73);
  (-57); (-64); (-268); (-208); (-4); 12; 1; 1; 1; 1;
  1; 1; 1; 1; 1; 1
].

(** ** TPAQ predictor *)

(** The utility layer the predictor calls ([kanzi.Squash] and the logistic
    adaptive probability map) is not part of the sources at hand: it is a
    parameter of the model.  [apm_get apm y pr ctx] is [apm.get(y, pr, ctx)]:
    the map after the call and the value returned. *)
Class Utilities : Type := {
  Squash : Z -> Z;
  LogisticAdaptiveProbMap : Type;
  newLogisticAdaptiveProbMap : Z -> Z -> LogisticAdaptiveProbMap * option error;
  apm_get : LogisticAdaptiveProbMap -> Z -> Z -> Z -> LogisticAdaptiveProbMap * Z
}.

Definition add32 (a b : Z) : Z := int32 (a + b).
Definition sub32 (a b : Z) : Z := int32 (a - b).
Definition shl32 (a n : Z) : Z := int32 (Z.shiftl a n).

(** An array of fixed size whose cells start at zero, read and written
    only at masked indices: the cells written so far, zero elsewhere. *)
Definition cell (m : gmap Z Z) (i : Z) : Z := default 0 (m !! i).

(** [table[i]] for a table of 256 entries and an index of type uint8. *)
Definition entry (table : list Z) (i : Z) : Z := default 0 (table !! Z.to_nat i).

Module TPAQ.

Definition TPAQ_MAX_LENGTH : Z := 88.
Definition TPAQ_BUFFER_SIZE : Z := 64 * 1024 * 1024.
Definition TPAQ_HASH_SIZE : Z := 16 * 1024 * 1024.
Definition TPAQ_MASK_BUFFER : Z := TPAQ_BUFFER_SIZE - 1.
Definition TPAQ_MASK_HASH : Z := TPAQ_HASH_SIZE - 1.
Definition TPAQ_MASK_80808080 : Z := -2139062144.
Definition TPAQ_MASK_F0F0F0F0 : Z := -252645136.
Definition TPAQ_HASH : Z := 200002979.
Definition TPAQ_BEGIN_LEARN_RATE : Z := Z.shiftl 60 7.
Definition TPAQ_END_LEARN_RATE : Z := Z.shiftl 14 7.

Definition hashTPAQ (x y : Z) : Z :=
  let h := Z.lxor (mul32 x TPAQ_HASH) (mul32 y TPAQ_HASH) in
  Z.lxor (Z.lxor (Z.lxor (Z.lxor (Z.shiftr h 1) (Z.shiftr h 9)) (Z.shiftr x 2))
                 (Z.shiftr y 3))
         TPAQ_HASH.

(** Mixer combines models using neural networks with 8 inputs. *)
Record TPAQMixer : Type := Mixer {
  m_pr : Z;          (* squashed prediction *)
  skew : Z;
  w0 : Z; w1 : Z; w2 : Z; w3 : Z; w4 : Z; w5 : Z; w6 : Z; w7 : Z;
  p0 : Z; p1 : Z; p2 : Z; p3 : Z; p4 : Z; p5 : Z; p6 : Z; p7 : Z;
  learnRate : Z
}.

(** [init] on a zero-valued mixer. *)
Definition mixer_init : TPAQMixer :=
  Mixer 2048 0 2048 2048 2048 2048 2048 2048 2048 2048 0 0 0 0 0 0 0 0
    TPAQ_BEGIN_LEARN_RATE.

(** Adjust weights to minimize coding cost of last prediction *)
Definition mixer_update (this : TPAQMixer) (bit : Z) : TPAQMixer :=
  let err := int32 (Z.shiftl bit 12 - m_pr this) in
  if err =? 0 then this
  else
    (* Decaying learn rate *)
    let err := Z.shiftr (mul32 err (learnRate this)) 7 in
    let learnRate :=
      add32 (learnRate this) (Z.shiftr (sub32 TPAQ_END_LEARN_RATE (learnRate this)) 31) in
    let train w p := add32 w (Z.shiftr (add32 (mul32 p err) 0) 15) in
    Mixer (m_pr this) (add32 (skew this) err)
      (train (w0 this) (p0 this)) (train (w1 this) (p1 this))
      (train (w2 this) (p2 this)) (train (w3 this) (p3 this))
      (train (w4 this) (p4 this)) (train (w5 this) (p5 this))
      (train (w6 this) (p6 this)) (train (w7 this) (p7 this))
      (p0 this) (p1 this) (p2 this) (p3 this) (p4 this) (p5 this) (p6 this) (p7 this)
      learnRate.

Section WithUtilities.
Context {U : Utilities}.

Definition mixer_get (this : TPAQMixer) (p0 p1 p2 p3 p4 p5 p6 p7 : Z)
    : TPAQMixer * Z :=
  (* Neural Network dot product (sum weights*inputs) *)
  let p :=
    add32 (add32 (add32 (add32 (add32 (add32 (add32 (add32
      (mul32 (w0 this) p0) (mul32 (w1 this) p1)) (mul32 (w2 this) p2))
      (mul32 (w3 this) p3)) (mul32 (w4 this) p4)) (mul32 (w5 this) p5))
      (mul32 (w6 this) p6)) (mul32 (w7 this) p7)) (skew this) in
  let pr := Squash (Z.shiftr (add32 p 65536) 17) in
  (Mixer pr (skew this) (w0 this) (w1 this) (w2 this) (w3 this) (w4 this)
     (w5 this) (w6 this) (w7 this) p0 p1 p2 p3 p4 p5 p6 p7 (learnRate this),
   pr).

Record TPAQPredictor : Type := Predictor {
  pr : Z;            (* next predicted value (0-4095) *)
  c0 : Z;            (* bitwise context: last 0-7 bits with a leading 1 (1-255) *)
  c4 : Z;            (* last 4 whole bytes, last is in low 8 bits *)
  c8 : Z;            (* last 8 to 4 whole bytes, last is in low 8 bits *)
  bpos : Z;          (* number of bits in c0 (0-7) *)
  pos : Z;
  binCount : Z;
  matchLen : Z;
  matchPos : Z;
  hash : Z;
  statesMask : Z;
  mixersMask : Z;
  apm : LogisticAdaptiveProbMap;
  mixers : gmap Z TPAQMixer;   (* the mixers updated so far; [mixer_init] elsewhere *)
  mixer : Z;                   (* current mixer: its index in [mixers] *)
  buffer : gmap Z Z;
  hashes : gmap Z Z;           (* hash table(context, buffer position) *)
  states : gmap Z Z;           (* hash table(context, prediction) *)
  cp0 : Z; cp1 : Z; cp2 : Z; cp3 : Z; cp4 : Z; cp5 : Z; cp6 : Z;  (* indices in [states] *)
  ctx0 : Z; ctx1 : Z; ctx2 : Z; ctx3 : Z; ctx4 : Z; ctx5 : Z; ctx6 : Z
}.

Definition mixer_at (mixers : gmap Z TPAQMixer) (i : Z) : TPAQMixer :=
  default mixer_init (mixers !! i).

(** The configuration map of the constructor: the options present, each
    with its value of type uint. *)
Definition config : Type := gmap string Z.

(** The type assertion to uint on the value of [key]: it panics on a
    missing key. *)
Definition option_uint (ctx : config) (key : string) : outcome Z :=
  match ctx !! key with
  | Some v => Done v
  | None => Panic
  end.

Definition NewTPAQPredictor (ctx : option config)
    : outcome (TPAQPredictor * option error) :=
  '(statesSize, mixersSize) ←
    (match ctx with
     | None => Done (Z.shiftl 1 28, Z.shiftl 1 12)
     | Some ctx =>
         (* Block size requested by the user *)
         rbsz ← option_uint ctx "blockSize";
         let statesSize :=
           if 64 * 1024 * 1024 <=? rbsz then Z.shiftl 1 29
           else if 16 * 1024 * 1024 <=? rbsz then Z.shiftl 1 28
           else if 1024 * 1024 <=? rbsz then Z.shiftl 1 27
           else Z.shiftl 1 26 in
         (* Actual size of the current block *)
         absz ← option_uint ctx "size";
         let mixersSize :=
           if 8 * 1024 * 1024 <=? absz then Z.shiftl 1 14
           else if 4 * 1024 * 1024 <=? absz then Z.shiftl 1 12
           else if 1024 * 1024 <=? absz then Z.shiftl 1 10
           else Z.shiftl 1 9 in
         Done (statesSize, mixersSize)
     end);
  let '(apm, err) := newLogisticAdaptiveProbMap 65536 7 in
  Done (Predictor 2048 1 0 0 0 0 0 0 0 0 (int32 (statesSize - 1))
          (int32 (mixersSize - 1)) apm ∅ 0 ∅ ∅ ∅ 0 0 0 0 0 0 0 0 0 0 0 0 0 0,
        err).

Definition addContext (ctxId cx : Z) : Z :=
  let cx := add32 (mul32 cx 987654323) ctxId in
  let cx := Z.lor (shl32 cx 16) (int32 (Z.shiftr (uint32 cx) 16)) in
  add32 (mul32 cx 123456791) ctxId.

(** [for r <= TPAQ_MAX_LENGTH && buffer[(pos-r)&M] == buffer[(matchPos-r)&M] { r++ }],
    by the number of values [r] may still take. *)
Fixpoint match_loop (n : nat) (buffer : gmap Z Z) (pos matchPos r : Z) : Z :=
  match n with
  | O => r
  | S n =>
      if cell buffer (Z.land (sub32 pos r) TPAQ_MASK_BUFFER)
         =? cell buffer (Z.land (sub32 matchPos r) TPAQ_MASK_BUFFER)
      then match_loop n buffer pos matchPos (add32 r 1)
      else r
  end.

(** [findMatch]: the new [matchLen] and [matchPos]. *)
Definition findMatch (buffer hashes : gmap Z Z) (hash pos matchLen matchPos : Z) : Z * Z :=
  (* Update ongoing sequence match or detect match in the buffer (LZ like) *)
  if 0 <? matchLen then
    (if matchLen <? TPAQ_MAX_LENGTH then add32 matchLen 1 else matchLen,
     add32 matchPos 1)
  else
    (* Retrieve match position *)
    let matchPos := cell hashes hash in
    (* Detect match *)
    if negb (matchPos =? 0) && (sub32 pos matchPos <=? TPAQ_MASK_BUFFER) then
      let r := add32 matchLen 1 in
      let r := match_loop (Z.to_nat (TPAQ_MAX_LENGTH + 1 - r)) buffer pos matchPos r in
      (sub32 r 1, matchPos)
    else (matchLen, matchPos).

(** [addMatchContextPred]: the new [matchLen] and the value returned. *)
Definition addMatchContextPred (buffer : gmap Z Z) (c0 bpos matchLen matchPos : Z) : Z * Z :=
  if 0 <? matchLen then
    let b := cell buffer (Z.land matchPos TPAQ_MASK_BUFFER) in
    if c0 =? Z.shiftr (Z.lor (Z.land (int32 b) 0xFF) 256) (8 - bpos) then
      (* Add match length to NN inputs. Compute input based on run length *)
      let p := if matchLen <=? 24 then matchLen
               else add32 24 (Z.shiftr (sub32 matchLen 24) 3) in
      let p := if Z.land (Z.shiftr b (7 - bpos)) 1 =? 0 then sub32 0 p else p in
      (matchLen, shl32 p 6)
    else (0, 0)
  else (matchLen, 0).

(** [*cp = table[*cp]; cp = &states[(ctx+c)&statesMask]; p := MAP[*cp]]:
    the store, the new pointer and the input read. *)
Definition next_state (table map : list Z) (statesMask c : Z)
    (states : gmap Z Z) (cp ctx : Z) : gmap Z Z * Z * Z :=
  let states := <[cp := entry table (cell states cp)]> states in
  let cp := Z.land (add32 ctx c) statesMask in
  (states, cp, entry map (cell states cp)).

(** The body of [Update] up to the call of the secondary estimation: the
    predictor with every field but [pr] updated, and the value [apm.get]
    returns. *)
Definition Update_sse (this : TPAQPredictor) (bit : bool) : TPAQPredictor * Z :=
  let y := Z.b2z bit in
  let mixers := <[mixer this := mixer_update (mixer_at (mixers this) (mixer this)) y]>
                  (mixers this) in
  let bpos := bpos this + 1 in
  let c0 := Z.lor (shl32 (c0 this) 1) (Z.b2z bit) in
  let '(c0, c4, c8, bpos, pos, binCount, matchLen, matchPos, hash, mixer,
        buffer, hashes, ctxs) :=
    if 255 <? c0 then
      let buffer := <[Z.land (pos this) TPAQ_MASK_BUFFER := int8 c0]> (buffer this) in
      let pos := add32 (pos this) 1 in
      let c8 := Z.lor (shl32 (c8 this) 8) (Z.land (Z.shiftr (c4 this) 24) 0xFF) in
      let c4 := Z.lor (shl32 (c4 this) 8) (Z.land c0 0xFF) in
      let hash :=
        Z.land (add32 (shl32 (mul32 (hash this) 43707) 4) c4) TPAQ_MASK_HASH in
      let c0 := 1 in
      let bpos := 0 in
      let binCount := add32 (binCount this) (Z.land (Z.shiftr c4 7) 1) in
      (* Select Neural Net *)
      let mixer := Z.land c4 (mixersMask this) in
      let '(h1, h2, h3) :=
        if binCount <? Z.shiftr pos 2 then
          (* Mostly text *)
          (if Z.land c4 TPAQ_MASK_80808080 =? 0 then c4 else Z.shiftr c4 16,
           if Z.land c8 TPAQ_MASK_80808080 =? 0 then c8 else Z.shiftr c8 16,
           Z.lxor c4 (Z.land c8 0xFFFF))
        else
          (* Mostly binary *)
          (Z.shiftr c4 16, Z.shiftr c8 16, Z.lxor c4 (Z.land c4 0xFFFF)) in
      (* Add contexts to NN *)
      let ctxs :=
        (addContext 0 h3,
         addContext 1 (hashTPAQ TPAQ_HASH (shl32 c4 24)),
         addContext 2 (hashTPAQ TPAQ_HASH (shl32 c4 16)),
         addContext 3 (hashTPAQ TPAQ_HASH (shl32 c4 8)),
         addContext 4 (hashTPAQ TPAQ_HASH (Z.land c4 TPAQ_MASK_F0F0F0F0)),
         addContext 5 (hashTPAQ TPAQ_HASH c4),
         addContext 6 (hashTPAQ h1 h2)) in
      (* Find match *)
      let '(matchLen, matchPos) :=
        findMatch buffer (hashes this) hash pos (matchLen this) (matchPos this) in
      (* Keep track of new match position *)
      let hashes := <[hash := pos]> (hashes this) in
      (c0, c4, c8, bpos, pos, binCount, matchLen, matchPos, hash, mixer,
       buffer, hashes, ctxs)
    else
      (c0, c4 this, c8 this, bpos, pos this, binCount this, matchLen this,
       matchPos this, hash this, mixer this, buffer this, hashes this,
       (ctx0 this, ctx1 this, ctx2 this, ctx3 this, ctx4 this, ctx5 this, ctx6 this)) in
  let '(ctx0, ctx1, ctx2, ctx3, ctx4, ctx5, ctx6) := ctxs in
  (* Get initial predictions *)
  let c := c0 in
  let table := TPAQ_STATE_TABLE bit in
  let next := next_state table in
  let '(states, cp0, p0) := next TPAQ_STATE_MAP0 (statesMask this) c (states this) (cp0 this) ctx0 in
  let '(states, cp1, p1) := next TPAQ_STATE_MAP1 (statesMask this) c states (cp1 this) ctx1 in
  let '(states, cp2, p2) := next TPAQ_STATE_MAP2 (statesMask this) c states (cp2 this) ctx2 in
  let '(states, cp3, p3) := next TPAQ_STATE_MAP3 (statesMask this) c states (cp3 this) ctx3 in
  let '(states, cp4, p4) := next TPAQ_STATE_MAP4 (statesMask this) c states (cp4 this) ctx4 in
  let '(states, cp5, p5) := next TPAQ_STATE_MAP5 (statesMask this) c states (cp5 this) ctx5 in
  let '(states, cp6, p6) := next TPAQ_STATE_MAP6 (statesMask this) c states (cp6 this) ctx6 in
  let '(matchLen, p7) := addMatchContextPred buffer c0 bpos matchLen matchPos in
  (* Mix predictions using NN *)
  let '(m, p) := mixer_get (mixer_at mixers mixer) p0 p1 p2 p3 p4 p5 p6 p7 in
  let mixers := <[mixer := m]> mixers in
  (* SSE (Secondary Symbol Estimation) *)
  let '(apm, p) := apm_get (apm this) y p (Z.lor c0 (Z.land c4 0xFF00)) in
  (Predictor (pr this) c0 c4 c8 bpos pos binCount matchLen matchPos hash
     (statesMask this) (mixersMask this) apm mixers mixer buffer hashes states
     cp0 cp1 cp2 cp3 cp4 cp5 cp6 ctx0 ctx1 ctx2 ctx3 ctx4 ctx5 ctx6,
   p).

Definition with_pr (this : TPAQPredictor) (pr : Z) : TPAQPredictor :=
  Predictor pr (c0 this) (c4 this) (c8 this) (bpos this) (pos this) (binCount this)
    (matchLen this) (matchPos this) (hash this) (statesMask this) (mixersMask this)
    (apm this) (mixers this) (mixer this) (buffer this) (hashes this) (states this)
    (cp0 this) (cp1 this) (cp2 this) (cp3 this) (cp4 this) (cp5 this) (cp6 this)
    (ctx0 this) (ctx1 this) (ctx2 this) (ctx3 this) (ctx4 this) (ctx5 this) (ctx6 this).

(** Update the probability model *)
Definition Update (this : TPAQPredictor) (bit : bool) : TPAQPredictor :=
  let '(this, p) := Update_sse this bit in
  let p32 := uint32 p in
  with_pr this (p + Z.shiftr (uint32 (p32 - 2048)) 31).

(** Return the split value representing the probability of 1 in the
    [0..4095] range. *)
Definition Get (this : TPAQPredictor) : Z := pr this.

(** [Update] called with the bits of a sequence, in order. *)
Definition run (this : TPAQPredictor) (bits : list bool) : TPAQPredictor :=
  foldl Update this bits.

End WithUtilities.



End TPAQ.

(** Utilities to run the predictor on: a squashing function that always
    answers 2047 and a secondary estimation that hands the mixed prediction
    on unchanged.  (The real ones are in the utility layer.) *)
Definition flat_utilities : Utilities := {|
  Squash := fun _ => 2047;
  LogisticAdaptiveProbMap := unit;
  newLogisticAdaptiveProbMap := fun _ _ => (tt, None);
  apm_get := fun a _ p _ => (a, p)
|}.
(** * Facts about reads, writes and outcomes *)

Lemma len_nonneg l : 0 <= len l.
Proof. unfold len. lia. Qed.

Lemma ld_Done l i b :
  ld l i = Done b <-> 0 <= i < len l /\ l !! Z.to_nat i = Some b.
Proof.
  unfold ld. destruct (0 <=? i) eqn:H0; destruct (i <? len l) eqn:H1; simpl;
    try (split; [discriminate | lia]).
  destruct (l !! Z.to_nat i) eqn:E.
  - split; [intros [= ->]; split; [lia | done] | intros [_ [= ->]]; done].
  - split; [discriminate | intros [_ [=]]].
Qed.

Lemma ld_in_range l i : 0 <= i < len l -> exists b, ld l i = Done b.
Proof.
  intros H. destruct (lookup_lt_is_Some_2 l (Z.to_nat i)) as [b Hb].
  { unfold len in H. lia. }
  exists b. apply ld_Done. done.
Qed.

Lemma ld_not_Diverge l i : ld l i <> Diverge.
Proof. unfold ld. destruct (_ && _); [destruct (l !! _)|]; discriminate. Qed.

Lemma st_Done l i v l' :
  st l i v = Done l' <-> 0 <= i < len l /\ l' = <[Z.to_nat i := v]> l.
Proof.
  unfold st. destruct (0 <=? i) eqn:H0; destruct (i <? len l) eqn:H1; simpl;
    try (split; [discriminate | lia]).
  split; [intros [= <-]; split; [lia | done] | intros [_ ->]; done].
Qed.

Lemma st_in_range l i v : 0 <= i < len l -> st l i v = Done (<[Z.to_nat i := v]> l).
Proof. intros. apply st_Done. done. Qed.

Lemma st_len l i v l' : st l i v = Done l' -> len l' = len l.
Proof. intros [_ ->]%st_Done. unfold len. by rewrite length_insert. Qed.

Lemma ld_st_eq l i v l' : st l i v = Done l' -> ld l' i = Done v.
Proof.
  intros H. pose proof (st_len _ _ _ _ H) as Hl. apply st_Done in H as [Hr ->].
  apply ld_Done. split; [lia|]. apply list_lookup_insert_eq. unfold len in Hr. lia.
Qed.

Lemma ld_st_ne l i v l' j : st l i v = Done l' -> j <> i -> ld l' j = ld l j.
Proof.
  intros H Hne. pose proof (st_len _ _ _ _ H) as Hl. apply st_Done in H as [Hr ->].
  unfold ld. rewrite Hl. destruct (_ && _) eqn:E; [|done].
  rewrite list_lookup_insert_ne; [done|]. lia.
Qed.

Lemma ld_take l n i : 0 <= n <= len l -> i < n -> ld (take (Z.to_nat n) l) i = ld l i.
Proof.
  intros Hn Hi. unfold ld, len. rewrite length_take.
  unfold len in Hn.
  replace (Z.of_nat (Z.to_nat n `min` length l)) with n by lia.
  destruct (0 <=? i) eqn:H0; simpl; [|done].
  assert ((i <? n) = true) as -> by lia.
  assert ((i <? Z.of_nat (length l)) = true) as -> by lia.
  rewrite lookup_take_lt by lia. done.
Qed.

Lemma ld_ext l1 l2 :
  len l1 = len l2 -> (forall k, 0 <= k < len l1 -> ld l1 k = ld l2 k) -> l1 = l2.
Proof.
  intros Hl H. apply list_eq. intros n.
  destruct (decide (n < length l1)%nat) as [Hn|Hn].
  - assert (Hk : 0 <= Z.of_nat n < len l1) by (unfold len; lia).
    specialize (H _ Hk).
    destruct (ld_in_range l1 (Z.of_nat n) Hk) as [b Hb].
    rewrite Hb in H. symmetry in H.
    apply ld_Done in Hb as [_ Hb]. apply ld_Done in H as [_ H].
    rewrite Nat2Z.id in *. congruence.
  - unfold len in Hl. rewrite (lookup_ge_None_2 l1) by lia. rewrite (lookup_ge_None_2 l2) by lia. done.
Qed.

Lemma ld_bytes l i b : bytes_ok l -> ld l i = Done b -> is_byte b.
Proof.
  intros Hl [_ H]%ld_Done. unfold bytes_ok in Hl. rewrite Forall_lookup in Hl. eauto.
Qed.

Lemma bind_Done {A B} (m : outcome A) (k : A -> outcome B) r :
  (m ≫= k) = Done r -> exists a, m = Done a /\ k a = Done r.
Proof. destruct m; simpl; [eauto | discriminate | discriminate]. Qed.

Lemma len_take l n : 0 <= n <= len l -> len (take (Z.to_nat n) l) = n.
Proof. unfold len. rewrite length_take. lia. Qed.

Lemma int32_small x : - 2 ^ 31 <= x < 2 ^ 31 -> int32 x = x.
Proof. intros H. unfold int32. rewrite Z.mod_small; lia. Qed.

Lemma lor_disjoint a b k :
  0 <= k -> 0 <= a < 2 ^ k -> Z.lor a (b * 2 ^ k) = a + b * 2 ^ k.
Proof.
  intros Hk Ha.
  assert (Hland : Z.land a (b * 2 ^ k) = 0).
  { apply Z.bits_inj'. intros i Hi. rewrite Z.land_spec, Z.bits_0.
    destruct (Z.lt_ge_cases i k) as [Hlt|Hge].
    - rewrite <- Z.shiftl_mul_pow2 by lia. rewrite Z.shiftl_spec_low by lia.
      apply andb_false_r.
    - rewrite <- (Z.mod_small a (2 ^ k)) by lia.
      rewrite Z.mod_pow2_bits_high by lia. done. }
  rewrite <- Z.lxor_lor by done. symmetry. apply Z.add_nocarry_lxor. done.
Qed.

(** * X86 codec: facts *)

Module X86Facts.
Import X86Codec.

Lemma int32_mod24 x : int32 x mod 2 ^ 24 = x mod 2 ^ 24.
Proof. unfold int32. Z.div_mod_to_equations. lia. Qed.

Lemma lxor_mask_byte y : is_byte y -> is_byte (Z.lxor 0xD5 y).
Proof.
  intros [H0 H1]. split.
  - apply Z.lxor_nonneg. lia.
  - destruct (Z.eq_dec (Z.lxor 213 y) 0) as [->|Hne]; [lia|].
    assert (0 <= Z.lxor 213 y) by (apply Z.lxor_nonneg; lia).
    change 256 with (2 ^ 8). apply Z.log2_lt_pow2; [lia|].
    pose proof (Z.log2_lxor 213 y ltac:(lia) ltac:(lia)) as Hl.
    assert (Z.log2 y < 8).
    { destruct (Z.eq_dec y 0) as [->|]; [done|].
      apply Z.log2_lt_pow2; [lia|]. change (2 ^ 8) with 256. lia. }
    change (Z.log2 213) with 7 in Hl. lia.
Qed.

Lemma lxor_mask_invol y : Z.lxor 0xD5 (Z.lxor 0xD5 y) = y.
Proof. rewrite <- Z.lxor_assoc, Z.lxor_nilpotent. apply Z.lxor_0_l. Qed.

(** The packed operand of both directions. *)
Lemma pack24 x0 x1 x2 t :
  is_byte x0 -> is_byte x1 -> is_byte x2 -> (t = 0 \/ t = 255) ->
  Z.lor (Z.lor (Z.lor x0 (int32 (Z.shiftl x1 8))) (int32 (Z.shiftl x2 16)))
        (int32 (Z.shiftl t 24)) mod 2 ^ 24
  = x0 + 256 * x1 + 65536 * x2.
Proof.
  unfold is_byte. intros H0 H1 H2 Ht.
  rewrite !Z.shiftl_mul_pow2 by lia.
  rewrite (int32_small (x1 * 2 ^ 8)) by lia.
  rewrite (int32_small (x2 * 2 ^ 16)) by lia.
  rewrite (lor_disjoint x0 x1 8) by lia.
  rewrite (lor_disjoint _ x2 16) by lia.
  assert (Hi : int32 (t * 2 ^ 24) = (if t =? 0 then 0 else -1) * 2 ^ 24).
  { destruct Ht as [-> | ->]; reflexivity. }
  rewrite Hi. rewrite lor_disjoint by lia.
  destruct (t =? 0); Z.div_mod_to_equations; lia.
Qed.

Lemma byte_of_low24 x k :
  (k = 0 \/ k = 8 \/ k = 16) ->
  byte (Z.shiftr x k) = (x mod 2 ^ 24 / 2 ^ k) mod 256.
Proof.
  intros Hk. unfold byte. rewrite Z.shiftr_div_pow2 by lia.
  destruct Hk as [-> | [-> | ->]]; Z.div_mod_to_equations; lia.
Qed.

Lemma byte_is_byte x : is_byte (byte x).
Proof. unfold is_byte, byte. apply Z.mod_pos_bound. lia. Qed.

Lemma byte_low24 x : byte x = (x mod 2 ^ 24) mod 256.
Proof. unfold byte. Z.div_mod_to_equations. lia. Qed.

Lemma int32_add_mod24 a s : int32 (a + int32 s) mod 2 ^ 24 = (a mod 2 ^ 24 + s) mod 2 ^ 24.
Proof. unfold int32. Z.div_mod_to_equations. lia. Qed.

Lemma int32_sub_mod24 a s : int32 (a - int32 s) mod 2 ^ 24 = (a mod 2 ^ 24 - s) mod 2 ^ 24.
Proof. unfold int32. Z.div_mod_to_equations. lia. Qed.

Lemma addr_roundtrip b0 b1 b2 sgn s :
  is_byte b0 -> is_byte b1 -> is_byte b2 -> (sgn = 0 \/ sgn = 255) ->
  let addr :=
    int32 (Z.lor (Z.lor (Z.lor (int32 b0) (int32 (Z.shiftl (int32 b1) 8)))
                        (int32 (Z.shiftl (int32 b2) 16)))
                 (int32 (Z.shiftl (int32 sgn) 24)) + int32 s) in
  let e1 := Z.lxor 0xD5 (byte (Z.shiftr addr 16)) in
  let e2 := Z.lxor 0xD5 (byte (Z.shiftr addr 8)) in
  let e3 := Z.lxor 0xD5 (byte addr) in
  let sgn' := byte (sgn + 1) in
  let addr' :=
    int32 (Z.lor (Z.lor (Z.lor (Z.lxor 0xD5 (int32 e3))
                               (int32 (Z.shiftl (Z.lxor 0xD5 (int32 e2)) 8)))
                        (int32 (Z.shiftl (Z.lxor 0xD5 (int32 e1)) 16)))
                 (int32 (Z.shiftl (Z.land 0xFF (int32 (byte (sgn' - 1)))) 24))
           - int32 s) in
  byte addr' = b0 /\ byte (Z.shiftr addr' 8) = b1 /\
  byte (Z.shiftr addr' 16) = b2 /\ byte (sgn' - 1) = sgn.
Proof.
  intros H0 H1 H2 Hs. cbv zeta.
  rewrite (int32_small b0), (int32_small b1), (int32_small b2)
    by (unfold is_byte in *; lia).
  assert (Hsg : int32 sgn = sgn) by (destruct Hs as [-> | ->]; reflexivity).
  assert (Ht : Z.land 255 (int32 (byte (byte (sgn + 1) - 1))) = sgn)
    by (destruct Hs as [-> | ->]; reflexivity).
  assert (Hb : byte (byte (sgn + 1) - 1) = sgn)
    by (destruct Hs as [-> | ->]; reflexivity).
  rewrite Hsg, Ht, Hb.
  set (A := Z.lor (Z.lor (Z.lor b0 _) _) _).
  assert (HA : A mod 2 ^ 24 = b0 + 256 * b1 + 65536 * b2) by (apply pack24; done).
  set (addr := int32 (A + int32 s)).
  assert (HL : addr mod 2 ^ 24 = (b0 + 256 * b1 + 65536 * b2 + s) mod 2 ^ 24).
  { unfold addr. rewrite int32_add_mod24, HA. done. }
  set (L := addr mod 2 ^ 24) in *.
  assert (B16 : is_byte (byte (Z.shiftr addr 16))) by apply byte_is_byte.
  assert (B8 : is_byte (byte (Z.shiftr addr 8))) by apply byte_is_byte.
  assert (B0 : is_byte (byte addr)) by apply byte_is_byte.
  pose proof (lxor_mask_byte _ B16) as X16.
  pose proof (lxor_mask_byte _ B8) as X8.
  pose proof (lxor_mask_byte _ B0) as X0.
  rewrite (int32_small (Z.lxor 213 (byte addr))),
    (int32_small (Z.lxor 213 (byte (Z.shiftr addr 8)))),
    (int32_small (Z.lxor 213 (byte (Z.shiftr addr 16))))
    by (unfold is_byte in *; lia).
  rewrite !lxor_mask_invol.
  set (A' := Z.lor (Z.lor (Z.lor (byte addr) _) _) _).
  assert (HA' : A' mod 2 ^ 24 = L).
  { unfold A'. rewrite pack24 by done.
    rewrite (byte_of_low24 addr 16), (byte_of_low24 addr 8), byte_low24 by lia.
    fold L. assert (0 <= L < 2 ^ 24) by (apply Z.mod_pos_bound; lia).
    change (2 ^ 16) with 65536. change (2 ^ 8) with 256.
    Z.div_mod_to_equations. lia. }
  set (addr' := int32 (A' - int32 s)).
  assert (HL' : addr' mod 2 ^ 24 = b0 + 256 * b1 + 65536 * b2).
  { unfold addr'. rewrite int32_sub_mod24, HA', HL.
    unfold is_byte in *. Z.div_mod_to_equations. lia. }
  rewrite (byte_of_low24 addr' 16), (byte_of_low24 addr' 8), byte_low24 by lia.
  rewrite HL'. unfold is_byte in *.
  change (2 ^ 16) with 65536. change (2 ^ 8) with 256.
  repeat split; Z.div_mod_to_equations; lia.
Qed.

Ltac inv_bind H :=
  let a := fresh "v" in let Ha := fresh "E" in
  apply bind_Done in H as (a & Ha & H).

Lemma copy_loop_Done fuel src cnt : forall s d buf s' d' buf',
  copy_loop fuel src cnt s d buf = Done (s', d', buf') ->
  s <= cnt ->
  s' = cnt /\ d' = d + (cnt - s) /\ len buf' = len buf /\
  (d <= len buf -> d' <= len buf) /\
  (forall k, k < d -> ld buf' k = ld buf k) /\
  (forall k, s <= k < cnt -> ld buf' (d + (k - s)) = ld src k).
Proof.
  induction fuel as [|fuel IH]; intros s d buf s' d' buf' H Hs; simpl in H.
  - destruct (s <? cnt) eqn:E; [discriminate|]. injection H as <- <- <-.
    repeat split; try lia; intros; lia.
  - destruct (s <? cnt) eqn:E.
    + inv_bind H. inv_bind H.
      apply IH in H as (-> & -> & Hl & Hroom & Hfr & Hcp); [|lia].
      pose proof (st_len _ _ _ _ E1) as Hl1.
      assert (0 <= d < len buf) by (apply st_Done in E1; lia).
      repeat split; try lia; try congruence.
      * intros k Hk. rewrite Hfr by lia. eapply ld_st_ne; [done | lia].
      * intros k Hk. destruct (Z.eq_dec k s) as [->|Hne].
        -- rewrite Z.sub_diag, Z.add_0_r, Hfr by lia.
           rewrite E0. eapply ld_st_eq. done.
        -- replace (d + (k - s)) with (d + 1 + (k - (s + 1))) by lia.
           apply Hcp. lia.
    + injection H as <- <- <-. repeat split; try lia; intros; lia.
Qed.

Lemma copy_loop_step fuel src cnt s d buf b buf1 :
  s < cnt -> ld src s = Done b -> st buf d b = Done buf1 ->
  copy_loop (S fuel) src cnt s d buf = copy_loop fuel src cnt (s + 1) (d + 1) buf1.
Proof.
  intros Hs Hb Hst. simpl. assert ((s <? cnt) = true) as -> by lia.
  rewrite Hb. simpl. rewrite Hst. done.
Qed.

Lemma st_ok l i v : 0 <= i < len l -> exists l', st l i v = Done l'.
Proof. intros H. eexists. apply st_in_range. done. Qed.

Lemma copy_loop_run src cnt (n : nat) : forall s d buf,
  0 <= s <= cnt -> cnt - s <= Z.of_nat n -> cnt <= len src -> 0 <= d ->
  d + (cnt - s) <= len buf ->
  exists buf', forall fuel, cnt - s <= Z.of_nat fuel ->
    copy_loop fuel src cnt s d buf = Done (cnt, d + (cnt - s), buf').
Proof.
  induction n as [|n IH]; intros s d buf H0 Hn Hc Hd Hroom.
  - exists buf. intros fuel _.
    replace s with cnt by lia. rewrite Z.sub_diag, Z.add_0_r.
    destruct fuel; simpl; rewrite Z.ltb_irrefl; done.
  - destruct (Z.lt_ge_cases s cnt) as [Hlt|Hge].
    + destruct (ld_in_range src s) as [b Hb]; [lia|].
      destruct (st_ok buf d b) as [buf1 Hst]; [lia|].
      pose proof (st_len _ _ _ _ Hst) as Hl.
      destruct (IH (s + 1) (d + 1) buf1) as [buf' Hb']; try lia.
      exists buf'. intros [|fuel] Hf; [lia|].
      erewrite copy_loop_step by eassumption.
      rewrite Hb' by lia. do 3 f_equal. lia.
    + exists buf. intros fuel _.
      replace s with cnt by lia. rewrite Z.sub_diag, Z.add_0_r.
      destruct fuel; simpl; rewrite Z.ltb_irrefl; done.
Qed.

Ltac st_facts :=
  repeat match goal with
  | H : st ?l ?i ?v = Done ?l' |- _ =>
      lazymatch goal with
      | _ : len l' = len l |- _ => fail
      | _ => pose proof (st_len _ _ _ _ H);
             let R := fresh "R" in
             assert (R : 0 <= i < len l) by (apply st_Done in H; tauto)
      end
  end.

(** Reading back through a chain of stores. *)
Ltac ld_chain :=
  repeat first
    [ erewrite ld_st_eq by eassumption
    | erewrite ld_st_ne by (first [eassumption | lia]) ];
  try done.

Section Forward_frame.
Variable src : list Z.
Local Abbreviation count := (len src).
Local Abbreviation end_ := (len src - 8).

Lemma fwd_rest_exit f1 f2 s d buf :
  end_ <= s -> fwd_rest f1 f2 src s d buf = copy_loop f2 src count s d buf.
Proof.
  intros H. unfold fwd_rest.
  destruct f1; simpl; assert ((s <? end_) = false) as -> by lia; done.
Qed.

Definition fwd_post (s d : Z) (buf : list Z) (sF dF : Z) (memF : list Z) : Prop :=
  sF = count /\ count - s <= dF - d /\ (end_ <= s -> dF - d = count - s) /\
  len memF = len buf /\ dF <= len buf /\
  (forall k, k < d -> ld memF k = ld buf k) /\
  (s < count -> ld memF d = ld src s).

Lemma fwd_rest_Done_exit f1 f2 s d buf sF dF memF :
  end_ <= s ->
  fwd_rest f1 f2 src s d buf = Done (sF, dF, memF) ->
  0 <= s <= count -> 0 <= d <= len buf ->
  fwd_post s d buf sF dF memF.
Proof.
  intros Hge H Hs Hd. rewrite fwd_rest_exit in H by done.
  apply copy_loop_Done in H as (-> & -> & Hl & Hroom & Hfr & Hcp); [|lia].
  unfold fwd_post. repeat split; try lia.
  - done.
  - intros Hlt. specialize (Hcp s). rewrite Z.sub_diag, Z.add_0_r in Hcp.
    apply Hcp. lia.
Qed.

Lemma fwd_rest_Done f1 f2 : forall s d buf sF dF memF,
  fwd_rest f1 f2 src s d buf = Done (sF, dF, memF) ->
  0 <= s <= count -> 0 <= d <= len buf ->
  fwd_post s d buf sF dF memF.
Proof.
  induction f1 as [|f1 IH]; intros s d buf sF dF memF H Hs Hd;
    (destruct (Z.lt_ge_cases s end_) as [Hlt|Hge];
     [|eapply fwd_rest_Done_exit; eassumption]).
  - unfold fwd_rest in H. simpl in H.
    assert ((s <? end_) = true) as E by lia. rewrite E in H. discriminate.
  - unfold fwd_rest in H. apply bind_Done in H as ([[s1 d1] b1] & Hloop & Hcopy).
    simpl in Hloop. assert ((s <? end_) = true) as E by lia. rewrite E in Hloop.
    inv_bind Hloop. inv_bind Hloop. inv_bind Hloop.
    rewrite Z.add_simpl_r in E2. rewrite E0 in E2. injection E2 as <-.
    assert (Hrest : forall s' d' buf',
      forward_loop f1 src end_ s' d' buf' = Done (s1, d1, b1) ->
      fwd_rest f1 f2 src s' d' buf' = Done (sF, dF, memF)).
    { intros s' d' buf' Hl. unfold fwd_rest. rewrite Hl. exact Hcopy. }
    destruct (negb (is_jump v)).
    { apply Hrest, IH in Hloop; st_facts; try lia.
      destruct Hloop as (-> & ? & ? & ? & ? & Hfr & Hfst).
      unfold fwd_post. repeat split; try lia.
      - intros k Hk. rewrite Hfr by lia. ld_chain.
      - intros _. rewrite Hfr by lia. rewrite E0. ld_chain. }
    inv_bind Hloop.
    destruct ((v1 =? 0) || (v1 =? 1) || (v1 =? _X86_ESCAPE)).
    { inv_bind Hloop. inv_bind Hloop.
      apply Hrest, IH in Hloop; st_facts; try lia.
      destruct Hloop as (-> & ? & ? & ? & ? & Hfr & Hfst).
      unfold fwd_post. repeat split; try lia.
      - intros k Hk. rewrite Hfr by lia. ld_chain.
      - intros _. rewrite Hfr by lia. rewrite E0. ld_chain. }
    inv_bind Hloop.
    destruct (negb (v2 =? 0) && negb (v2 =? 255)).
    { apply Hrest, IH in Hloop; st_facts; try lia.
      destruct Hloop as (-> & ? & ? & ? & ? & Hfr & Hfst).
      unfold fwd_post. repeat split; try lia.
      - intros k Hk. rewrite Hfr by lia. ld_chain.
      - intros _. rewrite Hfr by lia. rewrite E0. ld_chain. }
    do 3 inv_bind Hloop. do 4 inv_bind Hloop.
    apply Hrest, IH in Hloop; st_facts; try lia.
    destruct Hloop as (-> & ? & ? & ? & ? & Hfr & Hfst).
    unfold fwd_post. repeat split; try lia.
    + intros k Hk. rewrite Hfr by lia. ld_chain.
    + intros _. rewrite Hfr by lia. rewrite E0. ld_chain.
Qed.
End Forward_frame.

Section Inverse_steps.
Variables (enc : list Z) (g1 g2 : nat) (i j : Z) (ibuf ibuf1 : list Z) (b : Z).
Hypothesis Hi : i < len enc - 8.
Hypothesis Hb : ld enc i = Done b.
Hypothesis Hst : st ibuf j b = Done ibuf1.

Lemma inv_rest_exit k :
  len enc - 8 <= k -> inv_rest g1 g2 enc k j ibuf = copy_loop g2 enc (len enc) k j ibuf.
Proof.
  intros H. unfold inv_rest.
  destruct g1; simpl; assert ((k <? len enc - 8) = false) as -> by lia; done.
Qed.

Lemma inv_rest_plain :
  is_jump b = false ->
  inv_rest (S g1) g2 enc i j ibuf = inv_rest g1 g2 enc (i + 1) (j + 1) ibuf1.
Proof.
  intros Hj. unfold inv_rest. simpl.
  assert ((i <? len enc - 8) = true) as -> by lia.
  rewrite Hb. simpl. rewrite Hst. simpl.
  rewrite Z.add_simpl_r, Hb. simpl. rewrite Hj. done.
Qed.

Lemma inv_rest_escape :
  is_jump b = true -> ld enc (i + 1) = Done _X86_ESCAPE ->
  inv_rest (S g1) g2 enc i j ibuf = inv_rest g1 g2 enc (i + 1 + 1) (j + 1) ibuf1.
Proof.
  intros Hj He. unfold inv_rest. simpl.
  assert ((i <? len enc - 8) = true) as -> by lia.
  rewrite Hb. simpl. rewrite Hst. simpl.
  rewrite Z.add_simpl_r, Hb. simpl. rewrite Hj. simpl. rewrite He. done.
Qed.

Lemma inv_rest_skip c :
  is_jump b = true -> ld enc (i + 1) = Done c ->
  c <> _X86_ESCAPE -> c <> 1 -> c <> 0 ->
  inv_rest (S g1) g2 enc i j ibuf = inv_rest g1 g2 enc (i + 1) (j + 1) ibuf1.
Proof.
  intros Hj Hc H2 H1 H0. unfold inv_rest. simpl.
  assert ((i <? len enc - 8) = true) as -> by lia.
  rewrite Hb. simpl. rewrite Hst. simpl.
  rewrite Z.add_simpl_r, Hb. simpl. rewrite Hj. simpl. rewrite Hc. simpl.
  assert ((c =? _X86_ESCAPE) = false) as -> by lia.
  assert ((c =? 1) = false) as -> by lia.
  assert ((c =? 0) = false) as -> by lia. done.
Qed.

Lemma inv_rest_addr sgn e1 e2 e3 ibuf2 ibuf3 ibuf4 ibuf5 :
  is_jump b = true -> ld enc (i + 1) = Done sgn -> (sgn = 0 \/ sgn = 1) ->
  ld enc (i + 1 + 3) = Done e3 -> ld enc (i + 1 + 2) = Done e2 ->
  ld enc (i + 1 + 1) = Done e1 ->
  let addr :=
    int32 (Z.lor (Z.lor (Z.lor (Z.lxor _X86_ADDRESS_MASK (int32 e3))
                               (int32 (Z.shiftl (Z.lxor _X86_ADDRESS_MASK (int32 e2)) 8)))
                        (int32 (Z.shiftl (Z.lxor _X86_ADDRESS_MASK (int32 e1)) 16)))
                 (int32 (Z.shiftl (Z.land 0xFF (int32 (byte (sgn - 1)))) 24))
           - int32 (j + 1)) in
  st ibuf1 (j + 1) (byte addr) = Done ibuf2 ->
  st ibuf2 (j + 1 + 1) (byte (Z.shiftr addr 8)) = Done ibuf3 ->
  st ibuf3 (j + 1 + 2) (byte (Z.shiftr addr 16)) = Done ibuf4 ->
  st ibuf4 (j + 1 + 3) (byte (sgn - 1)) = Done ibuf5 ->
  inv_rest (S g1) g2 enc i j ibuf = inv_rest g1 g2 enc (i + 1 + 4) (j + 1 + 4) ibuf5.
Proof.
  intros Hj Hs Hsv H3 H2 H1 addr S1 S2 S3 S4. unfold inv_rest. simpl.
  assert ((i <? len enc - 8) = true) as -> by lia.
  rewrite Hb. simpl. rewrite Hst. simpl.
  rewrite Z.add_simpl_r, Hb. simpl. rewrite Hj. simpl. rewrite Hs. simpl.
  assert ((sgn =? _X86_ESCAPE) = false) as -> by (unfold _X86_ESCAPE; lia).
  assert ((negb (sgn =? 1) && negb (sgn =? 0)) = false) as ->
    by (destruct Hsv as [-> | ->]; done).
  rewrite H3. simpl. rewrite H2. simpl. rewrite H1. simpl.
  fold addr. rewrite S1. simpl. rewrite S2. simpl. rewrite S3. simpl.
  rewrite S4. done.
Qed.
End Inverse_steps.

Lemma is_jump_small c : (c =? 0) || (c =? 1) || (c =? _X86_ESCAPE) = true -> is_jump c = false.
Proof.
  unfold _X86_ESCAPE. intros H.
  assert (c = 0 \/ c = 1 \/ c = 2) as [-> | [-> | ->]] by lia; reflexivity.
Qed.

Section Simulation.
Variable src : list Z.
Hypothesis Hsrc : bytes_ok src.
Variables (dF : Z) (memF enc : list Z).
Hypothesis Henc_len : len enc = dF.
Hypothesis Henc : forall k, 0 <= k < dF -> ld enc k = ld memF k.
Local Abbreviation count := (len src).
Local Abbreviation end_ := (len src - 8).

Definition inv_goal (s d : Z) (ibuf : list Z) : Prop :=
  exists ibuf',
    (forall g1 g2, dF - d <= Z.of_nat g1 -> dF - d <= Z.of_nat g2 ->
       inv_rest g1 g2 enc d s ibuf = Done (dF, count, ibuf')) /\
    len ibuf' = len ibuf /\
    (forall k, 0 <= k < count -> ld ibuf' k = ld src k).

Lemma simulation_exit f1 f2 s d buf ibuf :
  end_ <= s ->
  fwd_rest f1 f2 src s d buf = Done (count, dF, memF) ->
  0 <= s <= count -> 0 <= d <= len buf ->
  count <= len ibuf -> (forall k, 0 <= k < s -> ld ibuf k = ld src k) ->
  inv_goal s d ibuf.
Proof.
  intros Hge H Hs Hd Hroom Hinv.
  pose proof (fwd_rest_Done_exit _ _ _ _ _ _ _ _ _ Hge H Hs Hd)
    as (_ & _ & Hlen & _ & _ & _ & _).
  specialize (Hlen Hge).
  rewrite fwd_rest_exit in H by done.
  apply copy_loop_Done in H as (_ & HdF & _ & _ & _ & Hcp); [|lia].
  destruct (copy_loop_run enc (len enc) (Z.to_nat (dF - d)) d s ibuf)
    as [ibuf' Hrun]; try lia.
  exists ibuf'. split; [|split].
  - intros g1 g2 _ Hg2. rewrite inv_rest_exit by lia.
    rewrite Hrun by lia. do 3 f_equal; lia.
  - specialize (Hrun (Z.to_nat (dF - d)) ltac:(lia)).
    apply copy_loop_Done in Hrun as (_ & _ & Hl & _); [done | lia].
  - intros k Hk.
    specialize (Hrun (Z.to_nat (dF - d)) ltac:(lia)).
    apply copy_loop_Done in Hrun as (_ & _ & _ & _ & Hfr & Hcp'); [|lia].
    destruct (Z.lt_ge_cases k s) as [Hlt|Hge'].
    + rewrite Hfr by lia. apply Hinv. lia.
    + specialize (Hcp' (d + (k - s)) ltac:(lia)).
      replace (s + (d + (k - s) - d)) with k in Hcp' by lia.
      rewrite Hcp', Henc by lia. apply Hcp. lia.
Qed.


Ltac enc_at Hfr :=
  rewrite Henc by lia; rewrite Hfr by lia; ld_chain.

Ltac inv_keep Hinv :=
  let k := fresh "k" in let Hk := fresh "Hk" in
  intros k Hk;
  match goal with
  | |- ld _ k = ld src k =>
      first [ rewrite <- (Hinv k) by lia; ld_chain | idtac ]
  end.

Lemma simulation f1 f2 : forall s d buf ibuf,
  fwd_rest f1 f2 src s d buf = Done (count, dF, memF) ->
  0 <= s <= count -> 0 <= d <= len buf ->
  count <= len ibuf -> (forall k, 0 <= k < s -> ld ibuf k = ld src k) ->
  inv_goal s d ibuf.
Proof.
  induction f1 as [|f1 IH]; intros s d buf ibuf H Hs Hd Hroom Hinv;
    (destruct (Z.lt_ge_cases s end_) as [Hlt|Hge];
     [|eapply simulation_exit; eassumption]).
  - unfold fwd_rest in H. simpl in H.
    assert ((s <? end_) = true) as E by lia. rewrite E in H. discriminate.
  - pose proof (fwd_rest_Done _ _ _ _ _ _ _ _ _ H Hs Hd) as (_ & Hlen0 & _).
    unfold fwd_rest in H. apply bind_Done in H as ([[s1 d1] b1] & Hloop & Hcopy).
    simpl in Hloop. assert ((s <? end_) = true) as E by lia. rewrite E in Hloop.
    inv_bind Hloop. inv_bind Hloop. inv_bind Hloop.
    rewrite Z.add_simpl_r in E2. rewrite E0 in E2. injection E2 as <-.
    assert (Hrest : forall s' d' buf',
      forward_loop f1 src end_ s' d' buf' = Done (s1, d1, b1) ->
      fwd_rest f1 f2 src s' d' buf' = Done (count, dF, memF)).
    { intros s' d' buf' Hl. unfold fwd_rest. rewrite Hl. exact Hcopy. }
    destruct (st_ok ibuf s v) as [ibuf1 Hst1]; [lia|].
    destruct (is_jump v) eqn:Hjmp; simpl in Hloop.
    2:{ (* plain byte *)
      apply Hrest in Hloop. st_facts.
      pose proof (fwd_rest_Done _ _ _ _ _ _ _ _ _ Hloop ltac:(lia) ltac:(lia))
        as (_ & ? & _ & _ & _ & Hfr & _).
      assert (Hd0 : ld enc d = Done v) by enc_at Hfr.
      destruct (IH _ _ _ ibuf1 Hloop) as (ibuf' & Hrun & Hl' & Hout); try lia.
      { intros k Hk. destruct (Z.eq_dec k s) as [->|]; [rewrite E0|rewrite <- Hinv by lia]; ld_chain. }
      exists ibuf'. split; [|split; [lia | done]].
      intros [|g1] g2 Hg1 Hg2; [lia|].
      erewrite inv_rest_plain by (first [eassumption | lia]).
      apply Hrun; lia. }
    inv_bind Hloop.
    destruct ((v1 =? 0) || (v1 =? 1) || (v1 =? _X86_ESCAPE)) eqn:Hcur.
    { (* escaped operand *)
      inv_bind Hloop. inv_bind Hloop.
      apply Hrest in Hloop. st_facts.
      pose proof (fwd_rest_Done _ _ _ _ _ _ _ _ _ Hloop ltac:(lia) ltac:(lia))
        as (_ & ? & _ & _ & _ & Hfr & _).
      assert (Hd0 : ld enc d = Done v) by enc_at Hfr.
      assert (Hd1 : ld enc (d + 1) = Done _X86_ESCAPE) by enc_at Hfr.
      assert (Hd2 : ld enc (d + 1 + 1) = Done v1) by enc_at Hfr.
      destruct (st_ok ibuf1 (s + 1) v1) as [ibuf2 Hst2]; [lia|]. st_facts.
      destruct (IH _ _ _ ibuf2 Hloop) as (ibuf' & Hrun & Hl' & Hout); try lia.
      { intros k Hk.
        assert (k < s \/ k = s \/ k = s + 1) as [?|[->| ->]] by lia;
          [rewrite <- Hinv by lia | rewrite E0 | rewrite E2]; ld_chain. }
      exists ibuf'. split; [|split; [lia | done]].
      intros [|g1] g2 Hg1 Hg2; [lia|].
      erewrite inv_rest_escape by (first [eassumption | lia]).
      destruct (Z.lt_ge_cases (d + 1 + 1) (len enc - 8)) as [Hin|Hout'].
      - destruct g1 as [|g1]; [lia|].
        erewrite inv_rest_plain;
          [| lia | eassumption | eassumption | apply is_jump_small; done].
        replace (d + 1 + 1 + 1) with (d + 1 + 2) by lia.
        apply Hrun; lia.
      - rewrite inv_rest_exit by lia.
        destruct g2 as [|g2]; [lia|].
        erewrite copy_loop_step by (first [eassumption | lia]).
        rewrite <- (inv_rest_exit enc g1 g2) by lia.
        replace (d + 1 + 1 + 1) with (d + 1 + 2) by lia.
        apply Hrun; lia. }
    inv_bind Hloop.
    destruct (negb (v2 =? 0) && negb (v2 =? 255)) eqn:Hsgn.
    { (* not a relative jump: the operand is copied by later iterations *)
      apply Hrest in Hloop. st_facts.
      pose proof (fwd_rest_Done _ _ _ _ _ _ _ _ _ Hloop ltac:(lia) ltac:(lia))
        as (_ & ? & _ & _ & _ & Hfr & Hfst).
      assert (Hd0 : ld enc d = Done v) by enc_at Hfr.
      assert (Hd1 : ld enc (d + 1) = Done v1).
      { rewrite Henc by lia. rewrite Hfst by lia. done. }
      destruct (IH _ _ _ ibuf1 Hloop) as (ibuf' & Hrun & Hl' & Hout); try lia.
      { intros k Hk. destruct (Z.eq_dec k s) as [->|]; [rewrite E0|rewrite <- Hinv by lia]; ld_chain. }
      exists ibuf'. split; [|split; [lia | done]].
      intros [|g1] g2 Hg1 Hg2; [lia|].
      unfold _X86_ESCAPE in Hcur.
      erewrite inv_rest_skip;
        [| lia | eassumption | eassumption | done | eassumption
         | unfold _X86_ESCAPE; lia | lia | lia].
      apply Hrun; lia. }
    (* rewritten address *)
    do 3 inv_bind Hloop. do 4 inv_bind Hloop.
    rewrite E2 in E4. injection E4 as <-.
    assert (Hsv : v2 = 0 \/ v2 = 255) by lia.
    apply Hrest in Hloop. st_facts.
    pose proof (fwd_rest_Done _ _ _ _ _ _ _ _ _ Hloop ltac:(lia) ltac:(lia))
      as (_ & ? & _ & _ & _ & Hfr & _).
    pose proof (ld_bytes _ _ _ Hsrc E2) as B0.
    pose proof (ld_bytes _ _ _ Hsrc E5) as B1.
    pose proof (ld_bytes _ _ _ Hsrc E6) as B2.
    pose proof (addr_roundtrip v1 v4 v5 v2 (s + 1) B0 B1 B2 Hsv) as RT.
    cbv zeta in RT. destruct RT as (RT0 & RT1 & RT2 & RT3).
    assert (Hd0 : ld enc d = Done v) by enc_at Hfr.
    match type of E7 with st _ _ ?x = _ =>
      assert (Hd1 : ld enc (d + 1) = Done x) by enc_at Hfr end.
    match type of E8 with st _ _ ?x = _ =>
      assert (Hd2 : ld enc (d + 1 + 1) = Done x) by enc_at Hfr end.
    match type of E9 with st _ _ ?x = _ =>
      assert (Hd3 : ld enc (d + 1 + 2) = Done x) by enc_at Hfr end.
    match type of E10 with st _ _ ?x = _ =>
      assert (Hd4 : ld enc (d + 1 + 3) = Done x) by enc_at Hfr end.
    destruct (st_ok ibuf1 (s + 1) v1) as [ibuf2 Hst2]; [lia|]. st_facts.
    destruct (st_ok ibuf2 (s + 1 + 1) v4) as [ibuf3 Hst3]; [lia|]. st_facts.
    destruct (st_ok ibuf3 (s + 1 + 2) v5) as [ibuf4 Hst4]; [lia|]. st_facts.
    destruct (st_ok ibuf4 (s + 1 + 3) v2) as [ibuf5 Hst5]; [lia|]. st_facts.
    destruct (IH _ _ _ ibuf5 Hloop) as (ibuf' & Hrun & Hl' & Hout); try lia.
    { intros k Hk.
      assert (k < s \/ k = s \/ k = s + 1 \/ k = s + 1 + 1 \/ k = s + 1 + 2
              \/ k = s + 1 + 3) as [?|[->|[->|[->|[->| ->]]]]] by lia;
        [rewrite <- Hinv by lia | rewrite E0 | rewrite E2 | rewrite E5
         | rewrite E6 | rewrite E3]; ld_chain. }
    exists ibuf'. split; [|split; [lia | done]].
    intros [|g1] g2 Hg1 Hg2; [lia|].
    erewrite inv_rest_addr;
      [ apply Hrun; lia | lia | eassumption | eassumption | done
      | exact Hd1 | destruct Hsv as [-> | ->]; [right|left]; reflexivity
      | exact Hd4 | exact Hd3 | exact Hd2 | .. ].
    + unfold _X86_ADDRESS_MASK. rewrite RT0. exact Hst2.
    + unfold _X86_ADDRESS_MASK. rewrite RT1. exact Hst3.
    + unfold _X86_ADDRESS_MASK. rewrite RT2. exact Hst4.
    + rewrite RT3. exact Hst5.
Qed.

End Simulation.

Lemma addr0_Done s a : addr0 s = Done a -> a = base s /\ 0 < len (elems s).
Proof.
  unfold addr0, len. destruct (elems s); [discriminate|].
  intros [= <-]. simpl. split; [done | lia].
Qed.

Lemma addr0_nonempty s : 0 < len (elems s) -> addr0 s = Done (base s).
Proof. unfold addr0, len. destruct (elems s); simpl; [lia | done]. Qed.

Lemma Forward_success src dst r :
  Forward src dst = Done r -> err r = None ->
  fwd_rest (length (elems src)) (length (elems src)) (elems src) 0 0 (elems dst)
    = Done (nread r, nwritten r, mem r) /\
  0 < len (elems src) /\ 0 < len (elems dst).
Proof.
  unfold Forward. intros H He.
  inv_bind H. inv_bind H.
  apply addr0_Done in E as [-> ?]. apply addr0_Done in E0 as [-> ?].
  destruct (base src =? base dst); [injection H as <-; discriminate|].
  destruct (len (elems dst) <? _); [injection H as <-; discriminate|].
  inv_bind H.
  destruct (v <? _); [injection H as <-; discriminate|].
  apply bind_Done in H as ([[s1 d1] b1] & Hloop & H).
  apply bind_Done in H as ([[s2 d2] b2] & Hcopy & H).
  injection H as <-; simpl.
  unfold fwd_rest; rewrite Hloop; simpl; rewrite Hcopy; done.
Qed.

(** C1: for a block of fewer than 2^30 bytes on which [Forward] returns
    no error, [Inverse] applied to the bytes [Forward] produced returns no
    error and reproduces the block, byte for byte (the destination of
    [Inverse] is another buffer, at least as long as the block). *)
Theorem X86_roundtrip (src dst dst2 : slice) (r : ret) :
  bytes_ok (elems src) ->
  len (elems src) < 2 ^ 30 ->
  Forward src dst = Done r -> err r = None ->
  base dst2 <> base dst ->
  len (elems src) <= len (elems dst2) ->
  exists r',
    Inverse (Slice (base dst) (output r)) dst2 = Done r' /\
    err r' = None /\ nread r' = nwritten r /\
    nwritten r' = len (elems src) /\ output r' = elems src.
Proof.
  intros Hb _ HF He Hne Hroom.
  apply Forward_success in HF as (HF & Hs & Hd); [|done].
  pose proof (fwd_rest_Done _ _ _ _ _ _ _ _ _ HF ltac:(lia) ltac:(lia))
    as (HsF & Hlen & _ & HlF & HdF & _ & _).
  rewrite HsF in HF.
  assert (Hel : len (output r) = nwritten r).
  { unfold output. apply len_take. lia. }
  destruct (simulation (elems src) Hb (nwritten r) (mem r) (output r) Hel)
    with (f1 := length (elems src)) (f2 := length (elems src)) (s := 0) (d := 0)
         (buf := elems dst) (ibuf := elems dst2)
    as (ibuf' & Hrun & Hl' & Hout); try done; try lia.
  { intros k Hk. unfold output. apply ld_take; lia. }
  specialize (Hrun (length (output r)) (length (output r))).
  exists (Ret (nwritten r) (len (elems src)) None ibuf').
  split; [|repeat split].
  - unfold Inverse.
    rewrite (addr0_nonempty dst2) by lia.
    rewrite addr0_nonempty by (cbn [elems]; lia). simpl.
    assert ((base dst =? base dst2) = false) as -> by lia.
    unfold inv_rest in Hrun. 
    destruct (inverse_loop _ _ _ _ _ _) as [[[i1 j1] b1]| |] eqn:Hil;
      simpl in Hrun |- *; try (specialize (Hrun ltac:(unfold len in *; lia) ltac:(unfold len in *; lia)); discriminate).
    rewrite Hrun by (unfold len in *; lia). done.
  - unfold output. simpl. apply ld_ext.
    + rewrite len_take; lia.
    + intros k Hk. rewrite len_take in Hk by lia.
      rewrite ld_take by lia. apply Hout. lia.
Qed.


(** A block with an escaped operand, a rewritten forward jump, a rewritten
    backward jump and a jump-like byte in the last eight bytes. *)
Definition x86_sample : list Z :=
  [0xE8; 5; 0; 0; 0; 0xE8; 0; 0; 0; 0; 0xE9; 0x10; 0x20; 0x30; 0xFF; 7;
   0xE8; 1; 2; 3; 4; 5; 6; 7; 8; 9; 10; 11].

Definition x86_sample_ret : ret :=
  Ret 28 30 None
    ([232; 1; 213; 213; 211; 232; 2; 0; 0; 0; 0; 233; 0; 229; 245; 206; 7;
      232; 2; 1; 2; 3; 4; 5; 6; 7; 8; 9; 10; 11] ++ replicate 50 0).

Lemma X86_roundtrip_witness :
  exists r',
    Inverse (Slice 1 (output x86_sample_ret)) (Slice 2 (replicate 28 0)) = Done r' /\
    err r' = None /\ nread r' = nwritten x86_sample_ret /\
    nwritten r' = len x86_sample /\ output r' = x86_sample.
Proof.
  apply (X86_roundtrip (Slice 0 x86_sample) (Slice 1 (replicate 80 0))
           (Slice 2 (replicate 28 0)) x86_sample_ret).
  - unfold bytes_ok, x86_sample. repeat (constructor; [unfold is_byte; lia|]).
    constructor.
  - vm_compute. reflexivity.
  - vm_compute. reflexivity.
  - reflexivity.
  - simpl. lia.
  - vm_compute. discriminate.
Defined.

(** C8 (as amended): [MaxEncodedLen n] is [n + max(32, n/16)] below 1 GiB
    and [n] from 1 GiB on. *)
Theorem MaxEncodedLen_value (n : Z) :
  MaxEncodedLen n = if n <? 2 ^ 30 then n + Z.max 32 (n ÷ 16) else n.
Proof.
  unfold MaxEncodedLen.
  destruct (2 ^ 30 <=? n) eqn:E1; destruct (n <? 2 ^ 30) eqn:E2; try lia.
  destruct (n <=? 512) eqn:E3.
  - assert (n ÷ 16 <= 32) by (Z.quot_rem_to_equations; lia). lia.
  - assert (32 <= n ÷ 16) by (Z.quot_rem_to_equations; lia). lia.
Qed.

(** C8, counterexample: at exactly 1 GiB the code returns [n]. *)
Lemma MaxEncodedLen_counterexample :
  MaxEncodedLen (2 ^ 30) = 2 ^ 30 /\
  (MaxEncodedLen (2 ^ 30) =? 2 ^ 30 + Z.max 32 (2 ^ 30 ÷ 16)) = false.
Proof. split; reflexivity. Qed.

(** The relative jumps of the claim: positions [i < count - 8] with a byte
    0xE8 or 0xE9 whose operand has the sign byte 0x00 or 0xFF and a first
    byte other than 0, 1 and the escape symbol. *)
Definition valid_jump (src : list Z) (i : Z) : bool :=
  match ld src i, ld src (i + 1), ld src (i + 4) with
  | Done b, Done c, Done s =>
      is_jump b && ((s =? 0) || (s =? 255))
      && negb ((c =? 0) || (c =? 1) || (c =? _X86_ESCAPE))
  | _, _, _ => false
  end.

Definition valid_jumps (src : list Z) : Z :=
  len (filter (fun i => valid_jump src i = true) (seqZ 0 (len src - 8))).

(** 128 bytes: a call whose operand starts with 0, then zeros. *)
Definition x86_one_conflicting_jump : list Z := [0xE8; 0; 0; 0; 0] ++ replicate 123 0.

(** C9: a block of 128 bytes without any valid relative jump of the claim
    (its only jump has an operand that starts with 0) must be refused, as
    [count / 128 = 1]; the counting loop tests the byte of the instruction
    where it means its operand, counts the jump, and [Forward] transforms
    the block: it returns (128, 129, nil). *)
Theorem Forward_counts_conflicting_jumps :
  valid_jumps x86_one_conflicting_jump = 0 /\
  Z.shiftr (len x86_one_conflicting_jump) 7 = 1 /\
  count_jumps 128 x86_one_conflicting_jump 120 0 0 = Done 1 /\
  Forward (Slice 0 x86_one_conflicting_jump) (Slice 1 (replicate 160 0))
  = Done (Ret 128 129 None
            ([0xE8; 2; 0; 0; 0; 0] ++ replicate 123 0 ++ replicate 31 0)).
Proof. vm_compute. repeat split; reflexivity. Qed.

End X86Facts.

(** * Run length transform: facts *)

Module RLTFacts.

(** Every byte value occurs (so that the escape symbol, the least frequent
    one, occurs in the block), there is a run, and the escape symbol 0 is
    the last byte. *)
Definition rlt_escape_last : list Z := seqZ 1 255 ++ replicate 100 97 ++ [0].

(** C3: on [rlt_escape_last] (356 bytes) [Forward] succeeds and writes 263
    bytes, the last of which is the escape symbol, copied as it is by the
    loop that copies the last few bytes; [Inverse] on these bytes fails
    with "Invalid input data" after 355 bytes and does not reproduce the
    block. *)
Theorem Forward_copies_escape_unescaped :
  match RLT.Forward (Slice 0 rlt_escape_last) (Slice 1 (replicate 388 0)) with
  | Done r =>
      nread r = 356 /\ nwritten r = 263 /\ err r = None /\
      last (output r) = Some 0 /\
      match RLT.Inverse (Slice 1 (output r)) (Slice 2 (replicate 400 0)) with
      | Done r' =>
          err r' = Some ErrInvalid /\ nwritten r' = 355 /\
          bool_decide (output r' = rlt_escape_last) = false
      | _ => False
      end
  | _ => False
  end.
Proof. vm_compute. repeat split; reflexivity. Qed.

End RLTFacts.

(** * Text codec: facts *)

Module TextFacts.

(** What a call on a fresh variant-1 codec hands back. *)
Definition result_of (o : outcome (textCodec1 * ret)) : option ret :=
  match o with
  | Done (_, r) => Some r
  | _ => None
  end.

(** An encoded block whose only token is an escape followed by the three
    byte varint of index 2^19 - 1, beyond the 65536 entries of the
    dictionary of a fresh codec. *)
Definition bad_index_block : list Z := [0x04; 0x0F; 0xFF; 0xFF; 0x7F].

(** C4: on an escape token followed by a varint word index beyond the
    dictionary size, at the end of the input, [textCodec1.Inverse] leaves
    its loop without setting an error and returns (5, 0, nil): the input is
    accepted, where the claim asks for a non-nil error. *)
Theorem Inverse_accepts_index_out_of_range :
  result_of (textCodec1.Inverse newTextCodec1 (Slice 1 bad_index_block)
               (Slice 2 (replicate 16 0)))
  = Some (Ret 5 0 None (replicate 16 0)).
Proof. vm_compute. reflexivity. Qed.


(** Two lines: the first ends with CR LF, the second with a bare LF, and
    the block ends with a CR. *)
Definition crlf_block : list Z :=
  [97; 97; 97; 48; CR; LF; LF; 97; 97; 97; 48; CR].

(** C2: [computeStats] classifies [crlf_block] as text and sets the CRLF
    flag, as the counts of CR and LF are equal and no CR is followed by
    another byte; [Forward] succeeds and drops both CR; [Inverse] succeeds
    and puts one CR before each LF: the block is not reproduced. *)
Theorem Forward_Inverse_not_identity :
  computeStats crlf_block = Z.lor TC_MASK_FULL_ASCII TC_MASK_CRLF /\
  match result_of (textCodec1.Forward newTextCodec1 (Slice 0 crlf_block)
                     (Slice 1 (replicate 12 0))) with
  | Some r =>
      nread r = 12 /\ nwritten r = 11 /\ err r = None /\
      match result_of (textCodec1.Inverse newTextCodec1 (Slice 1 (output r))
                         (Slice 2 (replicate 32 0))) with
      | Some r' =>
          err r' = None /\
          output r' = [97; 97; 97; 48; CR; LF; CR; LF; 97; 97; 97; 48] /\
          bool_decide (output r' = crlf_block) = false
      | None => False
      end
  | None => False
  end.
Proof. vm_compute. repeat split; reflexivity. Qed.

End TextFacts.

(** * Empty input *)

Module EmptyInput.

(** C10: on an empty source [X86Codec.Forward] and [X86Codec.Inverse] take
    the address of [src[0]] first and panic, whatever the destination;
    [TextCodec.Forward] and [RLT.Forward] test the length first and return
    (0, 0, nil) with the destination untouched. *)
Theorem empty_source (b : Z) (dst : slice) (tc : TextCodec.TextCodec) :
  X86Codec.Forward (Slice b []) dst = Panic /\
  X86Codec.Inverse (Slice b []) dst = Panic /\
  TextCodec.Forward tc (Slice b []) dst = Done (tc, Ret 0 0 None (elems dst)) /\
  RLT.Forward (Slice b []) dst = Done (Ret 0 0 None (elems dst)).
Proof. repeat split; reflexivity. Qed.

End EmptyInput.

(** * TPAQ predictor: facts *)

Module TPAQFacts.
Import TPAQ.

Lemma b2z_range (b : bool) : 0 <= Z.b2z b <= 1.
Proof. destruct b; simpl; lia. Qed.


Section Mixer.
Context {U : Utilities}.





End Mixer.

Section Accounting.
Context {U : Utilities}.

Definition next_c0 (c0 : Z) (bit : bool) : Z := Z.lor (shl32 c0 1) (Z.b2z bit).

Lemma Update_sse_counters this bit :
  let s := (Update_sse this bit).1 in
  let c := next_c0 (c0 this) bit in
  c0 s = (if 255 <? c then 1 else c) /\
  bpos s = (if 255 <? c then 0 else bpos this + 1) /\
  pos s = (if 255 <? c then add32 (pos this) 1 else pos this) /\
  statesMask s = statesMask this /\ mixersMask s = mixersMask this.
Proof.
  unfold Update_sse, next_c0.
  destruct (255 <? _).
  - destruct (findMatch _ _ _ _ _ _) as [ml mp].
    destruct (_ <? Z.shiftr _ 2).
    all: cbv beta iota zeta; unfold next_state; cbv beta iota zeta.
    all: destruct (addMatchContextPred _ _ _ _ _) as [ml' p7].
    all: unfold mixer_get; cbv beta iota zeta.
    all: destruct (apm_get _ _ _ _) as [a p]; cbn; auto.
  - cbv beta iota zeta. unfold next_state; cbv beta iota zeta.
    destruct (addMatchContextPred _ _ _ _ _) as [ml' p7].
    unfold mixer_get; cbv beta iota zeta.
    destruct (apm_get _ _ _ _) as [a p]; cbn; auto.
Qed.

Lemma Update_counters this bit :
  let s := Update this bit in
  let c := next_c0 (c0 this) bit in
  c0 s = (if 255 <? c then 1 else c) /\
  bpos s = (if 255 <? c then 0 else bpos this + 1) /\
  pos s = (if 255 <? c then add32 (pos this) 1 else pos this).
Proof.
  pose proof (Update_sse_counters this bit) as H. cbv zeta in *.
  unfold Update. destruct (Update_sse this bit) as [s p]. simpl in *. tauto.
Qed.

Lemma next_c0_value c bit : 1 <= c <= 255 -> next_c0 c bit = 2 * c + Z.b2z bit.
Proof.
  intros H. unfold next_c0, shl32. rewrite Z.shiftl_mul_pow2 by lia.
  rewrite int32_small by lia. rewrite Z.lor_comm.
  pose proof (b2z_range bit). rewrite (lor_disjoint (Z.b2z bit) c 1) by lia. lia.
Qed.

Lemma log2_next c bit : 1 <= c -> Z.log2 (2 * c + Z.b2z bit) = Z.log2 c + 1.
Proof.
  intros H. destruct bit; simpl.
  - rewrite Z.log2_succ_double by lia. lia.
  - rewrite Z.add_0_r, Z.log2_double by lia. lia.
Qed.

(** The counters after [k] updates. *)
Definition accounted (k : Z) (s : TPAQPredictor) : Prop :=
  1 <= c0 s <= 255 /\ Z.log2 (c0 s) = bpos s /\
  bpos s = k mod 8 /\ pos s = int32 (k / 8).

Lemma accounted_step k s bit :
  0 <= k -> accounted k s -> accounted (k + 1) (Update s bit).
Proof.
  intros Hk (Hc & Hlog & Hb & Hp).
  pose proof (Update_counters s bit) as (E0 & Eb & Ep). cbv zeta in *.
  rewrite next_c0_value in * by done.
  pose proof (b2z_range bit) as Hbit.
  pose proof (log2_next (c0 s) bit ltac:(lia)) as Hl.
  assert (Hlo : c0 s < 128 -> Z.log2 (c0 s) <= 6).
  { intros ?. assert (Z.log2 (c0 s) < 7); [|lia].
    apply Z.log2_lt_pow2; [lia|]. change (2 ^ 7) with 128. lia. }
  assert (Hhi : 128 <= c0 s -> Z.log2 (c0 s) = 7).
  { intros ?. apply Z.log2_unique; [lia|]. change (2 ^ 7) with 128.
    change (2 ^ Z.succ 7) with 256. lia. }
  unfold accounted. rewrite E0, Eb, Ep.
  destruct (255 <? 2 * c0 s + Z.b2z bit) eqn:E.
  - specialize (Hhi ltac:(lia)).
    assert (k mod 8 = 7) by lia.
    repeat split; try lia.
    + Z.div_mod_to_equations; lia.
    + rewrite Hp. unfold add32.
      replace ((k + 1) / 8) with (k / 8 + 1) by (Z.div_mod_to_equations; lia).
      unfold int32. Z.div_mod_to_equations; lia.
  - specialize (Hlo ltac:(lia)).
    repeat split; try lia.
    + Z.div_mod_to_equations; lia.
    + rewrite Hp. f_equal. Z.div_mod_to_equations; lia.
Qed.

Lemma accounted_run bits : forall s,
  accounted 0 s -> accounted (Z.of_nat (length bits)) (run s bits).
Proof.
  induction bits as [|b bits IH] using rev_ind; intros s H; [exact H|].
  unfold run. rewrite foldl_app. simpl.
  replace (Z.of_nat (length (bits ++ [b]))) with (Z.of_nat (length bits) + 1)
    by (rewrite length_app; simpl; lia).
  apply accounted_step; [lia|]. apply IH. exact H.
Qed.

Lemma New_accounted ctx this e :
  NewTPAQPredictor ctx = Done (this, e) -> accounted 0 this.
Proof.
  unfold NewTPAQPredictor. intros H.
  apply bind_Done in H as ([ss ms] & _ & H).
  destruct (newLogisticAdaptiveProbMap 65536 7) as [a e'].
  injection H as <- _. unfold accounted. simpl. repeat split; lia.
Qed.

(** C6 (as amended): after [k < 2^34] calls of [Update] on a new predictor,
    [pos * 8 + bpos = k], [1 <= c0 <= 255] and [bpos] is the integer
    logarithm of [c0]; at a byte boundary [bpos = 0] and [c0 = 1].  Beyond
    that, [pos], a 32-bit counter, has wrapped around. *)
Theorem bit_accounting ctx this e (bits : list bool) :
  NewTPAQPredictor ctx = Done (this, e) ->
  Z.of_nat (length bits) < 2 ^ 34 ->
  let s := run this bits in
  pos s * 8 + bpos s = Z.of_nat (length bits) /\
  1 <= c0 s <= 255 /\
  Z.log2 (c0 s) = bpos s /\
  (Z.of_nat (length bits) mod 8 = 0 -> bpos s = 0 /\ c0 s = 1).
Proof.
  intros Hnew Hk s.
  pose proof (accounted_run bits this (New_accounted _ _ _ Hnew))
    as (Hc & Hlog & Hb & Hp).
  fold s in Hc, Hlog, Hb, Hp.
  assert (0 <= Z.of_nat (length bits)) by lia.
  rewrite int32_small in Hp by (Z.div_mod_to_equations; lia).
  split; [|split; [|split]]; try done.
  - rewrite Hp, Hb. Z.div_mod_to_equations; lia.
  - intros H8. split; [lia|].
    assert (Z.log2 (c0 s) = 0) by lia.
    destruct (Z.eq_dec (c0 s) 1) as [|Hne]; [done|].
    assert (0 < Z.log2 (c0 s)) by (apply Z.log2_pos; lia). lia.
Qed.

(** The part of the accounting that holds for every number of calls. *)
Lemma bit_accounting_any ctx this e (bits : list bool) :
  NewTPAQPredictor ctx = Done (this, e) ->
  let s := run this bits in
  1 <= c0 s <= 255 /\ Z.log2 (c0 s) = bpos s /\
  bpos s = Z.of_nat (length bits) mod 8 /\ pos s = int32 (Z.of_nat (length bits) / 8).
Proof. intros Hnew. exact (accounted_run bits this (New_accounted _ _ _ Hnew)). Qed.

Lemma bias_value p :
  0 <= p <= 4095 ->
  p + Z.shiftr (uint32 (uint32 p - 2048)) 31 = if p <? 2048 then p + 1 else p.
Proof.
  intros H. unfold uint32. rewrite Z.shiftr_div_pow2 by lia.
  rewrite (Z.mod_small p) by lia.
  destruct (p <? 2048) eqn:E; Z.div_mod_to_equations; lia.
Qed.

(** C5 (as amended): [Update] stores the value [p] of the secondary
    estimation plus one when [p < 2048], and [p] itself otherwise.  The
    stored prediction is therefore never 0, and it is the centre 2048
    exactly when [p] is 2047 or 2048. *)
Theorem Update_bias this bit :
  let p := (Update_sse this bit).2 in
  0 <= p <= 4095 ->
  Get (Update this bit) = (if p <? 2048 then p + 1 else p) /\
  1 <= Get (Update this bit) <= 4095 /\
  (Get (Update this bit) = 2048 <-> p = 2047 \/ p = 2048).
Proof.
  cbv zeta. unfold Update, Get. destruct (Update_sse this bit) as [s p]. simpl.
  intros H. rewrite bias_value by done.
  destruct (p <? 2048) eqn:E; (split; [done|split; lia]).
Qed.

End Accounting.

(** The predictor the constructor returns without a configuration, on
    [flat_utilities]. *)
Definition flat_predictor : TPAQPredictor (U := flat_utilities) :=
  @Predictor flat_utilities 2048 1 0 0 0 0 0 0 0 0 (int32 (Z.shiftl 1 28 - 1))
    (int32 (Z.shiftl 1 12 - 1)) (tt : @LogisticAdaptiveProbMap flat_utilities)
    ∅ 0 ∅ ∅ ∅ 0 0 0 0 0 0 0 0 0 0 0 0 0 0.

Lemma flat_predictor_new :
  NewTPAQPredictor (U := flat_utilities) None = Done (flat_predictor, None).
Proof. reflexivity. Qed.

(** C5, counterexample: when the secondary estimation returns 2047, the
    stored prediction is the centre 2048. *)
Lemma Update_bias_counterexample :
  (Update_sse (U := flat_utilities) flat_predictor false).2 = 2047 /\
  Get (Update (U := flat_utilities) flat_predictor false) = 2048.
Proof. vm_compute. split; reflexivity. Qed.

Lemma Update_bias_witness :
  0 <= (Update_sse (U := flat_utilities) flat_predictor false).2 <= 4095 /\
  Get (Update (U := flat_utilities) flat_predictor false) = 2048.
Proof.
  assert (H : 0 <= (Update_sse (U := flat_utilities) flat_predictor false).2 <= 4095)
    by (vm_compute; split; discriminate).
  split; [exact H|].
  destruct (Update_bias (U := flat_utilities) flat_predictor false H) as (E & _ & _).
  rewrite E. vm_compute. reflexivity.
Defined.

(** C6, counterexample: after 2^34 calls [pos] has wrapped around to
    -2^31, so that [pos * 8 + bpos] is -2^34 and not the number of calls. *)
Lemma bit_accounting_counterexample :
  let bits := replicate (Z.to_nat (2 ^ 34)) false in
  let s := run (U := flat_utilities) flat_predictor bits in
  Z.of_nat (length bits) = 2 ^ 34 /\ pos s * 8 + bpos s = - 2 ^ 34.
Proof.
  intros bits s.
  assert (Hl : Z.of_nat (length bits) = 2 ^ 34).
  { unfold bits. rewrite length_replicate. apply Z2Nat.id. lia. }
  split; [exact Hl|].
  pose proof (bit_accounting_any (U := flat_utilities) None _ _ bits flat_predictor_new)
    as (_ & _ & Hb & Hp).
  fold s in Hb, Hp. rewrite Hb, Hp, Hl. reflexivity.
Qed.

Lemma bit_accounting_witness :
  let bits := [true; false; true; true; false; false; true; false; true] in
  let s := run (U := flat_utilities) flat_predictor bits in
  pos s * 8 + bpos s = Z.of_nat (length bits) /\ 1 <= c0 s <= 255 /\ Z.log2 (c0 s) = bpos s.
Proof.
  intros bits s.
  destruct (bit_accounting (U := flat_utilities) None flat_predictor None bits
              flat_predictor_new ltac:(vm_compute; reflexivity)) as (H1 & H2 & H3 & _).
  exact (conj H1 (conj H2 H3)).
Defined.

End TPAQFacts.
